(** * Agent-to-agent envelopes, quality gate, fan-out and the aggregating client

    A shallow embedding of the message-passing core of the multi-agent
    repository: the envelope and trace-context helpers of
    [2_Multi_Agent_P2P_NATS/Common/a2a_protocol] and
    [3_Multi_Agent_Hierarchical_NATS/*/common_envelope.py], the Verifier and
    Planner handlers, and the client of [3_Multi_Agent_Hierarchical_NATS/Client].

    Conventions.
    - A Python [str] is a Rocq [string] holding its UTF-8 encoding; [py_len]
      counts code points, so it agrees with Python's [len].
    - A Python [float] is a primitive binary64 [float]; [int] is [Z].
    - Operating-system randomness is an explicit stream of bytes that every
      generator threads through ([entropy]).
    - Exceptions are [option]/sum results; what a handler publishes on the bus
      is the list of (subject, JSON document) pairs it returns. *)

From Stdlib Require Import ZArith NArith Floats Ascii String List Lia Bool.
From stdpp Require Import base option list gmap strings.
Import ListNotations.

Set Warnings "-register-all,-inexact-float".

Local Open Scope string_scope.
Local Open Scope list_scope.

(* ===================================================================== *)
(** * Python strings                                                      *)
(* ===================================================================== *)

Module Py.

(** [len(s)]: the number of code points, that is the bytes of the UTF-8
    encoding that are not continuation bytes (10xxxxxx). *)
Definition is_continuation (c : ascii) : bool :=
  let n := N_of_ascii c in (128 <=? n)%N && (n <? 192)%N.

Fixpoint py_len (s : string) : Z :=
  match s with
  | EmptyString => 0
  | String c r => (if is_continuation c then 0 else 1) + py_len r
  end%Z.

(** [s.startswith(p)] and [needle in hay]. *)
Fixpoint startswith (p s : string) : bool :=
  match p, s with
  | EmptyString, _ => true
  | String a p', String b s' => if ascii_dec a b then startswith p' s' else false
  | String _ _, EmptyString => false
  end.

Fixpoint contains (needle hay : string) : bool :=
  startswith needle hay ||
  match hay with
  | EmptyString => false
  | String _ r => contains needle r
  end.

(** [s.split(sep)] for a one-character separator: the fields between the
    occurrences of [sep], empty fields included; never the empty list. *)
Fixpoint split (sep : ascii) (s : string) : list string :=
  match s with
  | EmptyString => [EmptyString]
  | String c r =>
      if ascii_dec c sep then EmptyString :: split sep r
      else match split sep r with
           | f :: fs => String c f :: fs
           | [] => [String c EmptyString]
           end
  end.

(** [sep not in s]. *)
Fixpoint free_of (sep : ascii) (s : string) : bool :=
  match s with
  | EmptyString => true
  | String c r => (if ascii_dec c sep then false else true) && free_of sep r
  end.

(** [s[:n]] counted in code points. *)
Fixpoint prefix_chars (n : nat) (s : string) : string :=
  match s with
  | EmptyString => EmptyString
  | String c r =>
      if is_continuation c then String c (prefix_chars n r)
      else match n with
           | O => EmptyString
           | S n' => String c (prefix_chars n' r)
           end
  end.

(** ** JSON values: what [json.loads] returns and every payload holds. *)

Inductive json :=
| JNull
| JBool (b : bool)
| JInt (z : Z)
| JFloat (f : float)
| JStr (s : string)
| JList (l : list json)
| JDict (d : gmap string json).

(** Truth value ([bool(v)], the test of [or] and [if]). *)
Definition truthy (v : json) : bool :=
  match v with
  | JNull => false
  | JBool b => b
  | JInt z => negb (z =? 0)%Z
  | JFloat f => negb (f =? 0)%float
  | JStr s => negb (String.length s =? 0)%nat
  | JList l => negb (length l =? 0)%nat
  | JDict d => negb (size d =? 0)%nat
  end.

(** [a or b]. *)
Definition py_or (a b : json) : json := if truthy a then a else b.

(** [d.get(k, dflt)] and [d.get(k)]. *)
Definition dict_get (d : gmap string json) (k : string) (dflt : json) : json :=
  default dflt (d !! k).

(** [d.get(k, dflt) or dflt]. *)
Definition get_or (d : gmap string json) (k : string) (dflt : json) : json :=
  py_or (dict_get d k dflt) dflt.

(** [len(v)]; [None] is the TypeError of an object without a length. *)
Definition len (v : json) : option Z :=
  match v with
  | JStr s => Some (py_len s)
  | JList l => Some (Z.of_nat (length l))
  | JDict d => Some (Z.of_nat (size d))
  | _ => None
  end.

Definition is_str (s : string) (v : json) : bool :=
  match v with
  | JStr t => if string_dec s t then true else false
  | _ => false
  end.

(** [needle in v] for a str needle: substring of a str, element of a list,
    key of a dict; [None] is the TypeError of a non-iterable. *)
Definition str_in (needle : string) (v : json) : option bool :=
  match v with
  | JStr s => Some (contains needle s)
  | JList l => Some (existsb (is_str needle) l)
  | JDict d => Some (bool_decide (is_Some (d !! needle)))
  | _ => None
  end.

(** [int] to [float]: round to nearest, OverflowError beyond the range. *)
Definition float_of_Z (z : Z) : option float :=
  let sf := binary_normalize prec emax z 0 false in
  match sf with
  | S754_infinity _ => None
  | _ => Some (SF2Prim sf)
  end.

(** The built-ins whose tables the handlers never look into: the string
    grammars of [float()] and [int()], [int()] of a float, [str()] of a
    value that is not a str, [str.strip()] and [str.lower()]. *)
Class Runtime := {
  float_of_str : string -> option float;
  int_of_str : string -> option Z;
  int_of_float : float -> option Z;
  repr : json -> string;
  strip : string -> string;
  lower : string -> string
}.

Section Conversions.
Context {rt : Runtime}.

(** [float(v)]; [None] is TypeError, ValueError or OverflowError. *)
Definition py_float (v : json) : option float :=
  match v with
  | JFloat f => Some f
  | JInt z => float_of_Z z
  | JBool b => Some (if b then 1 else 0)%float
  | JStr s => float_of_str s
  | _ => None
  end.

(** [int(v)]. *)
Definition py_int (v : json) : option Z :=
  match v with
  | JInt z => Some z
  | JBool b => Some (if b then 1 else 0)%Z
  | JFloat f => int_of_float f
  | JStr s => int_of_str s
  | _ => None
  end.

(** [str(v)]. *)
Definition py_str (v : json) : string :=
  match v with
  | JStr s => s
  | _ => repr v
  end.

End Conversions.

Definition is_JStr (v : json) : bool :=
  match v with JStr _ => true | _ => false end.

(** [', '.join(sources[:5]) if sources else 'None'] of the user prompts:
    whether it evaluates. A str is sliced and joined character by character,
    a list needs str items among its first five, anything else that is
    truthy cannot be sliced. The prompt text itself only reaches the
    completion service. *)
Definition sources_join_ok (sources : json) : bool :=
  if truthy sources then
    match sources with
    | JStr _ => true
    | JList l => forallb is_JStr (firstn 5 l)
    | _ => false
    end
  else true.

(** [min(a, b)] and [max(a, b)] of the built-ins: the first argument is
    kept unless the second compares strictly below (above) it. *)
Definition py_min (a b : float) : float := if (b <? a)%float then b else a.
Definition py_max (a b : float) : float := if (a <? b)%float then b else a.

End Py.

(* ===================================================================== *)
(** * Randomness: [os.urandom], [secrets.token_hex], [uuid.uuid4]         *)
(* ===================================================================== *)

Module Rand.

(** The operating system's random bytes still to come; byte [i] of the
    stream is [e i mod 256]. *)
Definition entropy := nat -> N.

Definition urandom (n : nat) (e : entropy) : list N * entropy :=
  (map (fun i => (e i mod 256)%N) (seq 0 n), fun i => e (n + i)%nat).

(** Bytes [k] to [k + n - 1] of the stream: what a call for [n] bytes
    returns after [k] bytes have been drawn. *)
Definition drawn (k n : nat) (e : entropy) : list N :=
  map (fun i => (e (k + i)%nat mod 256)%N) (seq 0 n).

Definition hex_digit (d : N) : ascii :=
  match d with
  | 0 => "0" | 1 => "1" | 2 => "2" | 3 => "3" | 4 => "4" | 5 => "5"
  | 6 => "6" | 7 => "7" | 8 => "8" | 9 => "9" | 10 => "a" | 11 => "b"
  | 12 => "c" | 13 => "d" | 14 => "e" | _ => "f"
  end%N%char.

Fixpoint hexlify (bs : list N) : string :=
  match bs with
  | [] => EmptyString
  | b :: r => String (hex_digit (b / 16)) (String (hex_digit (b mod 16)) (hexlify r))
  end.

(** [secrets.token_hex(nbytes)]. *)
Definition token_hex (nbytes : nat) (e : entropy) : string * entropy :=
  let '(bs, e') := urandom nbytes e in (hexlify bs, e').

(** [str(uuid.uuid4())]: sixteen random bytes with the version nibble set
    to 4 and the variant bits to 10, printed 8-4-4-4-12. *)
Definition uuid4_bytes (bs : list N) : list N :=
  imap (fun i b =>
          if Nat.eqb i 6 then N.lor (N.land b 15) 64
          else if Nat.eqb i 8 then N.lor (N.land b 63) 128
          else b) bs.

Definition uuid_str (bs : list N) : string :=
  hexlify (firstn 4 bs) +:+ "-" +:+ hexlify (firstn 2 (skipn 4 bs)) +:+ "-" +:+
  hexlify (firstn 2 (skipn 6 bs)) +:+ "-" +:+ hexlify (firstn 2 (skipn 8 bs)) +:+ "-" +:+
  hexlify (skipn 10 bs).

Definition uuid4 (e : entropy) : string * entropy :=
  let '(bs, e') := urandom 16 e in (uuid_str (uuid4_bytes bs), e').


End Rand.

(* ===================================================================== *)
(** * common_trace.py                                                     *)
(* ===================================================================== *)

Module Trace.
Import Py Rand.

Definition _hex (nbytes : nat) (e : entropy) : string * entropy := token_hex nbytes e.

(** [new_traceparent()]: version 00, a 16-byte trace id, an 8-byte span id
    and the flags 01. *)
Definition new_traceparent (e : entropy) : string * entropy :=
  let '(trace_id, e1) := _hex 16 e in
  let '(span_id, e2) := _hex 8 e1 in
  ("00-" +:+ trace_id +:+ "-" +:+ span_id +:+ "-" +:+ "01", e2).

(** [child_traceparent(parent)]: the tuple assignment raises unless the
    split has exactly four fields, and the handler of that exception mints
    a new root context. *)
Definition child_traceparent (parent : string) (e : entropy) : string * entropy :=
  match split "-" parent with
  | [version; trace_id; _; flags] =>
      let '(span_id, e1) := _hex 8 e in
      ("00-" +:+ trace_id +:+ "-" +:+ span_id +:+ "-" +:+ flags, e1)
  | _ => new_traceparent e
  end.

(** The fields a trace context is read by. *)
Definition well_formed (tp : string) : Prop := length (split "-" tp) = 4%nat.

Definition trace_id_of (tp : string) : option string :=
  match split "-" tp with
  | [_; t; _; _] => Some t
  | _ => None
  end.

Definition span_id_of (tp : string) : option string :=
  match split "-" tp with
  | [_; _; s; _] => Some s
  | _ => None
  end.

(** The message id a derivation of a child envelope draws: the [uuid4]
    that follows the bytes of its trace context. *)
Definition child_draw (parent_tp : string) (keep_span : bool) (e : entropy) : string :=
  fst (uuid4 (if keep_span then e else snd (child_traceparent parent_tp e))).

Definition is_hex (c : ascii) : bool :=
  existsb (fun d => if ascii_dec c d then true else false)
          (list_ascii_of_string "0123456789abcdef").

Fixpoint all_hex (s : string) : bool :=
  match s with
  | EmptyString => true
  | String c r => is_hex c && all_hex r
  end.

(** version-traceid-spanid-flags with 2, 32, 16 and 2 hexadecimal digits. *)
Definition valid_traceparent (tp : string) : bool :=
  match split "-" tp with
  | [v; t; s; f] =>
      (String.length v =? 2)%nat && (String.length t =? 32)%nat &&
      (String.length s =? 16)%nat && (String.length f =? 2)%nat &&
      all_hex v && all_hex t && all_hex s && all_hex f
  | _ => false
  end.

End Trace.

(* ===================================================================== *)
(** * Serialisation: [model_dump], [json.dumps], [model_dump_json]        *)
(* ===================================================================== *)

Module Wire.
Import Py.

(** A field of [model_dump()]: a JSON value, or the [datetime] object that
    pydantic keeps as it is in Python mode. *)
Inductive pyobj :=
| Plain (j : json)
| Datetime (iso : string).

Definition to_json (o : pyobj) : option json :=
  match o with
  | Plain j => Some j
  | Datetime _ => None
  end.

(** [json.dumps(d)] of a dict of fields: TypeError ([None]) on the first
    object the encoder does not know, the document otherwise. *)
Fixpoint dump_fields (fs : list (string * pyobj)) : option (list (string * json)) :=
  match fs with
  | [] => Some []
  | (k, o) :: r =>
      match to_json o, dump_fields r with
      | Some j, Some r' => Some ((k, j) :: r')
      | _, _ => None
      end
  end.

Definition json_dumps (fs : list (string * pyobj)) : option json :=
  match dump_fields fs with
  | Some kvs => Some (JDict (list_to_map kvs))
  | None => None
  end.

(** What a handler hands to [nc.publish]: a subject and a document. *)
Definition publication : Type := string * json.

End Wire.

(* ===================================================================== *)
(** * 2_Multi_Agent_P2P_NATS: envelope, Verifier (reviewer) and Writer     *)
(* ===================================================================== *)

Module P2P.
Import Py Rand Trace Wire.

(** ** common_envelope.py *)

Record A2AEnvelope := {
  envelope_version : string;
  message_id : string;
  conversation_id : string;
  traceparent : string;
  sender : string;
  target : string;
  ttl_ms : Z;
  retries : Z;
  max_retries : Z;
  payload : gmap string json
}.

(** [A2AEnvelope(...)]: the class declares no validator, so every
    well-typed call returns; a missing [message_id] is drawn by [uuid4]. *)
Definition init (message_id : option string) (conversation_id traceparent sender target : string)
    (ttl_ms retries max_retries : option Z) (payload : gmap string json)
    (e : entropy) : A2AEnvelope * entropy :=
  let '(mid, e1) := match message_id with
                    | Some m => (m, e)
                    | None => uuid4 e
                    end in
  ({| envelope_version := "1.0"; message_id := mid;
      conversation_id := conversation_id; traceparent := traceparent;
      sender := sender; target := target;
      ttl_ms := default 15000%Z ttl_ms;
      retries := default 0%Z retries;
      max_retries := default 2%Z max_retries;
      payload := payload |}, e1).

(** [self.child(sender=, target=, payload=, retries=None)]. *)
Definition child (self : A2AEnvelope) (sender target : string)
    (payload : gmap string json) (retries : option Z) (e : entropy) : A2AEnvelope * entropy :=
  let '(tp, e1) := child_traceparent self.(traceparent) e in
  init None self.(conversation_id) tp sender target
       (Some self.(ttl_ms))
       (Some (match retries with None => self.(P2P.retries) | Some r => r end))
       (Some self.(max_retries)) payload e1.

(** [new_root_envelope(task, from_role=, to_role=, conversation_id=None, max_retries=2)]. *)
Definition new_root_envelope (task from_role to_role : string)
    (conversation_id : option string) (max_retries : Z) (e : entropy) : A2AEnvelope * entropy :=
  let '(cid, e1) := match conversation_id with
                    | Some c => if (String.length c =? 0)%nat then uuid4 e else (c, e)
                    | None => uuid4 e
                    end in
  let '(tp, e2) := new_traceparent e1 in
  init None cid tp (from_role +:+ "@v1") (to_role +:+ "@v1") None None (Some max_retries)
       (<["role" := JStr from_role]> (<["task" := JStr task]> ∅)) e2.

(** [env.model_dump()] and the document [json.dumps] makes of it. *)
Definition model_dump (env : A2AEnvelope) : list (string * pyobj) :=
  [ ("envelope_version", Plain (JStr env.(envelope_version)));
    ("message_id", Plain (JStr env.(message_id)));
    ("conversation_id", Plain (JStr env.(conversation_id)));
    ("traceparent", Plain (JStr env.(traceparent)));
    ("sender", Plain (JStr env.(sender)));
    ("target", Plain (JStr env.(target)));
    ("ttl_ms", Plain (JInt env.(ttl_ms)));
    ("retries", Plain (JInt env.(retries)));
    ("max_retries", Plain (JInt env.(max_retries)));
    ("payload", Plain (JDict env.(payload))) ].

(** The document [json.dumps(env.model_dump())] writes. *)
Definition document (env : A2AEnvelope) : json :=
  JDict (list_to_map
    [ ("envelope_version", JStr env.(envelope_version));
      ("message_id", JStr env.(message_id));
      ("conversation_id", JStr env.(conversation_id));
      ("traceparent", JStr env.(traceparent));
      ("sender", JStr env.(sender));
      ("target", JStr env.(target));
      ("ttl_ms", JInt env.(ttl_ms));
      ("retries", JInt env.(retries));
      ("max_retries", JInt env.(max_retries));
      ("payload", JDict env.(payload)) ]).

(** ** reviewer_agent.py *)

Definition SERVICE_NAME := "verifier@v1".
Definition VERIFY_IN_SUBJECT := "demo.verify.in".
Definition WRITE_IN_SUBJECT := "demo.write.in".
Definition DONE_SUBJECT := "demo.done".

(** The module-level settings read from the environment; [llm_on] says
    whether [_llm] is a client rather than [None]. *)
Record config := {
  MIN_ACCEPTABLE_SCORE : float;
  MAX_FEEDBACK_CHARS : Z;
  llm_on : bool
}.

(** What one call of the completion service comes to: the call raises, the
    response has no content, or it has text, given with what [json.loads]
    makes of it ([None]: not JSON, the empty string included). *)
Inductive llm_reply :=
| CallRaises
| ContentNone
| Content (parsed : option json).

Section Reviewer.
Context {rt : Runtime}.
Variable cfg : config.

(** [heuristic_score(text)]; [None] when one of its tests raises. *)
Definition heuristic_score (text : json) : option (float * string) :=
  match str_in "Key points:" text, str_in "Sources:" text,
        (match text with JStr t => Some (lower t) | _ => None end),
        len text, str_in "Revision applied:" text with
  | Some key_points, Some has_sources, Some low, Some n, Some revised =>
      let score := 5.5%float in
      let score := if key_points then (score + 0.6)%float else score in
      let score := if has_sources then (score + 0.4)%float else score in
      let score := if existsb (fun k => contains k low) ["concise"; "clear"; "engineer"; "policy"]
                   then (score + 0.3)%float else score in
      let score := if (300 <? n)%Z then (score + 0.2)%float else score in
      let fb := (if revised then [] else ["Tighten language; add one explicit action for the reader."])
                ++ (if has_sources then [] else ["Add 1–2 sources for credibility."]) in
      let final_score := py_min score 10 in
      let feedback := String.concat " " fb in
      Some (final_score, if (String.length feedback =? 0)%nat then "Looks good." else feedback)
  | _, _, _, _, _ => None
  end.

(** The body of the [try] of [score_with_llm] when everything in it goes
    well; [None] is every way it leaves for the heuristic. *)
Definition llm_score (sources : json) (reply : llm_reply) : option (float * string) :=
  if sources_join_ok sources then
    match reply with
    | Content (Some (JDict data)) =>
        match py_float (dict_get data "score" (JInt 0)) with
        | Some score =>
            let feedback := strip (py_str (dict_get data "feedback" (JStr ""))) in
            let score := py_max 1 (py_min 10 score) in
            let feedback := if (String.length feedback =? 0)%nat
                            then "Clarify the main point; add 1–2 concrete, testable tips."
                            else feedback in
            let feedback := if (cfg.(MAX_FEEDBACK_CHARS) <? py_len feedback)%Z
                            then prefix_chars (Z.to_nat (Z.max 0 (cfg.(MAX_FEEDBACK_CHARS) - 3))) feedback +:+ "..."
                            else feedback in
            Some (score, feedback)
        | None => None
        end
    | _ => None
    end
  else None.

(** [score_with_llm(draft, sources, research_notes)]; [None] when the
    heuristic it falls back to raises. *)
Definition score_with_llm (draft sources research_notes : json) (reply : llm_reply)
    : option (float * string) :=
  if cfg.(llm_on) then
    match llm_score sources reply with
    | Some r => Some r
    | None => heuristic_score draft
    end
  else heuristic_score draft.

(** [nc.publish(subject, json.dumps(out.model_dump()).encode())]. *)
Definition publish (subject : string) (out : A2AEnvelope) : list publication :=
  match json_dumps (model_dump out) with
  | Some doc => [(subject, doc)]
  | None => []
  end.

(** The two branches of the handler, each with the child it derives. *)
Inductive decision :=
| Revise (out : A2AEnvelope)
| Finalize (out : A2AEnvelope).

(** [_message_handler(nc, msg)] once the message has been decoded and
    validated into [env], up to the child envelope of the branch taken;
    [None] when an exception ends the handler before. *)
Definition decide (env : A2AEnvelope) (reply : llm_reply) (e : entropy) : option decision :=
  let payload := env.(payload) in
  let draft := get_or payload "draft" (JStr "") in
  let sources := get_or payload "sources" (JList []) in
  let research_notes := get_or payload "research_notes" (JStr "") in
  let task := get_or payload "task" (JStr "") in
  match len draft, len sources with
  | Some _, Some _ =>
      match score_with_llm draft sources research_notes reply with
      | Some (score, fb) =>
          let retries := env.(retries) in
          let max_retries := env.(max_retries) in
          if (score <? cfg.(MIN_ACCEPTABLE_SCORE))%float && (retries <? max_retries)%Z then
            Some (Revise (fst (
              child env SERVICE_NAME "writer@v1"
                (<["role" := JStr "verifier"]> (<["task" := task]>
                 (<["sources" := sources]> (<["feedback" := JStr fb]> ∅))))
                (Some (retries + 1)%Z) e)))
          else
            Some (Finalize (fst (
              child env SERVICE_NAME "client@v1"
                (<["role" := JStr "verifier"]> (<["draft" := draft]>
                 (<["score" := JFloat score]> (<["sources" := sources]> ∅))))
                None e)))
      | None => None
      end
  | _, _ => None
  end.

(** What the handler publishes: both branches serialise with
    [json.dumps(out.model_dump())]; every exception is caught and logged,
    leaving nothing published. *)
Definition _message_handler (env : A2AEnvelope) (reply : llm_reply) (e : entropy)
    : list publication :=
  match decide env reply e with
  | Some (Revise out) => publish WRITE_IN_SUBJECT out
  | Some (Finalize out) => publish DONE_SUBJECT out
  | None => []
  end.

End Reviewer.

(** ** writer_agent.py *)

Module Writer.

(** [_message_handler] of the Writer: [draft] is what
    [generate_draft_async] returned ([None]: it raised). *)
Definition _message_handler (env : A2AEnvelope) (draft : option string) (e : entropy)
    : option A2AEnvelope :=
  let payload := env.(payload) in
  let task := get_or payload "task" (JStr "") in
  let sources := get_or payload "sources" (JList []) in
  match draft with
  | Some d =>
      Some (fst (child env "writer@v1" "verifier@v1"
                   (<["role" := JStr "writer"]> (<["task" := task]>
                    (<["draft" := JStr d]> (<["sources" := sources]> ∅))))
                   None e))
  | None => None
  end.

End Writer.

End P2P.

(* ===================================================================== *)
(** * 3_Multi_Agent_Hierarchical_NATS: envelope, Verifier and Planners     *)
(* ===================================================================== *)

Module Hier.
Import Py Rand Trace Wire.

(** ** common_envelope.py *)

Record A2AEnvelope := {
  envelope_version : string;
  message_id : string;
  conversation_id : string;
  traceparent : string;
  sender : string;
  target : string;
  ttl_ms : Z;
  retries : Z;
  max_retries : Z;
  created_at : string;
  payload : gmap string json
}.

(** The two field validators: [_validate_ttl_ms] and [_validate_retries]
    (the latter is applied to [retries] and to [max_retries], one value at
    a time). [None] is the ValueError. *)
Definition _validate_ttl_ms (v : Z) : option Z := if (v <=? 0)%Z then None else Some v.
Definition _validate_retries (v : Z) : option Z := if (v <? 0)%Z then None else Some v.

(** [A2AEnvelope(...)]: missing fields take their defaults (the factories
    draw in field order), [now] is what [datetime.now(timezone.utc)]
    reads; [None] is the ValidationError. *)
Definition init (message_id conversation_id traceparent : option string)
    (sender target : string) (ttl_ms retries max_retries : option Z)
    (payload : option (gmap string json)) (now : string) (e : entropy)
    : option (A2AEnvelope * entropy) :=
  let '(mid, e1) := match message_id with Some m => (m, e) | None => uuid4 e end in
  let '(cid, e2) := match conversation_id with Some c => (c, e1) | None => uuid4 e1 end in
  let '(tp, e3) := match traceparent with Some t => (t, e2) | None => new_traceparent e2 end in
  match _validate_ttl_ms (default 15000%Z ttl_ms),
        _validate_retries (default 0%Z retries),
        _validate_retries (default 2%Z max_retries) with
  | Some ttl, Some r, Some m =>
      Some ({| envelope_version := "1.1"; message_id := mid; conversation_id := cid;
               traceparent := tp; sender := sender; target := target;
               ttl_ms := ttl; retries := r; max_retries := m;
               created_at := now; payload := default ∅ payload |}, e3)
  | _, _, _ => None
  end.

(** [x or self.x] for an optional str argument. *)
Definition str_or (x : option string) (dflt : string) : string :=
  match x with
  | Some v => if (String.length v =? 0)%nat then dflt else v
  | None => dflt
  end.

(** [self.child(sender=, target=, payload=, retries=, max_retries=, ttl_ms=, keep_span=)]. *)
Definition child (self : A2AEnvelope) (sender target : option string)
    (payload : option (gmap string json)) (retries max_retries ttl_ms : option Z)
    (keep_span : bool) (now : string) (e : entropy) : option (A2AEnvelope * entropy) :=
  let '(new_tp, e1) := if keep_span then (self.(traceparent), e)
                       else child_traceparent self.(traceparent) e in
  init None (Some self.(conversation_id)) (Some new_tp)
       (str_or sender self.(Hier.sender)) (str_or target self.(Hier.target))
       (Some (match ttl_ms with Some t => t | None => self.(Hier.ttl_ms) end))
       (Some (match retries with None => self.(Hier.retries) | Some r => r end))
       (Some (match max_retries with None => self.(Hier.max_retries) | Some m => m end))
       (Some (default ∅ payload)) now e1.

(** What validation guarantees of an envelope that was constructed. *)
Definition valid (env : A2AEnvelope) : Prop :=
  (0 < env.(ttl_ms))%Z /\ (0 <= env.(retries))%Z /\ (0 <= env.(max_retries))%Z.

(** [env.model_dump()]: Python mode keeps [created_at] a datetime. *)
Definition model_dump (env : A2AEnvelope) : list (string * pyobj) :=
  [ ("envelope_version", Plain (JStr env.(envelope_version)));
    ("message_id", Plain (JStr env.(message_id)));
    ("conversation_id", Plain (JStr env.(conversation_id)));
    ("traceparent", Plain (JStr env.(traceparent)));
    ("sender", Plain (JStr env.(sender)));
    ("target", Plain (JStr env.(target)));
    ("ttl_ms", Plain (JInt env.(ttl_ms)));
    ("retries", Plain (JInt env.(retries)));
    ("max_retries", Plain (JInt env.(max_retries)));
    ("created_at", Datetime env.(created_at));
    ("payload", Plain (JDict env.(payload))) ].

(** [env.model_dump_json()]: pydantic's own encoder writes the datetime as
    its ISO 8601 string. *)
Definition model_dump_json (env : A2AEnvelope) : json :=
  JDict (list_to_map
    [ ("envelope_version", JStr env.(envelope_version));
      ("message_id", JStr env.(message_id));
      ("conversation_id", JStr env.(conversation_id));
      ("traceparent", JStr env.(traceparent));
      ("sender", JStr env.(sender));
      ("target", JStr env.(target));
      ("ttl_ms", JInt env.(ttl_ms));
      ("retries", JInt env.(retries));
      ("max_retries", JInt env.(max_retries));
      ("created_at", JStr env.(created_at));
      ("payload", JDict env.(payload)) ]).

(** ** VerifierAgent/llm_opemai.py *)

Record config := {
  MIN_ACCEPTABLE_SCORE : float;
  MAX_FEEDBACK_CHARS : Z
}.

Inductive llm_reply :=
| CallRaises
| ContentNone
| Content (parsed : option json).

(** [s[:n]] for any int [n]: a negative bound counts from the end. *)
Definition slice_to (n : Z) (s : string) : string :=
  if (0 <=? n)%Z then prefix_chars (Z.to_nat n) s
  else prefix_chars (Z.to_nat (Z.max 0 (py_len s + n))) s.

Section Verifier.
Context {rt : Runtime}.
Variable cfg : config.

(** [heuristic_score(text)]; [None] when a test raises. *)
Definition heuristic_score (text : json) : option (float * string) :=
  match str_in "Key point" text, str_in "•" text, str_in "Takeaway" text,
        len text, str_in "Sources:" text with
  | Some key_point, Some bullet, Some takeaway, Some n, Some has_sources =>
      let score := 5.5%float in
      let score := if key_point || bullet then (score + 0.5)%float else score in
      let score := if takeaway then (score + 0.3)%float else score in
      let score := if (300 <? n)%Z then (score + 0.4)%float else score in
      let feedback := if has_sources then "Looks good."
                      else "Add 1–2 credible sources and tighten the lead sentence." in
      Some (py_min score 10, slice_to cfg.(MAX_FEEDBACK_CHARS) feedback)
  | _, _, _, _, _ => None
  end.

(** The [try] block that reads the reply: [None] is any exception in it. *)
Definition parse_reply (parsed : option json) : option (float * string) :=
  match parsed with
  | Some (JDict data) =>
      match py_float (dict_get data "score" (JInt 0)),
            py_or (dict_get data "feedback" JNull) (JStr "") with
      | Some score, JStr fb => Some (score, strip fb)
      | _, _ => None
      end
  | _ => None
  end.

(** One run of the body of [score_with_llm]; [None] when it raises. The
    guard [if not _client] is never taken: [_client] is the client object
    built at import. *)
Definition score_once (draft sources research_notes : json) (reply : llm_reply)
    : option (float * string) :=
  if sources_join_ok sources then
    match reply with
    | CallRaises => None
    | ContentNone => None
    | Content parsed =>
        match parse_reply parsed with
        | None => heuristic_score draft
        | Some (score, feedback) =>
            let score := py_max 1 (py_min 10 score) in
            let feedback := if (String.length feedback =? 0)%nat
                            then "Clarify the main point and provide a concrete example."
                            else feedback in
            Some (score, slice_to cfg.(MAX_FEEDBACK_CHARS) feedback)
        end
    end
  else None.

(** [@retry(stop=stop_after_attempt(3))]: the body is run again after an
    exception, each run with the reply its own request gets; [None] is the
    RetryError after the last attempt. *)
Fixpoint retrying {A} (attempts : nat) (body : nat -> option A) (k : nat) : option A :=
  match attempts with
  | O => None
  | S n => match body k with
           | Some r => Some r
           | None => retrying n body (S k)
           end
  end.

Definition score_with_llm (draft sources research_notes : json) (replies : nat -> llm_reply)
    : option (float * string) :=
  retrying 3 (fun k => score_once draft sources research_notes (replies k)) 0.

(** ** VerifierAgent/verify_service.py *)

Definition SERVICE_NAME := "verifier@v1".
Definition VERIFY_IN_SUBJECT := "demo.verify.in".
Definition WRITE_IN_SUBJECT := "demo.write.in".
Definition DONE_SUBJECT := "demo.done".

Inductive decision :=
| Revise (out : A2AEnvelope)
| Finalize (out : A2AEnvelope).

(** [_handle(nc, msg)] once the message has been decoded and validated
    into [env], up to the child envelope of the branch taken; [None] when
    an exception ends the handler before. *)
Definition decide (env : A2AEnvelope) (replies : nat -> llm_reply) (now : string) (e : entropy)
    : option decision :=
  let p := env.(payload) in
  let draft := get_or p "draft" (JStr "") in
  let sources := get_or p "sources" (JList []) in
  let notes := get_or p "research_notes" (JStr "") in
  let task := get_or p "task" (JStr "") in
  let retries := env.(retries) in
  let max_retries := env.(max_retries) in
  match len draft, len sources with
  | Some _, Some _ =>
      match score_with_llm draft sources notes replies with
      | Some (score, fb) =>
          if (score <? cfg.(MIN_ACCEPTABLE_SCORE))%float && (retries <? max_retries)%Z then
            match child env (Some SERVICE_NAME) (Some "writer@v1")
                    (Some (<["role" := JStr "verifier"]> (<["task" := task]>
                           (<["sources" := sources]> (<["feedback" := JStr fb]> ∅)))))
                    (Some (retries + 1)%Z) None None false now e with
            | Some (out, _) => Some (Revise out)
            | None => None
            end
          else
            match child env (Some SERVICE_NAME) (Some "client@v1")
                    (Some (<["role" := JStr "verifier"]> (<["draft" := draft]>
                           (<["score" := JFloat score]> (<["sources" := sources]> ∅)))))
                    None None None false now e with
            | Some (out, _) => Some (Finalize out)
            | None => None
            end
      | None => None
      end
  | _, _ => None
  end.

(** What the handler publishes. The revision branch serialises with
    [json.dumps(out.model_dump())], the final branch with
    [out.model_dump_json()]; the exception of either is caught and logged,
    leaving nothing published. *)
Definition _handle (env : A2AEnvelope) (replies : nat -> llm_reply) (now : string) (e : entropy)
    : list publication :=
  match decide env replies now e with
  | Some (Revise out) =>
      match json_dumps (model_dump out) with
      | Some doc => [(WRITE_IN_SUBJECT, doc)]
      | None => []
      end
  | Some (Finalize out) => [(DONE_SUBJECT, model_dump_json out)]
  | None => []
  end.

End Verifier.

(** ** WriterAgent/writer_service.py *)

Module Writer.

(** [_handle(nc, msg)] of the Writer: [draft] is what [_agent.draft]
    returned ([None]: it raised); the child is published with
    [model_dump_json]. *)
Definition _handle {rt : Runtime} (env : A2AEnvelope) (draft : option string)
    (now : string) (e : entropy) : option A2AEnvelope :=
  let retries := env.(retries) in
  let p := env.(payload) in
  let topic := dict_get p "topic" (JStr "Untitled") in
  let section := dict_get p "section" (JStr "Section") in
  let sources := get_or p "sources" (JList []) in
  match py_int (dict_get p "max_retries" (JInt 2)), draft with
  | Some max_retries, Some d =>
      match child env (Some "writer@v1") (Some "verifier@v1")
              (Some (<["role" := JStr "writer"]> (<["task" := dict_get p "task" (JStr "")]>
                     (<["topic" := topic]> (<["section" := section]>
                      (<["draft" := JStr d]> (<["sources" := sources]>
                       (<["research_notes" := dict_get p "research_notes" (JStr "")]>
                        (<["max_retries" := JInt max_retries]>
                         (<["retries" := JInt (retries + 1)]> ∅))))))))))
              None None None false now e with
      | Some (out, _) => Some out
      | None => None
      end
  | _, _ => None
  end.

End Writer.

End Hier.

(* ===================================================================== *)
(** * Planner stages: chief_editor_service.py, section_editor_service.py   *)
(* ===================================================================== *)

Module Planner.
Import Py Rand Trace Wire Hier.

(** The [for] loop of a Planner handler: for each item build the payload,
    derive a child and publish it. [mk_payload] is the dict display of the
    call ([None]: evaluating it raises); the i-th child is stamped
    [clock i]. An exception ends the loop and leaves what was published. *)
Fixpoint fan_out (env : A2AEnvelope) (sender target : string)
    (mk_payload : string -> option (gmap string json))
    (items : list string) (clock : nat -> string) (e : entropy) : list A2AEnvelope :=
  match items with
  | [] => []
  | t :: rest =>
      match mk_payload t with
      | Some pl =>
          match child env (Some sender) (Some target) (Some pl) None None None false (clock O) e with
          | Some (out, e') =>
              out :: fan_out env sender target mk_payload rest (fun i => clock (S i)) e'
          | None => []
          end
      | None => []
      end
  end.

Definition publish_all (subject : string) (outs : list A2AEnvelope) : list publication :=
  map (fun out => (subject, model_dump_json out)) outs.

Definition DEFAULT_STYLE := "neutral, SEO-optimized, concise but informative".

(** *** chief_editor_service.py *)

Module Chief.
Section Handler.
Context {rt : Runtime}.

Definition SERVICE_NAME := "chiefEditor@v1".
Definition SECTION_EDITOR_IN_SUBJECT := "demo.section.in".

(** The children [_handle] derives; [propose] is
    [_agent.propose] ([None]: it raised). The [max_retries] entry of the
    child payload is converted inside the loop. *)
Definition children (env : A2AEnvelope)
    (propose : json -> Z -> option (list string))
    (clock : nat -> string) (e : entropy) : list A2AEnvelope :=
  let payload := env.(payload) in
  let area := dict_get payload "area" (JStr "General") in
  match py_int (dict_get payload "max_topics" (JInt 5)),
        py_int (dict_get payload "max_sections" (JInt 6)) with
  | Some max_topics, Some max_sections =>
      let style := dict_get payload "style" (JStr DEFAULT_STYLE) in
      let sources := get_or payload "sources" (JList []) in
      match propose area max_topics with
      | Some topics =>
          fan_out env SERVICE_NAME "section@v1"
            (fun t =>
               match py_int (dict_get payload "max_retries" (JInt 2)) with
               | Some max_retries =>
                   Some (<["role" := JStr "chief"]> (<["topic" := JStr t]>
                         (<["max_sections" := JInt max_sections]> (<["style" := style]>
                          (<["sources" := sources]> (<["max_retries" := JInt max_retries]> ∅))))))
               | None => None
               end)
            topics clock e
      | None => []
      end
  | _, _ => []
  end.

(** [_handle(nc, msg)] of the chief editor, once the message is validated
    into [env]: each child is published with [model_dump_json]. *)
Definition _handle (env : A2AEnvelope) (propose : json -> Z -> option (list string))
    (clock : nat -> string) (e : entropy) : list publication :=
  publish_all SECTION_EDITOR_IN_SUBJECT (children env propose clock e).

End Handler.
End Chief.

(** *** section_editor_service.py *)

Module SectionEditor.
Section Handler.
Context {rt : Runtime}.

Definition SERVICE_NAME := "sectionEditor@v1".
Definition WRITE_IN_SUBJECT := "demo.write.in".

(** The children [_handle] derives; [plan] is
    [_agent.plan]. Every conversion is done before the loop. *)
Definition children (env : A2AEnvelope)
    (plan : json -> Z -> option (list string))
    (clock : nat -> string) (e : entropy) : list A2AEnvelope :=
  let p := env.(payload) in
  let topic := dict_get p "topic" (JStr "Untitled") in
  match py_int (dict_get p "max_sections" (JInt 6)) with
  | Some max_sections =>
      let style := dict_get p "style" (JStr DEFAULT_STYLE) in
      let sources := dict_get p "sources" (JList []) in
      match py_int (dict_get p "max_retries" (JInt 2)) with
      | Some max_retries =>
          match plan topic max_sections with
          | Some sections =>
              fan_out env SERVICE_NAME "writer@v1"
                (fun sec =>
                   Some (<["role" := JStr "section"]> (<["topic" := topic]>
                         (<["section" := JStr sec]> (<["style" := style]>
                          (<["sources" := sources]>
                           (<["research_notes" := dict_get p "research_notes" (JStr "")]>
                            (<["task" := dict_get p "task" (JStr "")]>
                             (<["max_retries" := JInt max_retries]> ∅)))))))))
                sections clock e
          | None => []
          end
      | None => []
      end
  | None => []
  end.

(** [_handle(nc, msg)] of the section editor. *)
Definition _handle (env : A2AEnvelope) (plan : json -> Z -> option (list string))
    (clock : nat -> string) (e : entropy) : list publication :=
  publish_all WRITE_IN_SUBJECT (children env plan clock e).

End Handler.
End SectionEditor.




End Planner.

(* ===================================================================== *)
(** * A conversation branch between Verifier and Writer                   *)
(* ===================================================================== *)

Module Branch.
Import Py Rand Wire.

(** How a branch that entered the Verifier ends: a final result published
    on the completion subject after [hops] revision requests, or a message
    lost to a logged exception after [hops] of them. *)
Inductive result :=
| Finalized (hops : nat) (doc : json)
| Lost (hops : nat)
| OutOfFuel.

Section Drivers.
Context {rt : Runtime}.

(** The k-th visit of the Verifier gets the completion reply [replies k]
    and the entropy [ev k]; the Writer's k-th revision gets the draft
    [drafts k] and the entropy [ew k]. A published envelope is handed to
    the next handler as it is (the receiver validates the document the
    sender dumped). *)
Fixpoint p2p (cfg : P2P.config) (replies : nat -> P2P.llm_reply)
    (drafts : nat -> option string) (ev ew : nat -> entropy)
    (fuel k : nat) (env : P2P.A2AEnvelope) : result :=
  match fuel with
  | O => OutOfFuel
  | S fuel' =>
      match P2P.decide cfg env (replies k) (ev k) with
      | Some (P2P.Finalize out) =>
          match json_dumps (P2P.model_dump out) with
          | Some doc => Finalized k doc
          | None => Lost k
          end
      | Some (P2P.Revise out) =>
          match json_dumps (P2P.model_dump out) with
          | Some _ =>
              match P2P.Writer._message_handler out (drafts k) (ew k) with
              | Some env' => p2p cfg replies drafts ev ew fuel' (S k) env'
              | None => Lost k
              end
          | None => Lost k
          end
      | None => Lost k
      end
  end.

Fixpoint hier (cfg : Hier.config) (replies : nat -> nat -> Hier.llm_reply)
    (drafts : nat -> option string) (clock : nat -> string) (ev ew : nat -> entropy)
    (fuel k : nat) (env : Hier.A2AEnvelope) : result :=
  match fuel with
  | O => OutOfFuel
  | S fuel' =>
      match Hier.decide cfg env (replies k) (clock k) (ev k) with
      | Some (Hier.Finalize out) => Finalized k (Hier.model_dump_json out)
      | Some (Hier.Revise out) =>
          match json_dumps (Hier.model_dump out) with
          | Some _ =>
              match Hier.Writer._handle out (drafts k) (clock k) (ew k) with
              | Some env' => hier cfg replies drafts clock ev ew fuel' (S k) env'
              | None => Lost k
              end
          | None => Lost k
          end
      | None => Lost k
      end
  end.

End Drivers.

End Branch.

(* ===================================================================== *)
(** * Client/client.py: the aggregating client                            *)
(* ===================================================================== *)

Module Client.
Import Py.

Record Config := {
  idle_timeout_sec : float;
  overall_timeout_sec : float
}.

(** The variables of [run_client] that the done callback and the
    collection loop share or update. ([first_msg_ts] is written once and
    never read, and is left out.) *)
Record state := {
  done_queue : list (gmap string json);
  received : Z;
  idle_start : float;
  start_ts : float
}.

(** [_done_cb(msg)]: [msg] is what decoding and [json.loads] make of the
    message ([None]: one of them raised). An exception, also the one of
    calling [get] on a value that is not a dict, is caught and logged. *)
Definition matches (conversation_id : string) (msg : option json) : bool :=
  match msg with
  | Some (JDict data) => is_str conversation_id (dict_get data "conversation_id" JNull)
  | _ => false
  end.

Definition _done_cb (conversation_id : string) (st : state) (msg : option json) : state :=
  match msg with
  | Some (JDict data) =>
      if is_str conversation_id (dict_get data "conversation_id" JNull)
      then {| done_queue := st.(done_queue) ++ [data]; received := st.(received);
              idle_start := st.(idle_start); start_ts := st.(start_ts) |}
      else st
  | _ => st
  end.

Inductive stop :=
| OverallTimeout
| IdleTimeout
| ExpectedReached
| Raised.

(** The display of a collected item: [payload.get] raises unless the
    item's payload is a dict. *)
Definition displays (item : gmap string json) : bool :=
  match dict_get item "payload" (JDict ∅) with
  | JDict _ => true
  | _ => false
  end.

(** [expected_results and received >= expected_results]. *)
Definition expected_reached (expected_results : option Z) (received : Z) : bool :=
  match expected_results with
  | Some n => negb (n =? 0)%Z && (n <=? received)%Z
  | None => false
  end.

Section Loop.
Variable cfg : Config.
Variable expected_results : option Z.

(** The two deadline tests, at a clock reading [t]:
    [(time.monotonic() - start_ts) > cfg.overall_timeout_sec] and
    [(time.monotonic() - idle_start) > cfg.idle_timeout_sec]. *)
Definition overall_elapsed (st : state) (t : float) : bool :=
  (cfg.(overall_timeout_sec) <? t - st.(start_ts))%float.
Definition idle_elapsed (st : state) (t : float) : bool :=
  (cfg.(idle_timeout_sec) <? t - st.(idle_start))%float.

(** The state after an item was taken at the reading [t]. *)
Definition collect (st : state) (rest : list (gmap string json)) (t : float) : state :=
  {| done_queue := rest; received := (st.(received) + 1)%Z;
     idle_start := t; start_ts := st.(start_ts) |}.

(** One pass of the body of [while True]. [t_top] is the clock reading of
    the overall check; [wait_for(done_queue.get(), timeout=1.0)] returns
    the head of the queue, or times out when the queue stayed empty;
    [t_after] is the reading that follows (the idle check after a timeout,
    the idle reset after an item). *)
Definition iterate (st : state) (t_top t_after : float) : state + stop * state :=
  if overall_elapsed st t_top then inr (OverallTimeout, st)
  else
    match st.(done_queue) with
    | [] =>
        if idle_elapsed st t_after then inr (IdleTimeout, st) else inl st
    | item :: rest =>
        let st' := collect st rest t_after in
        if displays item then
          if expected_reached expected_results st'.(received)
          then inr (ExpectedReached, st')
          else inl st'
        else inr (Raised, st')
    end.

(** What happens to the client, in order: the bus delivers a message to
    the callback, or the loop makes one pass. *)
Inductive event :=
| Deliver (msg : option json)
| Pass (t_top t_after : float).

Inductive outcome :=
| Running (st : state)
| Stopped (why : stop) (st : state).

Fixpoint run (conversation_id : string) (st : state) (evs : list event) : outcome :=
  match evs with
  | [] => Running st
  | Deliver msg :: rest => run conversation_id (_done_cb conversation_id st msg) rest
  | Pass t_top t_after :: rest =>
      match iterate st t_top t_after with
      | inl st' => run conversation_id st' rest
      | inr (why, st') => Stopped why st'
      end
  end.

(** The state at [received = 0], [idle_start = start_ts = time.monotonic()]. *)
Definition initial (t0 : float) : state :=
  {| done_queue := []; received := 0; idle_start := t0; start_ts := t0 |}.

(** [main()]: [run_client] returns [None] after the loop whatever
    [received] is, and [main] returns after it, so the process exits with
    status 0; an exception that leaves [run_client] ends the process with
    status 1. No statement of the module passes a status to the
    interpreter. [None]: the client is still collecting. *)
Definition exit_status (o : outcome) : option Z :=
  match o with
  | Running _ => None
  | Stopped Raised _ => Some 1%Z
  | Stopped _ _ => Some 0%Z
  end.

Definition collected (o : outcome) : Z :=
  match o with
  | Running st => st.(received)
  | Stopped _ st => st.(received)
  end.

End Loop.

End Client.

(* ===================================================================== *)
(** * WriterAgent/common_context.py: the checked trace context           *)
(* ===================================================================== *)

Module Context.
Import Py Rand.

Definition _hex (nbytes : nat) (e : entropy) : string * entropy := token_hex nbytes e.

Definition new_traceparent (e : entropy) : string * entropy :=
  let '(trace_id, e1) := _hex 16 e in
  let '(span_id, e2) := _hex 8 e1 in
  ("00-" +:+ trace_id +:+ "-" +:+ span_id +:+ "-" +:+ "01", e2).

(** [child_traceparent(parent)]: besides the four fields, the [try] block
    asserts the version 00, a trace id of 32 characters and flags of 2. *)
Definition child_traceparent (parent : string) (e : entropy) : string * entropy :=
  match split "-" parent with
  | [version; trace_id; _span_id; flags] =>
      if (if string_dec version "00" then true else false)
         && (py_len trace_id =? 32)%Z && (py_len flags =? 2)%Z
      then let '(new_span_id, e1) := _hex 8 e in
           ("00-" +:+ trace_id +:+ "-" +:+ new_span_id +:+ "-" +:+ flags, e1)
      else new_traceparent e
  | _ => new_traceparent e
  end.

End Context.

(* ===================================================================== *)
(** * More of common_envelope.py (hierarchical)                           *)
(* ===================================================================== *)

Module Root.
Import Py Rand Trace Hier.

(** [new_root_envelope(task, from_role=, to_role=, conversation_id=None,
    max_retries=2, ttl_ms=15000, extra_payload=None)]:
    [base_payload.update(extra_payload)] lets the extra entries win. *)
Definition new_root_envelope (task from_role to_role : string)
    (conversation_id : option string) (max_retries ttl_ms : Z)
    (extra_payload : option (gmap string json)) (now : string) (e : entropy)
    : option (A2AEnvelope * entropy) :=
  let '(cid, e1) := match conversation_id with
                    | Some c => if (String.length c =? 0)%nat then uuid4 e else (c, e)
                    | None => uuid4 e
                    end in
  let base_payload := <["role" := JStr from_role]> (<["task" := JStr task]> ∅) in
  let base_payload := match extra_payload with
                      | Some extra => if (size extra =? 0)%nat then base_payload
                                      else extra ∪ base_payload
                      | None => base_payload
                      end in
  let '(tp, e2) := new_traceparent e1 in
  init None (Some cid) (Some tp) (from_role +:+ "@v1") (to_role +:+ "@v1")
       (Some ttl_ms) None (Some max_retries) (Some base_payload) now e2.

(** The range of [timedelta] in milliseconds and of [datetime] in
    microseconds since the epoch (years 1 to 9999): outside them the
    constructor and the addition raise OverflowError. *)
Definition TIMEDELTA_MIN_MS : Z := -86399999913600000.
Definition TIMEDELTA_MAX_MS : Z := 86399999999999999.
Definition DATETIME_MIN_US : Z := -62135596800000000.
Definition DATETIME_MAX_US : Z := 253402300799999999.

(** [self.is_expired(now)] for aware datetimes given in microseconds since
    the epoch: [now > created_at + timedelta(milliseconds=ttl_ms)]; [None]
    is the OverflowError. *)
Definition is_expired (created_at_us ttl_ms now_us : Z) : option bool :=
  if (ttl_ms <? TIMEDELTA_MIN_MS)%Z || (TIMEDELTA_MAX_MS <? ttl_ms)%Z then None
  else
    let expires := (created_at_us + 1000 * ttl_ms)%Z in
    if (expires <? DATETIME_MIN_US)%Z || (DATETIME_MAX_US <? expires)%Z then None
    else Some (expires <? now_us)%Z.

End Root.

(* ===================================================================== *)
(** * Environment helpers: _parse_bool, _build_tls_context                 *)
(* ===================================================================== *)

Module Env.
Import Py.

Section Parsers.
Context {rt : Runtime}.

Definition TRUE_WORDS : list string := ["1"; "true"; "t"; "yes"; "y"; "on"].

(** [_parse_bool(value, default)]. *)
Definition _parse_bool (value : option string) (dflt : bool) : bool :=
  match value with
  | None => dflt
  | Some v => existsb (fun w => if string_dec (lower (strip v)) w then true else false) TRUE_WORDS
  end.

(** [NATS_TLS_ENABLED = _parse_bool(_env("NATS_TLS", "true"))]: the
    variable when it is set, the text [true] otherwise. *)
Definition nats_tls_enabled (NATS_TLS : option string) : bool :=
  _parse_bool (Some (default "true" NATS_TLS)) false.

End Parsers.

(** [_build_tls_context()]: [create cafile] is
    [ssl.create_default_context(cafile=...)] ([None]: it raised); a CA
    file that is unset or empty selects the system store. The result
    [None] makes the connection without TLS. *)
Definition _build_tls_context {ctx : Type} (NATS_TLS_ENABLED : bool)
    (NATS_TLS_CAFILE : option string) (create : option string -> option ctx) : option ctx :=
  if negb NATS_TLS_ENABLED then None
  else match NATS_TLS_CAFILE with
       | Some f => if (String.length f =? 0)%nat then create None else create (Some f)
       | None => create None
       end.

End Env.

(* ===================================================================== *)
(** * Delegates of the Planners: llm_openai.py of chief and section editor *)
(* ===================================================================== *)

Module Delegate.
Import Py.

(** [l[:n]] of a list: a negative bound counts from the end. *)
Definition slice_to {A} (n : Z) (l : list A) : list A :=
  if (0 <=? n)%Z then firstn (Z.to_nat n) l
  else firstn (length l - Z.to_nat (- n)) l.

Section Completion.
Context {rt : Runtime}.
(** [str.splitlines()] and [str.strip(chars)], two more built-ins. *)
Variable splitlines : string -> list string.
Variable strip_chars : string -> string -> string.

(** [_complete(system, user)] under [@retry(stop=stop_after_attempt(3))]:
    the k-th request raises ([None]), returns a message without content
    ([Some None], on which [.strip()] raises) or returns text. *)
Definition _complete (replies : nat -> option (option string)) : option string :=
  Hier.retrying 3 (fun k => match replies k with
                            | Some (Some content) => Some (strip content)
                            | _ => None
                            end) 0.

(** The comprehension both delegates share: the lines that are not blank,
    each stripped of bullets and then of white space. *)
Definition clean_lines (text : string) : list string :=
  map (fun t => strip (strip_chars "-â€¢ " t))
      (List.filter (fun t => negb (String.length (strip t) =? 0)%nat) (splitlines text)).

(** [list_topics(area, max_topics)] and
    [break_into_sections(topic, max_sections)]. *)
Definition list_topics (replies : nat -> option (option string)) (max_topics : Z)
    : option (list string) :=
  match _complete replies with
  | Some text => Some (slice_to max_topics (clean_lines text))
  | None => None
  end.

Definition break_into_sections (replies : nat -> option (option string)) (max_sections : Z)
    : option (list string) :=
  match _complete replies with
  | Some text => Some (slice_to max_sections (clean_lines text))
  | None => None
  end.

End Completion.

End Delegate.

(* ===================================================================== *)
(** * writer_agent.py: the stub draft                                     *)
(* ===================================================================== *)

Module Stub.
Import Py.

Section Draft.
Context {rt : Runtime}.
Variable splitlines : string -> list string.

(** The [for] loop over the lines of the notes: a stripped line that
    starts with a dash is appended, and the loop breaks once [lines] holds
    six entries. *)
Fixpoint bullets (lines : list string) (notes_lines : list string) : list string :=
  match notes_lines with
  | [] => lines
  | ln :: rest =>
      let stripped := strip ln in
      let lines := if startswith "-" stripped then lines ++ [stripped] else lines in
      if (6 <=? length lines)%nat then lines else bullets lines rest
  end.

(** The list [lines] that [draft_stub(task, notes, sources, feedback)]
    builds, and the text it returns. *)
Definition draft_lines (task notes : string) (sources : option (list string)) (feedback : string)
    : list string :=
  let lines := ["Answer: " +:+ strip task] in
  let lines := if (String.length notes =? 0)%nat then lines
               else bullets (lines ++ ["Key points:"]) (splitlines notes) in
  let lines := if (String.length feedback =? 0)%nat then lines
               else lines ++ ["Revision applied: " +:+ strip feedback] in
  match sources with
  | Some srcs =>
      let capped := firstn 3 (List.filter (fun s => negb (String.length s =? 0)%nat) srcs) in
      match capped with
      | [] => lines
      | _ => lines ++ ["Sources: " +:+ String.concat ", " capped]
      end
  | None => lines
  end.

Definition draft_stub (task notes : string) (sources : option (list string)) (feedback : string)
    : string :=
  String.concat (String "010" EmptyString) (draft_lines task notes sources feedback).

End Draft.

End Stub.

(* ===================================================================== *)
(** * Client/send_task.py: the P2P client                                 *)
(* ===================================================================== *)

Module SendTask.
Import Py.

(** What [sub.next_msg(timeout=...)] gives: a message, as [json.loads]
    reads it ([None]: JSONDecodeError), or the TimeoutError. *)
Inductive arrival :=
| Msg (data : option json)
| TimedOut.

Inductive ending :=
| Matched (payload : gmap string json)
| NotMatched (messages_checked : Z)
| Timeout (messages_checked : Z)
| Raised (messages_checked : Z)
| Waiting (messages_checked : Z).

(** [(final_env.payload if final_env else data.get("payload")) or {}]
    followed by [payload.get]: the envelope validates only with a dict as
    payload, so either branch yields the dict of the message; a payload
    that is truthy and not a dict makes [payload.get] raise. *)
Definition payload_of (data : gmap string json) : option (gmap string json) :=
  match dict_get data "payload" JNull with
  | JDict p => Some p
  | v => if truthy v then None else Some ∅
  end.

(** The [while messages_checked < MAX_WAIT_MESSAGES] loop of [main]. A
    message that is not JSON or belongs to another conversation is skipped
    by [continue]; [data.get] on a document that is not an object raises. *)
Fixpoint wait_for_final (MAX_WAIT_MESSAGES : Z) (conversation_id : string)
    (messages_checked : Z) (arrivals : list arrival) : ending :=
  if (messages_checked <? MAX_WAIT_MESSAGES)%Z then
    match arrivals with
    | [] => Waiting messages_checked
    | a :: rest =>
        let messages_checked := (messages_checked + 1)%Z in
        match a with
        | TimedOut => Timeout messages_checked
        | Msg None => wait_for_final MAX_WAIT_MESSAGES conversation_id messages_checked rest
        | Msg (Some (JDict data)) =>
            if is_str conversation_id (dict_get data "conversation_id" JNull) then
              match payload_of data with
              | Some payload => Matched payload
              | None => Raised messages_checked
              end
            else wait_for_final MAX_WAIT_MESSAGES conversation_id messages_checked rest
        | Msg (Some _) => Raised messages_checked
        end
    end
  else NotMatched messages_checked.

End SendTask.

(* ===================================================================== *)
(** * Client/client.py: the seed envelope                                 *)
(* ===================================================================== *)

Module Seed.
Import Py Rand.

(** [new_id()]. *)
Definition new_id (e : entropy) : string * entropy := uuid4 e.

(** [make_envelope(sender, target, payload, conversation_id=None,
    retries=0, max_retries=0)]. *)
Definition make_envelope (sender target : string) (payload : gmap string json)
    (conversation_id : option string) (retries max_retries : option Z) (e : entropy)
    : gmap string json * entropy :=
  let '(mid, e1) := new_id e in
  let '(cid, e2) := match conversation_id with
                    | Some c => if (String.length c =? 0)%nat then new_id e1 else (c, e1)
                    | None => new_id e1
                    end in
  (<["message_id" := JStr mid]> (<["conversation_id" := JStr cid]>
   (<["sender" := JStr sender]> (<["target" := JStr target]>
    (<["payload" := JDict payload]> (<["retries" := JInt (default 0%Z retries)]>
     (<["max_retries" := JInt (default 0%Z max_retries)]> ∅)))))), e2).

(** The envelope [run_client] prepares. *)
Definition seed (area : string) (max_topics max_sections max_retries : Z) (style : string)
    (sources : list string) (research_notes : string) (e : entropy)
    : gmap string json * entropy :=
  make_envelope "client@v1" "chief@v1"
    (<["area" := JStr area]> (<["max_topics" := JInt max_topics]>
     (<["max_sections" := JInt max_sections]> (<["style" := JStr style]>
      (<["sources" := JList (map JStr sources)]> (<["research_notes" := JStr research_notes]>
       (<["max_retries" := JInt max_retries]> ∅)))))))
    None None None e.

(** [_build_tls_context(cfg)] of the client: with a CA file set, the
    branch first calls [cfg.info], an attribute [Config] does not have;
    the AttributeError is caught by the [except] of the function, which
    returns [None]. *)
Definition _build_tls_context {ctx : Type} (NATS_TLS_ENABLED : bool)
    (NATS_TLS_CAFILE : option string) (create : option string -> option ctx) : option ctx :=
  if negb NATS_TLS_ENABLED then None
  else match NATS_TLS_CAFILE with
       | Some f => if (String.length f =? 0)%nat then create None else None
       | None => create None
       end.

(** The validation of a received document by the hierarchical services
    (the class called with the document's entries as keywords), on a document that
    has the seven fields of [make_envelope], each of its JSON type, and
    none of the other fields of the class, which then take their
    defaults. The outer [None] marks a document outside this fragment. *)
Definition validate (data : gmap string json) (now : string) (e : entropy)
    : option (option (Hier.A2AEnvelope * entropy)) :=
  match data !! "message_id", data !! "conversation_id", data !! "sender", data !! "target",
        data !! "payload", data !! "retries", data !! "max_retries" with
  | Some (JStr mid), Some (JStr cid), Some (JStr sender), Some (JStr target),
    Some (JDict payload), Some (JInt retries), Some (JInt max_retries) =>
      if (size data =? 7)%nat
      then Some (Hier.init (Some mid) (Some cid) None sender target None
                   (Some retries) (Some max_retries) (Some payload) now e)
      else None
  | _, _, _, _, _, _, _ => None
  end.

End Seed.

(* ===================================================================== *)
(** * Hops: a trace context derived along a conversation                  *)
(* ===================================================================== *)

Module Hops.
Import Rand.

(** The trace context after one derivation per handler of a path, each
    handler with its own entropy. *)
Fixpoint derive (tp : string) (es : list entropy) : string :=
  match es with
  | [] => tp
  | e :: rest => derive (fst (Trace.child_traceparent tp e)) rest
  end.

End Hops.

(* ===================================================================== *)
(** * A concrete runtime for the examples                                 *)
(* ===================================================================== *)

Module Ascii7.
Import Py.

(** The built-ins on ASCII text: decimal digit strings for [int()] and
    [float()], truncation for [int()] of a float, ASCII case and white
    space. The examples below use no other input of these functions. *)
Definition digit_of (c : ascii) : option Z :=
  let n := Z.of_N (N_of_ascii c) in
  if (48 <=? n)%Z && (n <=? 57)%Z then Some (n - 48)%Z else None.

Fixpoint digits (acc : Z) (s : string) : option Z :=
  match s with
  | EmptyString => Some acc
  | String c r => match digit_of c with
                  | Some d => digits (10 * acc + d)%Z r
                  | None => None
                  end
  end.

Definition int_of_digits (s : string) : option Z :=
  match s with
  | EmptyString => None
  | _ => digits 0 s
  end.

Definition trunc (f : float) : option Z :=
  match Prim2SF f with
  | S754_zero _ => Some 0%Z
  | S754_finite sg m ex =>
      let v := if (0 <=? ex)%Z then (Z.pos m * 2 ^ ex)%Z else (Z.pos m / 2 ^ (- ex))%Z in
      Some (if sg then (- v)%Z else v)
  | _ => None
  end.

Definition lower_char (c : ascii) : ascii :=
  let n := N_of_ascii c in
  if (65 <=? n)%N && (n <=? 90)%N then ascii_of_N (n + 32) else c.

Fixpoint lower_ascii (s : string) : string :=
  match s with
  | EmptyString => EmptyString
  | String c r => String (lower_char c) (lower_ascii r)
  end.

Definition is_space (c : ascii) : bool :=
  let n := N_of_ascii c in
  ((9 <=? n)%N && (n <=? 13)%N) || ((28 <=? n)%N && (n <=? 32)%N).

Fixpoint lstrip (s : string) : string :=
  match s with
  | String c r => if is_space c then lstrip r else s
  | EmptyString => EmptyString
  end.

Fixpoint rstrip (s : string) : string :=
  match s with
  | EmptyString => EmptyString
  | String c r =>
      match rstrip r with
      | EmptyString => if is_space c then EmptyString else String c EmptyString
      | r' => String c r'
      end
  end.

#[export] Instance runtime : Runtime := {|
  float_of_str s := match int_of_digits s with Some z => float_of_Z z | None => None end;
  int_of_str := int_of_digits;
  int_of_float := trunc;
  repr _ := "<object>";
  strip s := rstrip (lstrip s);
  lower := lower_ascii
|}.

End Ascii7.

Definition const_entropy (b : N) : Rand.entropy := fun _ => b.
Definition count_entropy : Rand.entropy := fun i => N.of_nat i.

(** Sample envelopes of the two variants. *)
Definition sample_p2p : P2P.A2AEnvelope :=
  {| P2P.envelope_version := "1.0"; P2P.message_id := "m-0";
     P2P.conversation_id := "c-1"; P2P.traceparent := "00-aa-bb-01";
     P2P.sender := "writer@v1"; P2P.target := "verifier@v1";
     P2P.ttl_ms := 15000; P2P.retries := 0; P2P.max_retries := 2;
     P2P.payload := <["draft" := Py.JStr "Answer: x"]> (<["sources" := Py.JList [Py.JStr "s1"]]> ∅) |}.

Definition sample_hier : Hier.A2AEnvelope :=
  {| Hier.envelope_version := "1.1"; Hier.message_id := "m-0";
     Hier.conversation_id := "c-1"; Hier.traceparent := "00-aa-bb-01";
     Hier.sender := "writer@v1"; Hier.target := "verifier@v1";
     Hier.ttl_ms := 15000; Hier.retries := 0; Hier.max_retries := 2;
     Hier.created_at := "2025-01-01T00:00:00Z";
     Hier.payload := <["draft" := Py.JStr "Answer: x"]> (<["sources" := Py.JList [Py.JStr "s1"]]> ∅) |}.

Definition reply_scored (score : float) : gmap string Py.json :=
  <["score" := Py.JFloat score]> (<["feedback" := Py.JStr "tighten the lead"]> ∅).
Definition p2p_cfg : P2P.config :=
  {| P2P.MIN_ACCEPTABLE_SCORE := 7; P2P.MAX_FEEDBACK_CHARS := 280; P2P.llm_on := true |}.
Definition hier_cfg : Hier.config :=
  {| Hier.MIN_ACCEPTABLE_SCORE := 7; Hier.MAX_FEEDBACK_CHARS := 500 |}.

(** An envelope the P2P Verifier can score: its draft is a str (or
    missing) and its sources have a length. *)
Definition scorable (env : P2P.A2AEnvelope) : Prop :=
  (exists s, Py.get_or (P2P.payload env) "draft" (Py.JStr "") = Py.JStr s) /\
  is_Some (Py.len (Py.get_or (P2P.payload env) "sources" (Py.JList []))).

(** The score sequences of the quality-gate examples, as replies of the
    completion service to the successive visits of the Verifier. *)
Definition scores_p2p (l : list float) (k : nat) : P2P.llm_reply :=
  P2P.Content (Some (Py.JDict (reply_scored (nth k l 10%float)))).
Definition scores_hier (l : list float) (k attempt : nat) : Hier.llm_reply :=
  Hier.Content (Some (Py.JDict (reply_scored (nth k l 10%float)))).

(** Requests to the chief editor and a delegate that proposes two topics. *)
Definition chief_request (payload : gmap string Py.json) : Hier.A2AEnvelope :=
  {| Hier.envelope_version := "1.1"; Hier.message_id := "m-0";
     Hier.conversation_id := "c-1"; Hier.traceparent := "00-aa-bb-01";
     Hier.sender := "client@v1"; Hier.target := "chief@v1";
     Hier.ttl_ms := 15000; Hier.retries := 0; Hier.max_retries := 0;
     Hier.created_at := "2025-01-01T00:00:00Z"; Hier.payload := payload |}.

Definition two_topics (area : Py.json) (max_topics : Z) : option (list string) :=
  Some ["Topic A"; "Topic B"].

(** Messages on the completion subject: a final result of conversation
    [cid], and the client settings of the examples. *)
Definition final_result (cid : string) (score : float) : gmap string Py.json :=
  <["conversation_id" := Py.JStr cid]>
  (<["message_id" := Py.JStr "m-9"]>
   (<["payload" := Py.JDict (<["draft" := Py.JStr "Answer: y"]>
                            (<["score" := Py.JFloat score]> ∅))]> ∅)).

Definition client_cfg (idle overall : float) : Client.Config :=
  {| Client.idle_timeout_sec := idle; Client.overall_timeout_sec := overall |}.


(** A child that carries the counters, the time to live and the
    conversation of the envelope it was derived from. *)
Definition keeps_counters (env out : Hier.A2AEnvelope) : Prop :=
  Hier.retries out = Hier.retries env /\
  Hier.max_retries out = Hier.max_retries env /\
  Hier.ttl_ms out = Hier.ttl_ms env /\
  Hier.conversation_id out = Hier.conversation_id env.

(** A request with an exhausted envelope budget whose payload names a
    budget of three, and what the chief editor, the section editor and the
    Writer make of it. *)
Definition budget0_chief : Hier.A2AEnvelope :=
  chief_request (<["max_retries" := Py.JInt 3]> (<["area" := Py.JStr "AI"]> ∅)).
Definition budget0_topic : Hier.A2AEnvelope :=
  hd budget0_chief
     (Planner.Chief.children (rt := Ascii7.runtime) budget0_chief two_topics
        (fun _ => "t1") count_entropy).
Definition budget0_section : Hier.A2AEnvelope :=
  hd budget0_topic
     (Planner.SectionEditor.children (rt := Ascii7.runtime) budget0_topic two_topics
        (fun _ => "t2") count_entropy).
Definition budget0_draft : Hier.A2AEnvelope :=
  default budget0_section
     (Hier.Writer._handle (rt := Ascii7.runtime) budget0_section (Some "Key point") "t3"
        count_entropy).

(** A message the P2P client passes over: one that is not JSON, or an
    object of another conversation. *)
Definition skipped (conversation_id : string) (a : SendTask.arrival) : bool :=
  match a with
  | SendTask.Msg None => true
  | SendTask.Msg (Some (Py.JDict data)) =>
      negb (Py.is_str conversation_id (Py.dict_get data "conversation_id" Py.JNull))
  | _ => false
  end.

(** The deliveries among [evs] that the done callback enqueues, and the
    passes of the collection loop. *)
Fixpoint deliveries (conversation_id : string) (evs : list Client.event) : Z :=
  match evs with
  | [] => 0
  | Client.Deliver msg :: rest =>
      ((if Client.matches conversation_id msg then 1 else 0) + deliveries conversation_id rest)%Z
  | Client.Pass _ _ :: rest => deliveries conversation_id rest
  end.

Definition state_of (o : Client.outcome) : Client.state :=
  match o with
  | Client.Running st => st
  | Client.Stopped _ st => st
  end.

(** Results taken and results still queued. *)
Definition balance (st : Client.state) : Z :=
  (Client.received st + Z.of_nat (length (Client.done_queue st)))%Z.

(** The line breaks of a text: it has one line more than these. *)
Fixpoint newlines (s : string) : nat :=
  match s with
  | EmptyString => O
  | String c r => ((if ascii_dec c "010" then 1 else 0) + newlines r)%nat
  end.

(** Reading hexadecimal text back: the value of a digit, the bytes of a
    text of digit pairs, and a text without its dashes. *)
Definition hex_value (c : ascii) : N :=
  let n := N_of_ascii c in
  if (n <=? 57)%N then (n - 48)%N else (n - 87)%N.

Fixpoint unhexlify (s : string) : list N :=
  match s with
  | String a (String b r) => (16 * hex_value a + hex_value b)%N :: unhexlify r
  | _ => []
  end.


Definition is_byte (b : N) : Prop := (b < 256)%N.


(* ===================================================================== *)
(** * Strings and random hexadecimal text                                 *)
(* ===================================================================== *)

Section StringFacts.
Import Py Rand Trace.

Example uuid4_sample :
  fst (Rand.uuid4 count_entropy) = "00010203-0405-4607-8809-0a0b0c0d0e0f".
Proof. reflexivity. Qed.

Example child_traceparent_sample :
  fst (Trace.child_traceparent "00-aa-bb-01" count_entropy) = "00-aa-0001020304050607-01".
Proof. reflexivity. Qed.

Example child_traceparent_garbage :
  fst (Trace.child_traceparent "garbage" (const_entropy 171)) =
  "00-abababababababababababababababab-abababababababab-01".
Proof. reflexivity. Qed.

Lemma split_nonempty sep s : split sep s <> [].
Proof.
  destruct s as [|c r]; simpl; [discriminate|].
  destruct (ascii_dec c sep); [discriminate|].
  destruct (split sep r); discriminate.
Qed.

(** A field without separator is split off whole. *)
Lemma split_field sep (a b : string) :
  free_of sep a = true -> split sep (a +:+ String sep b) = a :: split sep b.
Proof.
  induction a as [|c a IH]; simpl; intros Hfree.
  - destruct (ascii_dec sep sep); [reflexivity|contradiction].
  - destruct (ascii_dec c sep); [discriminate|].
    simpl in Hfree. rewrite (IH Hfree). reflexivity.
Qed.

Lemma split_last sep (a : string) : free_of sep a = true -> split sep a = [a].
Proof.
  induction a as [|c a IH]; simpl; intros Hfree; [reflexivity|].
  destruct (ascii_dec c sep); [discriminate|].
  simpl in Hfree. rewrite (IH Hfree). reflexivity.
Qed.

(** No field of a split contains the separator. *)
Lemma split_fields_free sep s : Forall (fun f => free_of sep f = true) (split sep s).
Proof.
  induction s as [|c r IH]; simpl.
  - repeat constructor.
  - destruct (ascii_dec c sep) as [->|Hne].
    + constructor; [reflexivity|exact IH].
    + destruct (split sep r) as [|f fs] eqn:E.
      * repeat constructor. simpl. destruct (ascii_dec c sep); [contradiction|reflexivity].
      * inversion IH; subst. constructor; [|assumption].
        simpl. destruct (ascii_dec c sep); [contradiction|assumption].
Qed.

Lemma hex_digit_is_hex d : is_hex (hex_digit d) = true.
Proof.
  destruct d as [|p]; [reflexivity|].
  do 4 (try destruct p as [p|p|]); reflexivity.
Qed.

Lemma hexlify_all_hex bs : all_hex (hexlify bs) = true.
Proof.
  induction bs as [|b r IH]; simpl; [reflexivity|].
  rewrite !hex_digit_is_hex. exact IH.
Qed.

Lemma all_hex_free s : all_hex s = true -> free_of "-" s = true.
Proof.
  induction s as [|c r IH]; simpl; [reflexivity|].
  intros [Hc Hr]%andb_prop.
  destruct (ascii_dec c "-") as [->|_]; [discriminate Hc|].
  simpl. auto.
Qed.

Lemma hexlify_length bs : String.length (hexlify bs) = (2 * length bs)%nat.
Proof. induction bs as [|b r IH]; simpl; [reflexivity|]. rewrite IH. lia. Qed.

Lemma urandom_length n e : length (fst (urandom n e)) = n.
Proof. unfold urandom. simpl. rewrite length_map, length_seq. reflexivity. Qed.

Lemma _hex_all_hex n e : all_hex (fst (_hex n e)) = true.
Proof. unfold _hex, token_hex, urandom. simpl. apply hexlify_all_hex. Qed.

Lemma _hex_length n e : String.length (fst (_hex n e)) = (2 * n)%nat.
Proof.
  unfold _hex, token_hex. destruct (urandom n e) as [bs e'] eqn:E. simpl.
  rewrite hexlify_length.
  change bs with (fst (bs, e')). rewrite <- E, urandom_length. reflexivity.
Qed.

(** The four fields of a context put together by the f-string. *)
Lemma split_traceparent (v t sp f : string) :
  free_of "-" v = true -> free_of "-" t = true ->
  free_of "-" sp = true -> free_of "-" f = true ->
  split "-" (v +:+ "-" +:+ t +:+ "-" +:+ sp +:+ "-" +:+ f) = [v; t; sp; f].
Proof.
  intros Hv Ht Hs Hf.
  change (v +:+ "-" +:+ t +:+ "-" +:+ sp +:+ "-" +:+ f)
    with (v +:+ String "-" (t +:+ String "-" (sp +:+ String "-" f))).
  rewrite !split_field by assumption. rewrite split_last by assumption. reflexivity.
Qed.

End StringFacts.

(* ===================================================================== *)
(** * Trace contexts                                                      *)
(* ===================================================================== *)

Section TraceFacts.
Import Py Rand Trace.

Lemma new_traceparent_fields e :
  fst (new_traceparent e) =
  "00" +:+ "-" +:+ fst (_hex 16 e) +:+ "-" +:+ fst (_hex 8 (snd (_hex 16 e))) +:+ "-" +:+ "01".
Proof.
  unfold new_traceparent.
  destruct (_hex 16 e) as [t e1]. simpl.
  destruct (_hex 8 e1) as [s e2]. reflexivity.
Qed.

Lemma new_traceparent_split e :
  split "-" (fst (new_traceparent e)) =
  ["00"; fst (_hex 16 e); fst (_hex 8 (snd (_hex 16 e))); "01"].
Proof.
  rewrite new_traceparent_fields.
  apply split_traceparent; try reflexivity; apply all_hex_free, _hex_all_hex.
Qed.

(** A new root context has the W3C shape. *)
Lemma new_traceparent_valid e : valid_traceparent (fst (new_traceparent e)) = true.
Proof.
  unfold valid_traceparent. rewrite new_traceparent_split.
  rewrite !_hex_length, !_hex_all_hex. reflexivity.
Qed.

Lemma child_traceparent_split parent (v t s f : string) e :
  split "-" parent = [v; t; s; f] ->
  split "-" (fst (child_traceparent parent e)) = ["00"; t; fst (_hex 8 e); f].
Proof.
  intros Hsplit.
  pose proof (split_fields_free "-" parent) as Hfree. rewrite Hsplit in Hfree.
  inversion Hfree as [|? ? Hv Hfree1]; subst.
  inversion Hfree1 as [|? ? Ht Hfree2]; subst.
  inversion Hfree2 as [|? ? Hs Hfree3]; subst.
  inversion Hfree3 as [|? ? Hf _]; subst.
  unfold child_traceparent. rewrite Hsplit.
  destruct (_hex 8 e) as [sp e1] eqn:E. simpl.
  apply (split_traceparent "00" t sp f); try assumption; try reflexivity.
  change sp with (fst (sp, e1)). rewrite <- E. apply all_hex_free, _hex_all_hex.
Qed.

Lemma child_traceparent_malformed parent e :
  ~ well_formed parent -> child_traceparent parent e = new_traceparent e.
Proof.
  unfold well_formed, child_traceparent. intros Hbad.
  destruct (split "-" parent) as [|a [|b [|c [|d [|x l]]]]]; try reflexivity.
  exfalso. apply Hbad. reflexivity.
Qed.

Lemma well_formed_fields parent :
  well_formed parent -> exists v t s f, split "-" parent = [v; t; s; f].
Proof.
  unfold well_formed. intros H.
  destruct (split "-" parent) as [|a [|b [|c [|d [|x l]]]]]; try discriminate H.
  eauto.
Qed.


End TraceFacts.

(* ===================================================================== *)
(** * Identifiers and the bytes they are drawn from                       *)
(* ===================================================================== *)

Section RandomFacts.
Import Py Rand Trace.

Lemma urandom_drawn k n e : fst (urandom n (snd (urandom k e))) = drawn k n e.
Proof. reflexivity. Qed.

Lemma urandom_drawn0 n e : fst (urandom n e) = drawn 0 n e.
Proof. reflexivity. Qed.

Lemma drawn_bytes k n e : Forall is_byte (drawn k n e).
Proof.
  unfold drawn. apply List.Forall_forall. intros b Hb.
  apply in_map_iff in Hb as (i & <- & _). unfold is_byte. apply N.mod_lt. discriminate.
Qed.

Lemma hex_value_digit d : (d < 16)%N -> hex_value (hex_digit d) = d.
Proof.
  intros Hd.
  assert (Hcases : (d = 0 \/ d = 1 \/ d = 2 \/ d = 3 \/ d = 4 \/ d = 5 \/ d = 6 \/ d = 7 \/
                    d = 8 \/ d = 9 \/ d = 10 \/ d = 11 \/ d = 12 \/ d = 13 \/ d = 14 \/
                    d = 15)%N) by lia.
  repeat (destruct Hcases as [->|Hcases]; [reflexivity|]). subst d. reflexivity.
Qed.

Lemma unhexlify_hexlify bs : Forall is_byte bs -> unhexlify (hexlify bs) = bs.
Proof.
  induction 1 as [|b r Hb Hr IH]; [reflexivity|]. cbn [hexlify unhexlify].
  unfold is_byte in Hb.
  rewrite !hex_value_digit, IH.
  - f_equal. symmetry. apply N.div_mod'.
  - apply N.mod_lt. discriminate.
  - apply N.Div0.div_lt_upper_bound. exact Hb.
Qed.

(** Hexadecimal text determines its bytes. *)
Lemma hexlify_inj b1 b2 :
  Forall is_byte b1 -> Forall is_byte b2 -> hexlify b1 = hexlify b2 -> b1 = b2.
Proof.
  intros H1 H2 Heq. rewrite <- (unhexlify_hexlify b1 H1), <- (unhexlify_hexlify b2 H2), Heq.
  reflexivity.
Qed.














Lemma _hex_drawn n e : fst (_hex n e) = hexlify (drawn 0 n e).
Proof. reflexivity. Qed.

Lemma _hex_drawn_after k n e : fst (_hex n (snd (_hex k e))) = hexlify (drawn k n e).
Proof. reflexivity. Qed.





End RandomFacts.

(** C9. Deriving a child trace context never raises. From a parent that
    does not split into exactly four hyphen-separated fields it returns a
    new root context, which has the four-field shape 00, 32 hexadecimal
    digits, 16 hexadecimal digits, 01; the trace id is the hexadecimal
    text of the first sixteen bytes drawn from the random source and the
    span id that of the next eight, so two such contexts are equal only
    when the same bytes were drawn. From a parent with four fields it
    returns a context with four fields again, the parent's trace id as the
    second and, as the third, a span id that is the hexadecimal text of
    eight bytes drawn anew: it is the same for two derivations only when
    they drew the same eight bytes. *)
Theorem child_traceparent_lenient (parent : string) (e : Rand.entropy) :
  (~ Trace.well_formed parent ->
     Trace.child_traceparent parent e = Trace.new_traceparent e /\
     Trace.valid_traceparent (fst (Trace.child_traceparent parent e)) = true /\
     Py.split "-" (fst (Trace.child_traceparent parent e)) =
       ["00"; Rand.hexlify (Rand.drawn 0 16 e); Rand.hexlify (Rand.drawn 16 8 e); "01"] /\
     (forall parent' e',
        ~ Trace.well_formed parent' ->
        fst (Trace.child_traceparent parent' e') = fst (Trace.child_traceparent parent e) ->
        Rand.drawn 0 16 e' = Rand.drawn 0 16 e /\ Rand.drawn 16 8 e' = Rand.drawn 16 8 e)) /\
  (Trace.well_formed parent ->
     exists version trace_id span flags,
       Py.split "-" parent = [version; trace_id; span; flags] /\
       Py.split "-" (fst (Trace.child_traceparent parent e)) =
         ["00"; trace_id; fst (Trace._hex 8 e); flags] /\
       Trace.trace_id_of (fst (Trace.child_traceparent parent e)) = Some trace_id /\
       Trace.trace_id_of parent = Some trace_id /\
       Trace.span_id_of (fst (Trace.child_traceparent parent e)) = Some (fst (Trace._hex 8 e)) /\
       Trace.all_hex (fst (Trace._hex 8 e)) = true /\
       String.length (fst (Trace._hex 8 e)) = 16%nat /\
       fst (Trace._hex 8 e) = Rand.hexlify (Rand.drawn 0 8 e) /\
       (forall e',
          Trace.span_id_of (fst (Trace.child_traceparent parent e'))
          = Trace.span_id_of (fst (Trace.child_traceparent parent e)) ->
          Rand.drawn 0 8 e' = Rand.drawn 0 8 e)).
Proof.
  split.
  - intros Hbad. rewrite (child_traceparent_malformed _ _ Hbad).
    split; [reflexivity|]. split; [apply new_traceparent_valid|].
    split; [apply new_traceparent_split|].
    intros parent' e' Hbad' Heq.
    rewrite (child_traceparent_malformed _ _ Hbad') in Heq.
    apply (f_equal (Py.split "-")) in Heq. rewrite !new_traceparent_split in Heq.
    assert (Ht : fst (Trace._hex 16 e') = fst (Trace._hex 16 e))
      by exact (f_equal (fun l => nth 1 l EmptyString) Heq).
    assert (Hs : fst (Trace._hex 8 (snd (Trace._hex 16 e')))
                 = fst (Trace._hex 8 (snd (Trace._hex 16 e))))
      by exact (f_equal (fun l => nth 2 l EmptyString) Heq).
    rewrite !_hex_drawn in Ht. rewrite !_hex_drawn_after in Hs.
    split; apply hexlify_inj; try apply drawn_bytes; assumption.
  - intros [v [t [s [f Hsplit]]]]%well_formed_fields.
    exists v, t, s, f.
    pose proof (child_traceparent_split parent v t s f e Hsplit) as Hchild.
    unfold Trace.trace_id_of, Trace.span_id_of. rewrite Hchild, Hsplit.
    repeat split; try reflexivity.
    + apply _hex_all_hex.
    + intros e'. rewrite (child_traceparent_split parent v t s f e' Hsplit).
      intros Hsome.
      assert (Hspan : fst (Trace._hex 8 e') = fst (Trace._hex 8 e))
        by exact (f_equal (fun o => match o with Some x => x | None => EmptyString end) Hsome).
      rewrite !_hex_drawn in Hspan.
      apply hexlify_inj; try apply drawn_bytes; assumption.
Qed.

(** The malformed parent ["garbage"] and a well-formed parent, with the
    bytes 0, 1, 2, ... as the random source. *)
Lemma child_traceparent_lenient_witness :
  Trace.valid_traceparent (fst (Trace.child_traceparent "garbage" count_entropy)) = true /\
  Trace.trace_id_of (fst (Trace.child_traceparent "00-aa-bb-01" count_entropy)) = Some "aa" /\
  Trace.span_id_of (fst (Trace.child_traceparent "00-aa-bb-01" count_entropy))
    = Some "0001020304050607".
Proof.
  split.
  - apply (proj1 (child_traceparent_lenient "garbage" count_entropy)).
    unfold Trace.well_formed. simpl. discriminate.
  - destruct (proj2 (child_traceparent_lenient "00-aa-bb-01" count_entropy) eq_refl)
      as (v & t & s & f & Hsplit & _ & Hchild & _ & Hspan & _ & _ & Hbytes & _).
    injection Hsplit as _ <- _ _. split; [exact Hchild|].
    rewrite Hspan, Hbytes. reflexivity.
Defined.

(* ===================================================================== *)
(** * Envelope construction and derivation                                *)
(* ===================================================================== *)

Section EnvelopeFacts.
Import Py Rand Trace.

(** Every field of a P2P child. *)
Lemma p2p_child_fields (self : P2P.A2AEnvelope) sender target payload retries e :
  let c := fst (P2P.child self sender target payload retries e) in
  P2P.conversation_id c = P2P.conversation_id self /\
  P2P.traceparent c = fst (child_traceparent (P2P.traceparent self) e) /\
  P2P.message_id c = child_draw (P2P.traceparent self) false e /\
  P2P.sender c = sender /\ P2P.target c = target /\
  P2P.ttl_ms c = P2P.ttl_ms self /\
  P2P.retries c = match retries with None => P2P.retries self | Some r => r end /\
  P2P.max_retries c = P2P.max_retries self /\
  P2P.payload c = payload.
Proof.
  unfold P2P.child, P2P.init, child_draw.
  destruct (child_traceparent (P2P.traceparent self) e) as [tp e1]. simpl.
  destruct (uuid4 e1) as [mid e2]. simpl. repeat split; reflexivity.
Qed.

(** When a hierarchical derivation succeeds, and every field of its child. *)
Lemma hier_child_some (self : Hier.A2AEnvelope) sender target payload retries max_retries
    ttl_ms keep_span now e :
  let ttl := match ttl_ms with Some t => t | None => Hier.ttl_ms self end in
  let r := match retries with None => Hier.retries self | Some r => r end in
  let m := match max_retries with None => Hier.max_retries self | Some m => m end in
  (0 < ttl)%Z -> (0 <= r)%Z -> (0 <= m)%Z ->
  exists c e',
    Hier.child self sender target payload retries max_retries ttl_ms keep_span now e = Some (c, e') /\
    e' = snd (uuid4 (if keep_span then e else snd (child_traceparent (Hier.traceparent self) e))).
Proof.
  intros ttl r m Httl Hr Hm. unfold Hier.child, Hier.init.
  destruct keep_span.
  - destruct (uuid4 e) as [mid e1]. simpl.
    unfold Hier._validate_ttl_ms, Hier._validate_retries.
    fold ttl r m.
    destruct (Z.leb_spec ttl 0); [lia|]. destruct (Z.ltb_spec r 0); [lia|].
    destruct (Z.ltb_spec m 0); [lia|]. eauto.
  - destruct (child_traceparent (Hier.traceparent self) e) as [tp e0]. simpl.
    destruct (uuid4 e0) as [mid e1]. simpl.
    unfold Hier._validate_ttl_ms, Hier._validate_retries.
    fold ttl r m.
    destruct (Z.leb_spec ttl 0); [lia|]. destruct (Z.ltb_spec r 0); [lia|].
    destruct (Z.ltb_spec m 0); [lia|]. eauto.
Qed.

Lemma hier_child_fields (self : Hier.A2AEnvelope) sender target payload retries max_retries
    ttl_ms keep_span now e c e' :
  Hier.child self sender target payload retries max_retries ttl_ms keep_span now e = Some (c, e') ->
  Hier.conversation_id c = Hier.conversation_id self /\
  Hier.traceparent c = (if keep_span then Hier.traceparent self
                        else fst (child_traceparent (Hier.traceparent self) e)) /\
  Hier.message_id c = child_draw (Hier.traceparent self) keep_span e /\
  Hier.sender c = Hier.str_or sender (Hier.sender self) /\
  Hier.target c = Hier.str_or target (Hier.target self) /\
  Hier.ttl_ms c = match ttl_ms with Some t => t | None => Hier.ttl_ms self end /\
  Hier.retries c = match retries with None => Hier.retries self | Some r => r end /\
  Hier.max_retries c = match max_retries with None => Hier.max_retries self | Some m => m end /\
  Hier.created_at c = now /\
  Hier.payload c = default ∅ payload /\
  Hier.valid c /\
  e' = snd (uuid4 (if keep_span then e else snd (child_traceparent (Hier.traceparent self) e))).
Proof.
  unfold Hier.child, Hier.init, child_draw, Hier.valid.
  set (ttl := match ttl_ms with Some t => t | None => Hier.ttl_ms self end).
  set (r := match retries with None => Hier.retries self | Some r => r end).
  set (m := match max_retries with None => Hier.max_retries self | Some m => m end).
  destruct keep_span.
  - destruct (uuid4 e) as [mid e1]. simpl.
    unfold Hier._validate_ttl_ms, Hier._validate_retries.
    destruct (Z.leb_spec ttl 0); [discriminate|]. destruct (Z.ltb_spec r 0); [discriminate|].
    destruct (Z.ltb_spec m 0); [discriminate|].
    intros [= <- <-]. simpl. repeat split; try reflexivity; lia.
  - destruct (child_traceparent (Hier.traceparent self) e) as [tp e0]. simpl.
    destruct (uuid4 e0) as [mid e1]. simpl.
    unfold Hier._validate_ttl_ms, Hier._validate_retries.
    destruct (Z.leb_spec ttl 0); [discriminate|]. destruct (Z.ltb_spec r 0); [discriminate|].
    destruct (Z.ltb_spec m 0); [discriminate|].
    intros [= <- <-]. simpl. repeat split; try reflexivity; lia.
Qed.

(** The trace id survives a derivation from a well-formed parent. *)
Lemma trace_id_kept parent e :
  well_formed parent ->
  exists t, trace_id_of parent = Some t /\
            trace_id_of (fst (child_traceparent parent e)) = Some t.
Proof.
  intros [v [t [s [f Hsplit]]]]%well_formed_fields.
  exists t. unfold trace_id_of.
  rewrite (child_traceparent_split parent v t s f e Hsplit), Hsplit. split; reflexivity.
Qed.

End EnvelopeFacts.




(** What [Hier.init] checks: the sign of each of the three integers, and
    nothing that relates [retries] to [max_retries]. *)
Lemma hier_init_spec mid cid tp sender target ttl r m payload now e :
  match Hier.init mid cid tp sender target ttl r m payload now e with
  | Some (env, _) =>
      Hier.valid env /\
      Hier.ttl_ms env = default 15000%Z ttl /\
      Hier.retries env = default 0%Z r /\
      Hier.max_retries env = default 2%Z m
  | None => (default 15000 ttl <= 0)%Z \/ (default 0 r < 0)%Z \/ (default 2 m < 0)%Z
  end.
Proof.
  unfold Hier.init, Hier.valid, Hier._validate_ttl_ms, Hier._validate_retries.
  destruct (match mid with Some m0 => (m0, e) | None => Rand.uuid4 e end) as [mid' e1].
  destruct (match cid with Some c => (c, e1) | None => Rand.uuid4 e1 end) as [cid' e2].
  destruct (match tp with Some t => (t, e2) | None => Trace.new_traceparent e2 end) as [tp' e3].
  destruct (Z.leb_spec (default 15000%Z ttl) 0); [left; lia|].
  destruct (Z.ltb_spec (default 0%Z r) 0); [right; left; lia|].
  destruct (Z.ltb_spec (default 2%Z m) 0); [right; right; lia|].
  simpl. repeat split; try reflexivity; lia.
Qed.

(** C3, as the code has it. A hierarchical envelope is constructed,
    directly or by child derivation, unless [ttl_ms <= 0], [retries < 0] or
    [max_retries < 0], in which case construction fails; so every
    constructed hierarchical envelope has [0 <= retries] and
    [0 <= max_retries]. No validator compares [retries] with
    [max_retries]. The P2P envelope declares no validator at all: its
    construction returns with the values it is given. *)
Theorem construction_checks_signs_only :
  (forall mid cid tp sender target ttl r m payload now e,
     match Hier.init mid cid tp sender target ttl r m payload now e with
     | Some (env, _) =>
         Hier.valid env /\ Hier.retries env = default 0%Z r /\
         Hier.max_retries env = default 2%Z m
     | None => (default 15000 ttl <= 0)%Z \/ (default 0 r < 0)%Z \/ (default 2 m < 0)%Z
     end) /\
  (forall (self : Hier.A2AEnvelope) sender target payload retries max_retries ttl_ms keep_span now e,
     let ttl := match ttl_ms with Some t => t | None => Hier.ttl_ms self end in
     let r := match retries with None => Hier.retries self | Some r => r end in
     let m := match max_retries with None => Hier.max_retries self | Some m => m end in
     match Hier.child self sender target payload retries max_retries ttl_ms keep_span now e with
     | Some (c, _) => Hier.valid c /\ Hier.retries c = r /\ Hier.max_retries c = m
     | None => (ttl <= 0)%Z \/ (r < 0)%Z \/ (m < 0)%Z
     end) /\
  (forall mid cid tp sender target ttl r m payload e,
     P2P.retries (fst (P2P.init mid cid tp sender target ttl r m payload e)) = default 0%Z r /\
     P2P.max_retries (fst (P2P.init mid cid tp sender target ttl r m payload e)) = default 2%Z m) /\
  (forall (self : P2P.A2AEnvelope) sender target payload retries e,
     P2P.retries (fst (P2P.child self sender target payload retries e))
       = match retries with None => P2P.retries self | Some r => r end /\
     P2P.max_retries (fst (P2P.child self sender target payload retries e))
       = P2P.max_retries self).
Proof.
  split; [|split; [|split]].
  - intros. pose proof (hier_init_spec mid cid tp sender target ttl r m payload now e) as H.
    destruct (Hier.init mid cid tp sender target ttl r m payload now e) as [[env e']|]; tauto.
  - intros self sender target payload retries max_retries ttl_ms keep_span now e ttl r m.
    unfold Hier.child.
    destruct (if keep_span then (Hier.traceparent self, e)
              else Trace.child_traceparent (Hier.traceparent self) e) as [tp e1].
    match goal with |- context [Hier.init ?a ?b ?c ?d ?f ?g ?h ?i ?j ?k ?l] =>
      pose proof (hier_init_spec a b c d f g h i j k l) as H;
      destruct (Hier.init a b c d f g h i j k l) as [[c0 e']|] end.
    + simpl in H. tauto.
    + simpl in H. exact H.
  - intros. unfold P2P.init.
    destruct (match mid with Some m0 => (m0, e) | None => Rand.uuid4 e end). split; reflexivity.
  - intros. destruct (p2p_child_fields self sender target payload retries e) as (_&_&_&_&_&_&Hr&Hm&_).
    split; assumption.
Qed.

(** Against C3 as stated: with [retries = 3] above [max_retries = 2] the
    constructor of either variant returns an envelope, and so does a child
    derivation whose override 5 exceeds the parent's budget 2. *)
Lemma retries_above_budget_is_accepted :
  (exists env e', Hier.init None None None "a@v1" "b@v1" None (Some 3%Z) (Some 2%Z) None
                   "now" count_entropy = Some (env, e') /\
                  (Hier.max_retries env < Hier.retries env)%Z) /\
  (exists c e', Hier.child sample_hier None None None (Some 5%Z) None None false
                   "now" count_entropy = Some (c, e') /\
                (Hier.max_retries c < Hier.retries c)%Z) /\
  (P2P.max_retries (fst (P2P.init None "c-1" "00-aa-bb-01" "a@v1" "b@v1" None (Some 3%Z) (Some 2%Z) ∅
                           count_entropy))
   < P2P.retries (fst (P2P.init None "c-1" "00-aa-bb-01" "a@v1" "b@v1" None (Some 3%Z) (Some 2%Z) ∅
                         count_entropy)))%Z.
Proof.
  split; [|split].
  - eexists. eexists. split; [vm_compute; reflexivity|]. simpl. lia.
  - eexists. eexists. split; [vm_compute; reflexivity|]. simpl. lia.
  - vm_compute. reflexivity.
Qed.

(* ===================================================================== *)
(** * Scores                                                              *)
(* ===================================================================== *)

Section ScoreFacts.
Import Py.



(** The clamp leaves a score of the range alone and lifts 0 to 1. *)
Lemma clamp_zero : py_max 1 (py_min 10 0) = 1%float.
Proof. reflexivity. Qed.

Lemma retrying_some {A} (body : nat -> option A) n k r :
  Hier.retrying n body k = Some r -> exists j, body j = Some r.
Proof.
  revert k. induction n as [|n IH]; simpl; intros k H; [discriminate|].
  destruct (body k) eqn:E.
  - injection H as <-. eauto.
  - eauto.
Qed.

Context {rt : Runtime}.



End ScoreFacts.

Section ScoringFacts.
Import Py.
Context {rt : Runtime}.








End ScoringFacts.




(* ===================================================================== *)
(** * The Verifier's transition                                           *)
(* ===================================================================== *)

Section VerifierFacts.
Import Py Wire.
Context {rt : Runtime}.

Lemma p2p_dumps (out : P2P.A2AEnvelope) :
  json_dumps (P2P.model_dump out) = Some (P2P.document out).
Proof. reflexivity. Qed.

(** [json.dumps] meets the datetime of [created_at] and raises. *)
Lemma hier_dumps_raises (out : Hier.A2AEnvelope) : json_dumps (Hier.model_dump out) = None.
Proof. reflexivity. Qed.

(** The P2P Verifier does what the transition rule says. *)
Lemma p2p_verifier_transition cfg (env : P2P.A2AEnvelope) reply e score fb :
  let p := P2P.payload env in
  let draft := get_or p "draft" (JStr "") in
  let sources := get_or p "sources" (JList []) in
  is_Some (len draft) -> is_Some (len sources) ->
  P2P.score_with_llm cfg draft sources (get_or p "research_notes" (JStr "")) reply
    = Some (score, fb) ->
  if (score <? P2P.MIN_ACCEPTABLE_SCORE cfg)%float && (P2P.retries env <? P2P.max_retries env)%Z
  then exists out,
         P2P.decide cfg env reply e = Some (P2P.Revise out) /\
         P2P._message_handler cfg env reply e = [(P2P.WRITE_IN_SUBJECT, P2P.document out)] /\
         P2P.target out = "writer@v1" /\
         P2P.retries out = (P2P.retries env + 1)%Z /\
         P2P.max_retries out = P2P.max_retries env /\
         P2P.conversation_id out = P2P.conversation_id env /\
         P2P.payload out !! "feedback" = Some (JStr fb) /\
         P2P.payload out !! "sources" = Some sources /\
         P2P.payload out !! "draft" = None
  else exists out,
         P2P.decide cfg env reply e = Some (P2P.Finalize out) /\
         P2P._message_handler cfg env reply e = [(P2P.DONE_SUBJECT, P2P.document out)] /\
         P2P.target out = "client@v1" /\
         P2P.retries out = P2P.retries env /\
         P2P.max_retries out = P2P.max_retries env /\
         P2P.conversation_id out = P2P.conversation_id env /\
         P2P.payload out !! "draft" = Some draft /\
         P2P.payload out !! "score" = Some (JFloat score) /\
         P2P.payload out !! "sources" = Some sources.
Proof.
  intros p draft sources [n Hn] [k Hk] Hscore.
  unfold P2P._message_handler, P2P.decide.
  fold p. fold draft. fold sources. rewrite Hn, Hk, Hscore.
  destruct ((score <? P2P.MIN_ACCEPTABLE_SCORE cfg)%float
            && (P2P.retries env <? P2P.max_retries env)%Z).
  - match goal with |- context [P2P.child ?a ?b ?c ?d ?f ?g] =>
      pose proof (p2p_child_fields a b c d f g) as (Hcid & _ & _ & _ & Htg & _ & Hr & Hm & Hp);
      exists (fst (P2P.child a b c d f g)) end.
    rewrite Hp. repeat split; try assumption; reflexivity.
  - match goal with |- context [P2P.child ?a ?b ?c ?d ?f ?g] =>
      pose proof (p2p_child_fields a b c d f g) as (Hcid & _ & _ & _ & Htg & _ & Hr & Hm & Hp);
      exists (fst (P2P.child a b c d f g)) end.
    rewrite Hp. repeat split; try assumption; reflexivity.
Qed.

(** The hierarchical Verifier: the final branch publishes, the revision
    branch derives its child and then loses it to the exception of
    [json.dumps]. *)
Lemma hier_verifier_transition cfg (env : Hier.A2AEnvelope) replies now e score fb :
  let p := Hier.payload env in
  let draft := get_or p "draft" (JStr "") in
  let sources := get_or p "sources" (JList []) in
  Hier.valid env ->
  is_Some (len draft) -> is_Some (len sources) ->
  Hier.score_with_llm cfg draft sources (get_or p "research_notes" (JStr "")) replies
    = Some (score, fb) ->
  if (score <? Hier.MIN_ACCEPTABLE_SCORE cfg)%float && (Hier.retries env <? Hier.max_retries env)%Z
  then exists out,
         Hier.decide cfg env replies now e = Some (Hier.Revise out) /\
         Hier.retries out = (Hier.retries env + 1)%Z /\
         Hier.payload out !! "feedback" = Some (JStr fb) /\
         Hier._handle cfg env replies now e = []
  else exists out,
         Hier.decide cfg env replies now e = Some (Hier.Finalize out) /\
         Hier._handle cfg env replies now e = [(Hier.DONE_SUBJECT, Hier.model_dump_json out)] /\
         Hier.target out = "client@v1" /\
         Hier.retries out = Hier.retries env /\
         Hier.conversation_id out = Hier.conversation_id env /\
         Hier.payload out !! "draft" = Some draft /\
         Hier.payload out !! "score" = Some (JFloat score) /\
         Hier.payload out !! "sources" = Some sources.
Proof.
  intros p draft sources (Httl & Hr0 & Hm0) [n Hn] [k Hk] Hscore.
  unfold Hier._handle, Hier.decide.
  fold p. fold draft. fold sources. rewrite Hn, Hk, Hscore.
  destruct ((score <? Hier.MIN_ACCEPTABLE_SCORE cfg)%float
            && (Hier.retries env <? Hier.max_retries env)%Z).
  - match goal with |- context [Hier.child ?a ?b ?c ?d ?f ?g ?h ?i ?j ?l] =>
      destruct (hier_child_some a b c d f g h i j l) as (out & e' & Hchild & _);
        [simpl; lia ..|];
      rewrite Hchild;
      destruct (hier_child_fields _ _ _ _ _ _ _ _ _ _ _ _ Hchild)
        as (_ & _ & _ & _ & _ & _ & Hr & _ & _ & Hp & _) end.
    exists out. rewrite Hp. repeat split; try assumption; reflexivity.
  - match goal with |- context [Hier.child ?a ?b ?c ?d ?f ?g ?h ?i ?j ?l] =>
      destruct (hier_child_some a b c d f g h i j l) as (out & e' & Hchild & _);
        [simpl; lia ..|];
      rewrite Hchild;
      destruct (hier_child_fields _ _ _ _ _ _ _ _ _ _ _ _ Hchild)
        as (Hcid & _ & _ & _ & Htg & _ & Hr & _ & _ & Hp & _) end.
    exists out. rewrite Hp. repeat split; try assumption; reflexivity.
Qed.

End VerifierFacts.

(** C2, where the hierarchical Verifier departs from it. Whenever the
    draft scores below [MIN_ACCEPTABLE_SCORE] and retries remain, so that
    the rule asks for one revision request to the Writer, the handler of
    [verify_service.py] publishes nothing: the child is serialised with
    [json.dumps(out.model_dump())], which raises on the datetime of
    [created_at], and the handler logs the exception. (Its final branch
    and the P2P Verifier serialise successfully, see
    [hier_verifier_transition] and [p2p_verifier_transition].) *)
Theorem hier_revision_request_is_lost (rt : Py.Runtime) (cfg : Hier.config)
    (env : Hier.A2AEnvelope) (replies : nat -> Hier.llm_reply) (now : string)
    (e : Rand.entropy) (score : float) (fb : string) :
  is_Some (Py.len (Py.get_or (Hier.payload env) "draft" (Py.JStr ""))) ->
  is_Some (Py.len (Py.get_or (Hier.payload env) "sources" (Py.JList []))) ->
  Hier.score_with_llm cfg (Py.get_or (Hier.payload env) "draft" (Py.JStr ""))
    (Py.get_or (Hier.payload env) "sources" (Py.JList []))
    (Py.get_or (Hier.payload env) "research_notes" (Py.JStr "")) replies = Some (score, fb) ->
  (score <? Hier.MIN_ACCEPTABLE_SCORE cfg)%float = true ->
  (Hier.retries env < Hier.max_retries env)%Z ->
  Hier._handle cfg env replies now e = [].
Proof.
  intros [n Hn] [k Hk] Hscore Hlow Hbudget.
  unfold Hier._handle, Hier.decide. rewrite Hn, Hk, Hscore, Hlow.
  destruct (Z.ltb_spec (Hier.retries env) (Hier.max_retries env)); [|lia]. simpl.
  destruct (Hier.child _ _ _ _ _ _ _ _ _ _) as [[out e']|]; reflexivity.
Qed.

(** The sample envelope ([retries = 0], [max_retries = 2]) with a draft
    that the completion service scores 4. *)
Lemma hier_revision_request_is_lost_witness :
  Hier._handle (rt := Ascii7.runtime) hier_cfg sample_hier
    (fun _ => Hier.Content (Some (Py.JDict (reply_scored 4)))) "2025-01-01T00:00:01Z"
    count_entropy = [].
Proof.
  apply (hier_revision_request_is_lost Ascii7.runtime hier_cfg sample_hier _ _ _
           4%float "tighten the lead").
  - vm_compute. eauto.
  - vm_compute. eauto.
  - vm_compute. reflexivity.
  - reflexivity.
  - simpl. lia.
Defined.

(** The same input to the P2P Verifier: one revision request for the
    Writer, with [retries = 1]. *)
Example p2p_revision_request_is_published :
  exists doc, P2P._message_handler (rt := Ascii7.runtime) p2p_cfg sample_p2p
                (P2P.Content (Some (Py.JDict (reply_scored 4)))) count_entropy
              = [(P2P.WRITE_IN_SUBJECT, Py.JDict doc)] /\
              doc !! "retries" = Some (Py.JInt 1) /\
              doc !! "target" = Some (Py.JStr "writer@v1").
Proof. eexists. split; [vm_compute; reflexivity|]. split; reflexivity. Qed.

(* ===================================================================== *)
(** * The revision loop                                                   *)
(* ===================================================================== *)

Section LoopFacts.
Import Py Wire.
Context {rt : Runtime}.

Lemma py_or_idem v d : py_or (py_or v d) d = py_or v d.
Proof.
  unfold py_or. destruct (truthy v) eqn:E; [rewrite E; reflexivity|].
  destruct (truthy d); reflexivity.
Qed.

(** The heuristic of the P2P reviewer is defined on every str. *)
Lemma p2p_heuristic_total s : is_Some (P2P.heuristic_score (JStr s)).
Proof. unfold P2P.heuristic_score. simpl. eauto. Qed.

Lemma p2p_score_total cfg s sources notes reply :
  is_Some (P2P.score_with_llm cfg (JStr s) sources notes reply).
Proof.
  unfold P2P.score_with_llm. destruct (P2P.llm_on cfg); [|apply p2p_heuristic_total].
  destruct (P2P.llm_score cfg sources reply); [eauto|apply p2p_heuristic_total].
Qed.

(** The Writer answers a revision request with a scorable envelope that
    keeps the counters of the request. *)
Lemma p2p_writer_keeps_counters (out : P2P.A2AEnvelope) d e :
  is_Some (len (get_or (P2P.payload out) "sources" (JList []))) ->
  exists env', P2P.Writer._message_handler out (Some d) e = Some env' /\
               scorable env' /\
               P2P.retries env' = P2P.retries out /\
               P2P.max_retries env' = P2P.max_retries out /\
               P2P.conversation_id env' = P2P.conversation_id out.
Proof.
  intros Hlen. unfold P2P.Writer._message_handler.
  match goal with |- context [P2P.child ?a ?b ?c ?p ?f ?g] =>
    pose proof (p2p_child_fields a b c p f g) as (Hcid & _ & _ & _ & _ & _ & Hr & Hm & Hp);
    exists (fst (P2P.child a b c p f g)) end.
  split; [reflexivity|]. split; [|auto].
  unfold scorable. rewrite Hp. split.
  - unfold get_or, dict_get.
    rewrite !lookup_insert_ne by done. rewrite lookup_insert_eq.
    unfold py_or. simpl. destruct (String.length d =? 0)%nat; eauto.
  - unfold get_or at 1. unfold dict_get.
    rewrite !lookup_insert_ne by done. rewrite lookup_insert_eq. simpl.
    unfold get_or. rewrite py_or_idem. exact Hlen.
Qed.

(** A P2P branch reaches FINAL after at most as many revision hops as
    its budget leaves, whatever the scores and the drafts are. *)
Lemma p2p_branch_finalizes cfg replies drafts ev ew :
  (forall k, is_Some (drafts k)) ->
  forall (d : nat) (env : P2P.A2AEnvelope) (k fuel : nat),
    scorable env ->
    (P2P.max_retries env - P2P.retries env <= Z.of_nat d)%Z ->
    (d < fuel)%nat ->
    exists hops out,
      Branch.p2p cfg replies drafts ev ew fuel k env
        = Branch.Finalized (k + hops) (P2P.document out) /\
      (hops <= d)%nat /\
      P2P.retries out = (P2P.retries env + Z.of_nat hops)%Z /\
      (hops = 0%nat \/ P2P.retries out <= P2P.max_retries env)%Z /\
      P2P.conversation_id out = P2P.conversation_id env /\
      P2P.target out = "client@v1" /\
      is_Some (P2P.payload out !! "draft") /\
      is_Some (P2P.payload out !! "score").
Proof.
  intros Hdrafts. induction d as [|d IH]; intros env k fuel Hsc Hbudget Hfuel;
    (destruct fuel as [|fuel]; [lia|]); cbn [Branch.p2p];
    destruct Hsc as [[s Hs] Hsrc];
    destruct (p2p_score_total cfg s (get_or (P2P.payload env) "sources" (JList []))
                (get_or (P2P.payload env) "research_notes" (JStr "")) (replies k))
      as [[score fb] Hscore];
    rewrite <- Hs in Hscore;
    pose proof (p2p_verifier_transition cfg env (replies k) (ev k) score fb
                  ltac:(rewrite Hs; simpl; eauto) Hsrc Hscore) as Hstep;
    cbv zeta in Hstep;
    destruct ((score <? P2P.MIN_ACCEPTABLE_SCORE cfg)%float) eqn:Hlow;
    destruct (Z.ltb_spec (P2P.retries env) (P2P.max_retries env)) as [Hlt|Hge];
    simpl in Hstep; try lia.
  all: try (destruct Hstep as (out & Hdec & _ & Htg & Hr & _ & Hcid & Hd & Hsco & _);
            rewrite Hdec, p2p_dumps; exists 0%nat, out;
            rewrite Nat.add_0_r, Z.add_0_r;
            repeat split; eauto; lia).
  destruct Hstep as (out & Hdec & _ & _ & Hr & Hm & Hcid & _ & Hsources & _).
  rewrite Hdec, p2p_dumps.
  destruct (Hdrafts k) as [dr Hdr]. rewrite Hdr.
  destruct (p2p_writer_keeps_counters out dr (ew k)) as (env' & Hw & Hsc' & Hr' & Hm' & Hcid').
  { unfold get_or, dict_get. rewrite Hsources. simpl.
    unfold get_or in Hsrc |- *. rewrite py_or_idem. exact Hsrc. }
  rewrite Hw.
  destruct (IH env' (S k) fuel Hsc' ltac:(lia) ltac:(lia))
    as (hops & fin & Hrun & Hle & Hfr & Hfm & Hfc & Hft & Hfd & Hfs).
  exists (S hops), fin. rewrite Hrun.
  replace (S k + hops)%nat with (k + S hops)%nat by lia.
  repeat split; eauto; try lia; try congruence.
Qed.

End LoopFacts.

(** In the P2P variant the scores 4, 5, 9 with [max_retries = 2] loop
    twice and finalize with score 9 and [retries = 2]; the scores 2, 3, 4
    finalize at the third visit with the score 4 below the threshold. *)
Example p2p_quality_gate_examples :
  (exists doc payload,
     Branch.p2p (rt := Ascii7.runtime) p2p_cfg (scores_p2p [4; 5; 9]%float)
       (fun _ => Some "Answer: y") (fun _ => count_entropy) (fun _ => count_entropy)
       3 0 sample_p2p = Branch.Finalized 2 (Py.JDict doc) /\
     doc !! "retries" = Some (Py.JInt 2) /\
     doc !! "payload" = Some (Py.JDict payload) /\
     payload !! "score" = Some (Py.JFloat 9)) /\
  (exists doc payload,
     Branch.p2p (rt := Ascii7.runtime) p2p_cfg (scores_p2p [2; 3; 4]%float)
       (fun _ => Some "Answer: y") (fun _ => count_entropy) (fun _ => count_entropy)
       3 0 sample_p2p = Branch.Finalized 2 (Py.JDict doc) /\
     doc !! "retries" = Some (Py.JInt 2) /\
     doc !! "payload" = Some (Py.JDict payload) /\
     payload !! "score" = Some (Py.JFloat 4) /\
     payload !! "draft" = Some (Py.JStr "Answer: y")).
Proof.
  split; eexists; eexists; (split; [vm_compute; reflexivity|]); repeat split; reflexivity.
Qed.

(** C4, where the hierarchical variant departs from it. A branch whose
    draft scores below the threshold while retries remain does not reach
    FINAL: the revision request is lost to the exception that
    [json.dumps] raises on the datetime of [created_at], no Writer
    receives it, and the client gets no terminal result for the branch.
    (The P2P branch does reach FINAL within its budget,
    [p2p_branch_finalizes].) *)
Theorem hier_branch_is_lost_at_first_revision (rt : Py.Runtime) (cfg : Hier.config)
    (replies : nat -> nat -> Hier.llm_reply) (drafts : nat -> option string)
    (clock : nat -> string) (ev ew : nat -> Rand.entropy) (fuel k : nat)
    (env : Hier.A2AEnvelope) (score : float) (fb : string) :
  is_Some (Py.len (Py.get_or (Hier.payload env) "draft" (Py.JStr ""))) ->
  is_Some (Py.len (Py.get_or (Hier.payload env) "sources" (Py.JList []))) ->
  Hier.score_with_llm cfg (Py.get_or (Hier.payload env) "draft" (Py.JStr ""))
    (Py.get_or (Hier.payload env) "sources" (Py.JList []))
    (Py.get_or (Hier.payload env) "research_notes" (Py.JStr "")) (replies k) = Some (score, fb) ->
  (score <? Hier.MIN_ACCEPTABLE_SCORE cfg)%float = true ->
  (Hier.retries env < Hier.max_retries env)%Z ->
  Branch.hier cfg replies drafts clock ev ew (S fuel) k env = Branch.Lost k.
Proof.
  intros [n Hn] [j Hj] Hscore Hlow Hbudget.
  cbn [Branch.hier]. unfold Hier.decide. rewrite Hn, Hj, Hscore, Hlow.
  destruct (Z.ltb_spec (Hier.retries env) (Hier.max_retries env)); [|lia]. simpl.
  destruct (Hier.child _ _ _ _ _ _ _ _ _ _) as [[out e']|]; reflexivity.
Qed.

(** The scores 2, 3, 4 with [max_retries = 2]: lost at the first visit. *)
Lemma hier_branch_is_lost_at_first_revision_witness :
  Branch.hier (rt := Ascii7.runtime) hier_cfg (scores_hier [2; 3; 4]%float)
    (fun _ => Some "Answer: y") (fun _ => "2025-01-01T00:00:01Z")
    (fun _ => count_entropy) (fun _ => count_entropy) 3 0 sample_hier
  = Branch.Lost 0.
Proof.
  apply (hier_branch_is_lost_at_first_revision Ascii7.runtime hier_cfg _ _ _ _ _ 2 0
           sample_hier 2%float "tighten the lead").
  - vm_compute. eauto.
  - vm_compute. eauto.
  - vm_compute. reflexivity.
  - reflexivity.
  - simpl. lia.
Defined.

(* ===================================================================== *)
(** * Fan-out                                                             *)
(* ===================================================================== *)

Section FanOutFacts.
Import Py Rand Trace Planner.



End FanOutFacts.




(** A payload whose [max_retries] entry [int()] rejects (here [null]) is
    dropped as malformed: the chief converts the entry while it builds the
    first child, after its delegate has returned two topics, and publishes
    nothing. *)
Example chief_drops_all_children_on_bad_max_retries :
  two_topics (Py.JStr "Edge AI") 5 = Some ["Topic A"; "Topic B"] /\
  Planner.Chief._handle (rt := Ascii7.runtime)
    (chief_request (<["area" := Py.JStr "Edge AI"]> (<["max_retries" := Py.JNull]> ∅)))
    two_topics (fun _ => "2025-01-01T00:00:01Z") count_entropy = [].
Proof. split; vm_compute; reflexivity. Qed.

(* ===================================================================== *)
(** * The aggregating client                                              *)
(* ===================================================================== *)

Section ClientFacts.
Import Py Client.

Lemma matches_exact cid (data : gmap string json) :
  matches cid (Some (JDict data)) = true <-> data !! "conversation_id" = Some (JStr cid).
Proof.
  unfold matches, dict_get, is_str.
  destruct (data !! "conversation_id") as [[]|]; simpl; try (split; [discriminate|congruence]).
  destruct (string_dec cid s) as [->|Hne]; split; try reflexivity; try discriminate.
  intros [= ->]. contradiction.
Qed.

Lemma done_cb_ignores cid st msg : matches cid msg = false -> _done_cb cid st msg = st.
Proof.
  unfold matches, _done_cb. destruct msg as [[]|]; try reflexivity.
  intros ->. reflexivity.
Qed.

Lemma done_cb_enqueues cid st data :
  matches cid (Some (JDict data)) = true ->
  _done_cb cid st (Some (JDict data)) =
  {| done_queue := done_queue st ++ [data]; received := received st;
     idle_start := idle_start st; start_ts := start_ts st |}.
Proof. unfold matches, _done_cb. intros ->. reflexivity. Qed.

Lemma run_app cfg expected cid evs1 evs2 st :
  run cfg expected cid st (evs1 ++ evs2) =
  match run cfg expected cid st evs1 with
  | Running st' => run cfg expected cid st' evs2
  | Stopped why st' => Stopped why st'
  end.
Proof.
  revert st. induction evs1 as [|ev evs1 IH]; intros st; simpl; [reflexivity|].
  destruct ev as [msg|t_top t_after]; [apply IH|].
  destruct (iterate cfg expected st t_top t_after) as [st'|[why st']]; [apply IH|reflexivity].
Qed.

End ClientFacts.

(** C8. A message on the completion subject that does not carry exactly
    the conversation id the client published (or cannot be decoded) leaves
    the client as it was: the callback enqueues nothing, so the count of
    collected results and the idle reference are what they would be
    without the message, at the time of the message and for the rest of
    the run. *)
Theorem foreign_message_is_ignored (cfg : Client.Config) (expected : option Z)
    (cid : string) (msg : option Py.json) :
  Client.matches cid msg = false ->
  (forall st, Client._done_cb cid st msg = st) /\
  (forall st pre post,
     Client.run cfg expected cid st (pre ++ Client.Deliver msg :: post)
     = Client.run cfg expected cid st (pre ++ post)) /\
  (forall data, msg = Some (Py.JDict data) ->
     data !! "conversation_id" <> Some (Py.JStr cid)).
Proof.
  intros Hforeign. split; [|split].
  - intros st. apply done_cb_ignores, Hforeign.
  - intros st pre post. rewrite !run_app.
    destruct (Client.run cfg expected cid st pre) as [st'|why st']; [|reflexivity].
    simpl. rewrite done_cb_ignores by exact Hforeign. reflexivity.
  - intros data -> Hsame. apply matches_exact in Hsame. congruence.
Qed.

(** A result of conversation [c-2] delivered to the client of [c-1]. *)
Lemma foreign_message_is_ignored_witness :
  Client.run (client_cfg 2 10) None "c-1" (Client.initial 0)
    [Client.Deliver (Some (Py.JDict (final_result "c-2" 9))); Client.Pass 0 1%float]
  = Client.Running (Client.initial 0).
Proof.
  pose proof (proj1 (proj2 (foreign_message_is_ignored (client_cfg 2 10) None "c-1"
                              (Some (Py.JDict (final_result "c-2" 9))) eq_refl))
                (Client.initial 0) [] [Client.Pass 0 1%float]) as Hskip.
  simpl app in Hskip. rewrite Hskip. reflexivity.
Defined.


(** Three results at 0.5 s, 1.0 s and 1.5 s, then silence, with an idle
    timeout of 2 s and an overall timeout of 10 s: the loop goes on after
    the wait that ends at 2.501 s and stops on the idle check of the wait
    that ends at 3.502 s, with the three results. *)
Example three_results_then_idle :
  Client.run (client_cfg 2 10) None "c-1" (Client.initial 0)
    [Client.Deliver (Some (Py.JDict (final_result "c-1" 8))); Client.Pass 0 0.5%float;
     Client.Deliver (Some (Py.JDict (final_result "c-1" 9))); Client.Pass 0.5 1%float;
     Client.Deliver (Some (Py.JDict (final_result "c-1" 7))); Client.Pass 1 1.5%float;
     Client.Pass 1.5 2.501%float; Client.Pass 2.501 3.502%float]
  = Client.Stopped Client.IdleTimeout
      {| Client.done_queue := []; Client.received := 3;
         Client.idle_start := 1.5; Client.start_ts := 0 |}.
Proof. vm_compute. reflexivity. Qed.


(** C10, as the code has it. When the collection loop ends, by the overall
    timeout, the idle timeout or the expected count, the client driver
    exits with status 0, whatever the number of results it collected, zero
    included; that number is only logged. *)
Theorem exit_status_ignores_result_count (cfg : Client.Config) (expected : option Z)
    (cid : string) (st : Client.state) (evs : list Client.event)
    (why : Client.stop) (st' : Client.state) :
  Client.run cfg expected cid st evs = Client.Stopped why st' ->
  why <> Client.Raised ->
  Client.exit_status (Client.run cfg expected cid st evs) = Some 0%Z.
Proof.
  intros -> Hwhy. destruct why; try reflexivity. contradiction.
Qed.

(** One result, then the idle timeout: status 0. *)
Lemma exit_status_ignores_result_count_witness :
  Client.exit_status
    (Client.run (client_cfg 2 10) None "c-1" (Client.initial 0)
       [Client.Deliver (Some (Py.JDict (final_result "c-1" 8))); Client.Pass 0 0.5%float;
        Client.Pass 0.5 1.5%float; Client.Pass 1.5 2.6%float])
  = Some 0%Z.
Proof.
  apply (exit_status_ignores_result_count (client_cfg 2 10) None "c-1" (Client.initial 0) _
           Client.IdleTimeout
           {| Client.done_queue := []; Client.received := 1;
              Client.idle_start := 0.5; Client.start_ts := 0 |}).
  - vm_compute. reflexivity.
  - discriminate.
Defined.

(** Against C10 as stated: no message at all, the idle timeout of 2 s
    ends the loop with zero results, and the status is 0. *)
Lemma timeout_without_results_exits_zero :
  Client.run (client_cfg 2 10) None "c-1" (Client.initial 0)
    [Client.Pass 0 1%float; Client.Pass 1 2%float; Client.Pass 2 3.1%float]
  = Client.Stopped Client.IdleTimeout (Client.initial 0) /\
  Client.collected (Client.Stopped Client.IdleTimeout (Client.initial 0)) = 0%Z /\
  Client.exit_status
    (Client.run (client_cfg 2 10) None "c-1" (Client.initial 0)
       [Client.Pass 0 1%float; Client.Pass 1 2%float; Client.Pass 2 3.1%float])
  = Some 0%Z.
Proof. repeat split; vm_compute; reflexivity. Qed.

(* ===================================================================== *)
(** * Further properties: trace contexts                                  *)
(* ===================================================================== *)

Section MoreTraceFacts.
Import Py Rand Trace.

Lemma child_well_formed parent e : well_formed (fst (child_traceparent parent e)).
Proof.
  unfold well_formed.
  destruct (split "-" parent) as [|a [|b [|c [|d [|x l]]]]] eqn:Hsplit;
    try (unfold child_traceparent; rewrite Hsplit; rewrite new_traceparent_split; reflexivity).
  rewrite (child_traceparent_split parent a b c d e Hsplit). reflexivity.
Qed.

(** X1. Along any path of handlers the trace id of a well-formed context
    stays what it was, and the context stays well formed. *)
Theorem trace_id_stable_along_path (tp : string) (es : list entropy) :
  well_formed tp ->
  exists t, trace_id_of tp = Some t /\
            trace_id_of (Hops.derive tp es) = Some t /\
            well_formed (Hops.derive tp es).
Proof.
  revert tp. induction es as [|e rest IH]; intros tp Hwf; simpl.
  - destruct (well_formed_fields _ Hwf) as (v & t & s & f & Hsplit).
    exists t. unfold trace_id_of. rewrite Hsplit. auto.
  - destruct (trace_id_kept tp e Hwf) as (t & Hparent & Hchild).
    destruct (IH _ (child_well_formed tp e)) as (t' & Ht' & Hend & Hwf').
    exists t. rewrite Hchild in Ht'. injection Ht' as <-. auto.
Qed.

Lemma trace_id_stable_along_path_witness :
  trace_id_of (Hops.derive "00-aa-bb-01" [count_entropy; const_entropy 7; count_entropy])
  = Some "aa".
Proof.
  destruct (trace_id_stable_along_path "00-aa-bb-01"
              [count_entropy; const_entropy 7; count_entropy] eq_refl)
    as (t & Hparent & Hend & _).
  injection Hparent as <-. exact Hend.
Defined.

(** X2. The child of a context of the W3C shape has that shape again; its
    version field is 00 whatever the parent's was. *)
Theorem child_of_valid_traceparent_is_valid (parent : string) (e : entropy) :
  valid_traceparent parent = true ->
  valid_traceparent (fst (child_traceparent parent e)) = true /\
  exists t s f, split "-" (fst (child_traceparent parent e)) = ["00"; t; s; f].
Proof.
  unfold valid_traceparent at 1.
  destruct (split "-" parent) as [|v [|t [|s [|f [|x l]]]]] eqn:Hsplit; try discriminate.
  intros H. repeat (apply andb_prop in H as [H ?]).
  pose proof (child_traceparent_split parent v t s f e Hsplit) as Hchild.
  split; [|eauto].
  unfold valid_traceparent. rewrite Hchild.
  rewrite _hex_length, _hex_all_hex.
  repeat (apply andb_true_intro; split); auto.
Qed.

Lemma child_of_valid_traceparent_is_valid_witness :
  valid_traceparent
    (fst (child_traceparent "00-0123456789abcdef0123456789abcdef-0123456789abcdef-01"
            count_entropy)) = true.
Proof.
  apply (child_of_valid_traceparent_is_valid
           "00-0123456789abcdef0123456789abcdef-0123456789abcdef-01" count_entropy).
  reflexivity.
Defined.

Lemma all_hex_py_len s : all_hex s = true -> py_len s = Z.of_nat (String.length s).
Proof.
  induction s as [|c r IH]; simpl; [reflexivity|].
  intros [Hc Hr]%andb_prop. rewrite (IH Hr).
  assert (Hnc : is_continuation c = false).
  { unfold is_hex in Hc. simpl in Hc.
    repeat match type of Hc with
           | context [ascii_dec c ?d] => destruct (ascii_dec c d) as [->|_]; [reflexivity|]
           end.
    discriminate Hc. }
  rewrite Hnc. lia.
Qed.

Lemma context_new_traceparent_eq e : Context.new_traceparent e = new_traceparent e.
Proof. reflexivity. Qed.

Lemma context_child_cases parent e :
  Context.child_traceparent parent e =
  match split "-" parent with
  | [v; t; _; f] =>
      if (if string_dec v "00" then true else false)
         && (py_len t =? 32)%Z && (py_len f =? 2)%Z
      then child_traceparent parent e
      else new_traceparent e
  | _ => new_traceparent e
  end.
Proof.
  unfold Context.child_traceparent, child_traceparent.
  destruct (split "-" parent) as [|v [|t [|s [|f [|x l]]]]]; reflexivity.
Qed.

(** X3. The checked derivation of [common_context.py] returns, for every
    input, a context of four fields: the version 00, a trace id of 32
    characters, a span id of 16 and flags of 2; a parent that it accepts
    keeps its trace id and its flags. *)
Theorem checked_child_has_fixed_shape (parent : string) (e : entropy) :
  (exists t s f,
     split "-" (fst (Context.child_traceparent parent e)) = ["00"; t; s; f] /\
     py_len t = 32%Z /\ py_len s = 16%Z /\ py_len f = 2%Z) /\
  (forall t s f,
     split "-" parent = ["00"; t; s; f] -> py_len t = 32%Z -> py_len f = 2%Z ->
     split "-" (fst (Context.child_traceparent parent e)) = ["00"; t; fst (_hex 8 e); f]).
Proof.
  assert (Hroot : exists t s f,
            split "-" (fst (new_traceparent e)) = ["00"; t; s; f] /\
            py_len t = 32%Z /\ py_len s = 16%Z /\ py_len f = 2%Z).
  { rewrite new_traceparent_split. do 3 eexists. split; [reflexivity|].
    rewrite !all_hex_py_len by apply _hex_all_hex. rewrite !_hex_length.
    repeat split; reflexivity. }
  rewrite context_child_cases. split.
  - destruct (split "-" parent) as [|v [|t [|s [|f [|x l]]]]] eqn:Hsplit; try exact Hroot.
    destruct (string_dec v "00") as [->|_]; [|exact Hroot].
    destruct (Z.eqb_spec (py_len t) 32) as [Ht|_]; [|exact Hroot].
    destruct (Z.eqb_spec (py_len f) 2) as [Hf|_]; [|exact Hroot].
    cbn [andb]. rewrite (child_traceparent_split parent "00" t s f e Hsplit).
    exists t, (fst (_hex 8 e)), f. split; [reflexivity|].
    rewrite (all_hex_py_len _ (_hex_all_hex 8 e)), _hex_length. auto.
  - intros t s f Hsplit Ht Hf. rewrite Hsplit.
    destruct (string_dec "00" "00") as [_|Hne]; [|contradiction].
    rewrite Ht, Hf. cbn [andb Z.eqb Pos.eqb].
    apply (child_traceparent_split parent "00" t s f e Hsplit).
Qed.

End MoreTraceFacts.

(* ===================================================================== *)
(** * Further properties: envelopes                                       *)
(* ===================================================================== *)

Section MoreEnvelopeFacts.
Import Py Rand Trace.

(** X4. A child derived without any override keeps the parent's time to
    live, retry counter and retry budget (and, in the hierarchical
    variant, its sender and target), but not its payload, which is empty
    unless one is given; from a validated hierarchical parent such a
    derivation always succeeds and gives a valid envelope. An empty string
    given as sender or target counts as no override. *)
Theorem child_without_overrides_inherits :
  (forall (self : P2P.A2AEnvelope) sender target payload e,
     let c := fst (P2P.child self sender target payload None e) in
     P2P.ttl_ms c = P2P.ttl_ms self /\ P2P.retries c = P2P.retries self /\
     P2P.max_retries c = P2P.max_retries self /\ P2P.payload c = payload) /\
  (forall (self : Hier.A2AEnvelope) keep_span now e,
     Hier.valid self ->
     exists c e',
       Hier.child self None None None None None None keep_span now e = Some (c, e') /\
       Hier.valid c /\
       Hier.ttl_ms c = Hier.ttl_ms self /\ Hier.retries c = Hier.retries self /\
       Hier.max_retries c = Hier.max_retries self /\
       Hier.sender c = Hier.sender self /\ Hier.target c = Hier.target self /\
       Hier.payload c = ∅ /\
       (keep_span = true -> Hier.traceparent c = Hier.traceparent self)) /\
  (forall (self : Hier.A2AEnvelope) payload keep_span now e c e',
     Hier.child self (Some "") (Some "") payload None None None keep_span now e = Some (c, e') ->
     Hier.sender c = Hier.sender self /\ Hier.target c = Hier.target self).
Proof.
  split; [|split].
  - intros self sender target payload e c.
    destruct (p2p_child_fields self sender target payload None e)
      as (_ & _ & _ & _ & _ & Httl & Hr & Hm & Hp). auto.
  - intros self keep_span now e (Httl & Hr & Hm).
    destruct (hier_child_some self None None None None None None keep_span now e Httl Hr Hm)
      as (c & e' & Hchild & _).
    exists c, e'. split; [exact Hchild|].
    destruct (hier_child_fields _ _ _ _ _ _ _ _ _ _ _ _ Hchild)
      as (_ & Htp & _ & Hs & Ht & Httl' & Hr' & Hm' & _ & Hp & Hv & _).
    repeat split; try assumption; try apply Hv.
    intros ->. exact Htp.
  - intros self payload keep_span now e c e' Hchild.
    destruct (hier_child_fields _ _ _ _ _ _ _ _ _ _ _ _ Hchild)
      as (_ & _ & _ & Hs & Ht & _). auto.
Qed.

Lemma child_without_overrides_inherits_witness :
  exists c e',
    Hier.child sample_hier None None None None None None true "now" count_entropy = Some (c, e') /\
    Hier.retries c = 0%Z /\ Hier.max_retries c = 2%Z /\ Hier.payload c = ∅ /\
    Hier.traceparent c = "00-aa-bb-01".
Proof.
  destruct (proj1 (proj2 child_without_overrides_inherits) sample_hier true "now" count_entropy)
    as (c & e' & Hchild & _ & _ & Hr & Hm & _ & _ & Hp & Htp).
  - unfold Hier.valid. simpl. lia.
  - exists c, e'. repeat split; auto.
Defined.

(** X5. [new_root_envelope] of the hierarchical variant returns an
    envelope exactly when [ttl_ms > 0] and [max_retries >= 0]. The root
    has [retries = 0], the given budget and time to live, a trace context
    of the W3C shape, the roles suffixed with [@v1], the conversation id
    it was given (if not empty), and a payload in which every extra entry
    is present, the task and the role being those of the call unless an
    extra entry replaces them. *)
Theorem new_root_envelope_spec (task from_role to_role : string)
    (conversation_id : option string) (max_retries ttl_ms : Z)
    (extra_payload : option (gmap string json)) (now : string) (e : entropy) :
  match Root.new_root_envelope task from_role to_role conversation_id max_retries ttl_ms
          extra_payload now e with
  | Some (env, _) =>
      (0 < ttl_ms)%Z /\ (0 <= max_retries)%Z /\
      Hier.valid env /\
      Hier.retries env = 0%Z /\ Hier.max_retries env = max_retries /\
      Hier.ttl_ms env = ttl_ms /\
      valid_traceparent (Hier.traceparent env) = true /\
      Hier.sender env = from_role +:+ "@v1" /\ Hier.target env = to_role +:+ "@v1" /\
      (forall c, conversation_id = Some c -> c <> "" -> Hier.conversation_id env = c) /\
      (forall k v, default ∅ extra_payload !! k = Some v -> Hier.payload env !! k = Some v) /\
      (default ∅ extra_payload !! "task" = None -> Hier.payload env !! "task" = Some (JStr task)) /\
      (default ∅ extra_payload !! "role" = None ->
       Hier.payload env !! "role" = Some (JStr from_role))
  | None => (ttl_ms <= 0)%Z \/ (max_retries < 0)%Z
  end.
Proof.
  unfold Root.new_root_envelope.
  set (drawn := match conversation_id with
                | Some c => if (String.length c =? 0)%nat then uuid4 e else (c, e)
                | None => uuid4 e
                end).
  assert (Hcid : forall c, conversation_id = Some c -> c <> "" -> fst drawn = c).
  { intros c -> Hne. unfold drawn. destruct c; [contradiction|reflexivity]. }
  destruct drawn as [cid e1]. simpl in Hcid.
  pose proof (new_traceparent_valid e1) as Htp.
  destruct (new_traceparent e1) as [tp e2]. simpl in Htp.
  set (base := <["role" := JStr from_role]> (<["task" := JStr task]> ∅)).
  set (pl := match extra_payload with
             | Some extra => if (size extra =? 0)%nat then base else extra ∪ base
             | None => base
             end).
  assert (Hpl : (forall k v, default ∅ extra_payload !! k = Some v -> pl !! k = Some v) /\
                (default ∅ extra_payload !! "task" = None -> pl !! "task" = Some (JStr task)) /\
                (default ∅ extra_payload !! "role" = None -> pl !! "role" = Some (JStr from_role))).
  { unfold pl. destruct extra_payload as [extra|]; simpl.
    - destruct (Nat.eqb_spec (size extra) 0) as [Hz|_].
      + apply map_size_empty_inv in Hz. subst extra.
        split; [intros k v H; rewrite lookup_empty in H; discriminate|].
        split; intros _; reflexivity.
      + split; [intros k v H; apply lookup_union_Some_l; exact H|].
        split; intros Hnone; rewrite (lookup_union_r _ _ _ Hnone); reflexivity.
    - split; [intros k v H; rewrite lookup_empty in H; discriminate|].
      split; intros _; reflexivity. }
  pose proof (hier_init_spec None (Some cid) (Some tp) (from_role +:+ "@v1") (to_role +:+ "@v1")
                (Some ttl_ms) None (Some max_retries) (Some pl) now e2) as Hinit.
  unfold Hier.init in *. destruct (uuid4 e2) as [mid e3].
  unfold Hier._validate_ttl_ms, Hier._validate_retries in *. simpl in *.
  destruct (Z.leb_spec ttl_ms 0); [left; lia|].
  destruct (Z.ltb_spec max_retries 0); [right; lia|].
  simpl. destruct Hpl as (Hextra & Htask & Hrole).
  repeat split; auto; try lia; try apply Hinit.
Qed.

(** X6. [is_expired]: a validated envelope ([ttl_ms > 0]) is not expired
    at any instant up to [ttl_ms] milliseconds after its creation and is
    expired at every later instant; once expired it stays expired. The
    call raises only when the expiry instant leaves the range of
    [datetime] or [ttl_ms] that of [timedelta]. *)
Theorem is_expired_after_ttl (created_at_us ttl_ms now_us : Z) :
  (0 < ttl_ms)%Z ->
  match Root.is_expired created_at_us ttl_ms now_us with
  | Some expired =>
      (expired = true <-> (created_at_us + 1000 * ttl_ms < now_us)%Z) /\
      ((now_us <= created_at_us)%Z -> expired = false) /\
      (forall later, (now_us <= later)%Z -> expired = true ->
                     Root.is_expired created_at_us ttl_ms later = Some true)
  | None =>
      (Root.TIMEDELTA_MAX_MS < ttl_ms)%Z \/
      (created_at_us + 1000 * ttl_ms < Root.DATETIME_MIN_US)%Z \/
      (Root.DATETIME_MAX_US < created_at_us + 1000 * ttl_ms)%Z
  end.
Proof.
  intros Hpos. unfold Root.is_expired.
  destruct (Z.ltb_spec ttl_ms Root.TIMEDELTA_MIN_MS) as [Hlo|Hlo];
    [unfold Root.TIMEDELTA_MIN_MS in Hlo; lia|].
  destruct (Z.ltb_spec Root.TIMEDELTA_MAX_MS ttl_ms) as [Hhi|Hhi]; simpl; [auto|].
  destruct (Z.ltb_spec (created_at_us + 1000 * ttl_ms) Root.DATETIME_MIN_US); simpl; [auto|].
  destruct (Z.ltb_spec Root.DATETIME_MAX_US (created_at_us + 1000 * ttl_ms)); simpl; [auto|].
  split; [|split].
  - apply Z.ltb_lt.
  - intros Hnow. apply Z.ltb_ge. lia.
  - intros later Hlater Hexp. apply Z.ltb_lt in Hexp.
    destruct (Z.ltb_spec (created_at_us + 1000 * ttl_ms) later); [reflexivity|lia].
Qed.

Lemma is_expired_after_ttl_witness :
  (0 < 15000)%Z /\
  match Root.is_expired 1700000000000000 15000 1700000015000001 with
  | Some expired =>
      (expired = true <-> (1700000000000000 + 1000 * 15000 < 1700000015000001)%Z) /\
      ((1700000015000001 <= 1700000000000000)%Z -> expired = false) /\
      (forall later, (1700000015000001 <= later)%Z -> expired = true ->
                     Root.is_expired 1700000000000000 15000 later = Some true)
  | None =>
      (Root.TIMEDELTA_MAX_MS < 15000)%Z \/
      (1700000000000000 + 1000 * 15000 < Root.DATETIME_MIN_US)%Z \/
      (Root.DATETIME_MAX_US < 1700000000000000 + 1000 * 15000)%Z
  end.
Proof.
  split; [lia|].
  apply (is_expired_after_ttl 1700000000000000 15000 1700000015000001). lia.
Defined.

End MoreEnvelopeFacts.

(* ===================================================================== *)
(** * Further properties: retry counters along the pipeline               *)
(* ===================================================================== *)

Section CounterFacts.
Import Py Rand Trace Planner.

Lemma p2p_decide_counters (rt : Runtime) cfg (env : P2P.A2AEnvelope) reply e d :
  P2P.decide cfg env reply e = Some d ->
  match d with
  | P2P.Revise out =>
      (P2P.retries env < P2P.max_retries env)%Z /\
      P2P.retries out = (P2P.retries env + 1)%Z /\
      (P2P.retries out <= P2P.max_retries out)%Z /\
      P2P.max_retries out = P2P.max_retries env
  | P2P.Finalize out =>
      P2P.retries out = P2P.retries env /\ P2P.max_retries out = P2P.max_retries env
  end.
Proof.
  unfold P2P.decide.
  destruct (len _); [|discriminate]. destruct (len _); [|discriminate].
  destruct (P2P.score_with_llm _ _ _ _ _) as [[score fb]|]; [|discriminate].
  destruct (_ <? _)%float; simpl.
  - destruct (Z.ltb_spec (P2P.retries env) (P2P.max_retries env)) as [Hlt|_];
      intros [= <-];
      match goal with |- context [P2P.child ?s ?a ?b ?p ?r ?e] =>
        destruct (p2p_child_fields s a b p r e) as (_ & _ & _ & _ & _ & _ & Hr & Hm & _)
      end; simpl in Hr; rewrite ?Hr, ?Hm; repeat split; lia.
  - intros [= <-].
    match goal with |- context [P2P.child ?s ?a ?b ?p ?r ?e] =>
      destruct (p2p_child_fields s a b p r e) as (_ & _ & _ & _ & _ & _ & Hr & Hm & _)
    end. simpl in Hr. auto.
Qed.

Lemma hier_decide_counters (rt : Runtime) cfg (env : Hier.A2AEnvelope) replies now e d :
  Hier.decide cfg env replies now e = Some d ->
  match d with
  | Hier.Revise out =>
      (Hier.retries env < Hier.max_retries env)%Z /\
      Hier.retries out = (Hier.retries env + 1)%Z /\
      (Hier.retries out <= Hier.max_retries out)%Z /\
      Hier.max_retries out = Hier.max_retries env
  | Hier.Finalize out =>
      Hier.retries out = Hier.retries env /\ Hier.max_retries out = Hier.max_retries env /\
      Hier.conversation_id out = Hier.conversation_id env
  end.
Proof.
  unfold Hier.decide.
  destruct (len _); [|discriminate]. destruct (len _); [|discriminate].
  destruct (Hier.score_with_llm _ _ _ _ _) as [[score fb]|]; [|discriminate].
  destruct (_ <? _)%float; simpl.
  - destruct (Z.ltb_spec (Hier.retries env) (Hier.max_retries env)) as [Hlt|_];
      match goal with |- context [Hier.child ?s ?a ?b ?p ?r ?m ?t ?k ?n ?e] =>
        destruct (Hier.child s a b p r m t k n e) as [[out e']|] eqn:Hchild; [|discriminate]
      end; intros [= <-];
      destruct (hier_child_fields _ _ _ _ _ _ _ _ _ _ _ _ Hchild)
        as (Hc & _ & _ & _ & _ & _ & Hr & Hm & _);
      rewrite ?Hr, ?Hm; repeat split; try lia; assumption.
  - match goal with |- context [Hier.child ?s ?a ?b ?p ?r ?m ?t ?k ?n ?e] =>
      destruct (Hier.child s a b p r m t k n e) as [[out e']|] eqn:Hchild; [|discriminate]
    end. intros [= <-].
    destruct (hier_child_fields _ _ _ _ _ _ _ _ _ _ _ _ Hchild)
      as (Hc & _ & _ & _ & _ & _ & Hr & Hm & _). auto.
Qed.

(** X7. In both variants the Verifier asks for a revision only while
    [retries < max_retries]; the request carries [retries + 1], so its
    counter never exceeds the budget, and the budget itself is carried
    unchanged by either branch. A final result keeps the counter. *)
Theorem verifier_stays_within_budget :
  (forall (rt : Runtime) cfg (env : P2P.A2AEnvelope) reply e d,
     P2P.decide cfg env reply e = Some d ->
     match d with
     | P2P.Revise out =>
         (P2P.retries env < P2P.max_retries env)%Z /\
         P2P.retries out = (P2P.retries env + 1)%Z /\
         (P2P.retries out <= P2P.max_retries out)%Z /\
         P2P.max_retries out = P2P.max_retries env
     | P2P.Finalize out =>
         P2P.retries out = P2P.retries env /\ P2P.max_retries out = P2P.max_retries env
     end) /\
  (forall (rt : Runtime) cfg (env : Hier.A2AEnvelope) replies now e d,
     Hier.decide cfg env replies now e = Some d ->
     match d with
     | Hier.Revise out =>
         (Hier.retries env < Hier.max_retries env)%Z /\
         Hier.retries out = (Hier.retries env + 1)%Z /\
         (Hier.retries out <= Hier.max_retries out)%Z /\
         Hier.max_retries out = Hier.max_retries env
     | Hier.Finalize out =>
         Hier.retries out = Hier.retries env /\ Hier.max_retries out = Hier.max_retries env
     end).
Proof.
  split.
  - intros rt cfg env reply e d H. exact (p2p_decide_counters rt cfg env reply e d H).
  - intros rt cfg env replies now e d H.
    pose proof (hier_decide_counters rt cfg env replies now e d H) as Hd.
    destruct d; [exact Hd|]. destruct Hd as (Hr & Hm & _). auto.
Qed.

Lemma fan_out_keeps_counters (env : Hier.A2AEnvelope) sender target mk_payload items :
  forall clock e,
    Forall (keeps_counters env) (fan_out env sender target mk_payload items clock e).
Proof.
  induction items as [|t rest IH]; intros clock e; cbn [fan_out]; [constructor|].
  destruct (mk_payload t); [|constructor].
  destruct (Hier.child _ _ _ _ _ _ _ _ _ _) as [[out e']|] eqn:Hchild; [|constructor].
  constructor; [|apply IH].
  destruct (hier_child_fields _ _ _ _ _ _ _ _ _ _ _ _ Hchild)
    as (Hc & _ & _ & _ & _ & Ht & Hr & Hm & _).
  repeat split; assumption.
Qed.

Lemma chief_keeps_counters (rt : Runtime) env propose clock e :
  Forall (keeps_counters env) (Chief.children env propose clock e).
Proof.
  unfold Chief.children.
  destruct (py_int _); [|constructor]. destruct (py_int _); [|constructor].
  destruct (propose _ _); [|constructor]. apply fan_out_keeps_counters.
Qed.

Lemma section_keeps_counters (rt : Runtime) env plan clock e :
  Forall (keeps_counters env) (SectionEditor.children env plan clock e).
Proof.
  unfold SectionEditor.children.
  destruct (py_int _); [|constructor]. destruct (py_int _); [|constructor].
  destruct (plan _ _); [|constructor]. apply fan_out_keeps_counters.
Qed.

Lemma hier_writer_keeps_counters (rt : Runtime) env draft now e out :
  Hier.Writer._handle env draft now e = Some out ->
  keeps_counters env out /\
  Hier.payload out !! "retries" = Some (JInt (Hier.retries env + 1)) /\
  exists m, py_int (dict_get (Hier.payload env) "max_retries" (JInt 2)) = Some m /\
            Hier.payload out !! "max_retries" = Some (JInt m).
Proof.
  unfold Hier.Writer._handle.
  destruct (py_int _) as [m|]; [|discriminate]. destruct draft as [d|]; [|discriminate].
  destruct (Hier.child _ _ _ _ _ _ _ _ _ _) as [[o e']|] eqn:Hchild; [|discriminate].
  intros [= <-].
  destruct (hier_child_fields _ _ _ _ _ _ _ _ _ _ _ _ Hchild)
    as (Hc & _ & _ & _ & _ & Ht & Hr & Hm & _ & Hp & _).
  split; [repeat split; assumption|].
  rewrite Hp. split; [reflexivity|]. exists m. split; reflexivity.
Qed.

(** X8. The [max_retries] entry of a payload never reaches the envelope:
    every child the chief editor, the section editor and the Writer
    derive carries the retry counter and the retry budget of the envelope
    it was derived from, whatever the payload says. The hierarchical
    Writer writes [retries + 1] and the converted budget into the payload
    only. *)
Theorem payload_budget_never_reaches_envelope :
  (forall (rt : Runtime) env propose clock e,
     Forall (keeps_counters env) (Chief.children env propose clock e)) /\
  (forall (rt : Runtime) env plan clock e,
     Forall (keeps_counters env) (SectionEditor.children env plan clock e)) /\
  (forall (rt : Runtime) env draft now e out,
     Hier.Writer._handle env draft now e = Some out ->
     keeps_counters env out /\
     Hier.payload out !! "retries" = Some (JInt (Hier.retries env + 1)) /\
     exists m, py_int (dict_get (Hier.payload env) "max_retries" (JInt 2)) = Some m /\
               Hier.payload out !! "max_retries" = Some (JInt m)) /\
  (forall env draft e out,
     P2P.Writer._message_handler env draft e = Some out ->
     P2P.retries out = P2P.retries env /\ P2P.max_retries out = P2P.max_retries env).
Proof.
  split; [exact chief_keeps_counters|].
  split; [exact section_keeps_counters|].
  split; [exact hier_writer_keeps_counters|].
  intros env draft e out. unfold P2P.Writer._message_handler.
  destruct draft; [|discriminate]. intros [= <-].
  match goal with |- context [P2P.child ?s ?a ?b ?p ?r ?e] =>
    destruct (p2p_child_fields s a b p r e) as (_ & _ & _ & _ & _ & _ & Hr & Hm & _)
  end. simpl in Hr. auto.
Qed.

(** X9. A request whose envelope has used up its budget ([max_retries <=
    retries], as with the budget 0 that the aggregating client writes into
    its seed) is never revised, whatever budget its payload names: each
    draft that comes down from it through the chief editor, the section
    editor and the Writer is answered by the Verifier with a final result,
    if it is answered at all. *)
Theorem exhausted_budget_is_never_revised (rt : Runtime) (cfg : Hier.config)
    (env c1 c2 c3 : Hier.A2AEnvelope) propose plan draft replies
    (clock1 clock2 : nat -> string) (now3 now4 : string) (e1 e2 e3 e4 : entropy) d :
  (Hier.max_retries env <= Hier.retries env)%Z ->
  In c1 (Chief.children env propose clock1 e1) ->
  In c2 (SectionEditor.children c1 plan clock2 e2) ->
  Hier.Writer._handle c2 draft now3 e3 = Some c3 ->
  Hier.decide cfg c3 replies now4 e4 = Some d ->
  exists out, d = Hier.Finalize out /\
              Hier.retries out = Hier.retries env /\
              Hier.conversation_id out = Hier.conversation_id env.
Proof.
  intros Hbudget Hin1 Hin2 Hw Hd.
  pose proof (proj1 (List.Forall_forall _ _) (chief_keeps_counters rt env propose clock1 e1) _ Hin1)
    as (Hr1 & Hm1 & _ & Hc1).
  pose proof (proj1 (List.Forall_forall _ _) (section_keeps_counters rt c1 plan clock2 e2) _ Hin2)
    as (Hr2 & Hm2 & _ & Hc2).
  destruct (hier_writer_keeps_counters rt c2 draft now3 e3 c3 Hw) as ((Hr3 & Hm3 & _ & Hc3) & _).
  pose proof (hier_decide_counters rt cfg c3 replies now4 e4 d Hd) as Hv.
  destruct d as [out|out].
  - exfalso. lia.
  - exists out. split; [reflexivity|].
    destruct Hv as (Hr4 & _ & Hc4). split; congruence.
Qed.

Lemma exhausted_budget_is_never_revised_witness :
  exists out,
    Hier.decide (rt := Ascii7.runtime) hier_cfg budget0_draft (scores_hier [3%float] 0) "t4"
      count_entropy = Some (Hier.Finalize out) /\
    Hier.retries out = 0%Z /\ Hier.payload budget0_draft !! "max_retries" = Some (JInt 3).
Proof.
  destruct (Hier.decide (rt := Ascii7.runtime) hier_cfg budget0_draft (scores_hier [3%float] 0)
              "t4" count_entropy) as [d|] eqn:Hd; [|vm_compute in Hd; discriminate].
  destruct (exhausted_budget_is_never_revised Ascii7.runtime hier_cfg
              budget0_chief budget0_topic budget0_section budget0_draft
              two_topics two_topics (Some "Key point") (scores_hier [3%float] 0)
              (fun _ => "t1") (fun _ => "t2") "t3" "t4"
              count_entropy count_entropy count_entropy count_entropy d)
    as (out & -> & Hr & _).
  - simpl. lia.
  - vm_compute. left. reflexivity.
  - vm_compute. left. reflexivity.
  - vm_compute. reflexivity.
  - exact Hd.
  - exists out. split; [reflexivity|]. split; [exact Hr|]. vm_compute. reflexivity.
Defined.

End CounterFacts.

(* ===================================================================== *)
(** * Further properties: heuristic scores and feedback length            *)
(* ===================================================================== *)

Section MoreScoreFacts.
Import Py Rand Trace.
Context {rt : Runtime}.

Lemma py_len_nonneg s : (0 <= py_len s)%Z.
Proof. induction s as [|c r IH]; simpl; [lia|]. destruct (is_continuation c); lia. Qed.

Lemma py_len_prefix_chars n s : (py_len (prefix_chars n s) <= Z.of_nat n)%Z.
Proof.
  revert n. induction s as [|c r IH]; intros n; simpl; [lia|].
  destruct (is_continuation c) eqn:Hc.
  - simpl. rewrite Hc. apply IH.
  - destruct n as [|n']; simpl; [lia|]. rewrite Hc. specialize (IH n'). lia.
Qed.

Lemma py_len_append a b : py_len (a +:+ b) = (py_len a + py_len b)%Z.
Proof. induction a as [|c r IH]; simpl; [reflexivity|]. rewrite IH. lia. Qed.

Lemma hier_slice_to_bound n s : (0 <= n)%Z -> (py_len (Hier.slice_to n s) <= n)%Z.
Proof.
  intros Hn. unfold Hier.slice_to. destruct (Z.leb_spec 0 n); [|lia].
  pose proof (py_len_prefix_chars (Z.to_nat n) s). lia.
Qed.

(** X10. The heuristic of the P2P Reviewer reaches the default threshold
    7 exactly for a draft that has the heading "Key points:", the heading
    "Sources:", one of the four style words and more than 300 characters;
    the heuristic of the hierarchical Verifier never reaches it: its
    scores lie between 5.5 and 6.7. *)
Theorem heuristic_reaches_seven_only_with_all_markers :
  (forall t s fb,
     P2P.heuristic_score (JStr t) = Some (s, fb) ->
     ((s <? 7)%float = false <->
      contains "Key points:" t && contains "Sources:" t &&
      existsb (fun k => contains k (lower t)) ["concise"; "clear"; "engineer"; "policy"] &&
      (300 <? py_len t)%Z = true)) /\
  (forall cfg text s fb,
     Hier.heuristic_score cfg text = Some (s, fb) ->
     (s <? 7)%float = true /\ (5.5 <=? s)%float = true /\ (s <=? 6.7)%float = true).
Proof.
  split.
  - intros t s fb. unfold P2P.heuristic_score, str_in, len.
    cbv beta iota zeta. intros [= <- _].
    cbn [existsb].
    destruct (contains "Key points:" t); destruct (contains "Sources:" t);
      destruct (contains "concise" (lower t) || _); destruct (300 <? py_len t)%Z;
      vm_compute; split; congruence.
  - intros cfg text s fb. unfold Hier.heuristic_score.
    destruct (str_in "Key point" text) as [b1|]; [|discriminate].
    destruct (str_in "•" text) as [b2|]; [|discriminate].
    destruct (str_in "Takeaway" text) as [b3|]; [|discriminate].
    destruct (len text) as [n|]; [|discriminate].
    destruct (str_in "Sources:" text) as [b5|]; [|discriminate].
    cbv beta iota zeta. intros [= <- _].
    destruct b1, b2, b3, (300 <? n)%Z; vm_compute; auto.
Qed.

(** X11. Without a parsable reply of the model, the hierarchical Verifier
    under the default threshold 7 asks for a revision of every draft
    while the budget lasts: the heuristic it falls back to cannot accept. *)
Theorem heuristic_fallback_always_revises (cfg : Hier.config) (env : Hier.A2AEnvelope)
    (replies : nat -> Hier.llm_reply) (now : string) (e : entropy) parsed t :
  Hier.MIN_ACCEPTABLE_SCORE cfg = 7%float ->
  Hier.valid env ->
  (Hier.retries env < Hier.max_retries env)%Z ->
  get_or (Hier.payload env) "draft" (JStr "") = JStr t ->
  is_Some (len (get_or (Hier.payload env) "sources" (JList []))) ->
  sources_join_ok (get_or (Hier.payload env) "sources" (JList [])) = true ->
  replies O = Hier.Content parsed -> Hier.parse_reply parsed = None ->
  exists out, Hier.decide cfg env replies now e = Some (Hier.Revise out) /\
              Hier.retries out = (Hier.retries env + 1)%Z.
Proof.
  intros Hmin Hvalid Hlt Hdraft Hlen Hjoin Hreply Hparse.
  destruct (Hier.heuristic_score cfg (JStr t)) as [[s fb]|] eqn:Hh;
    [|unfold Hier.heuristic_score in Hh; simpl in Hh; discriminate].
  assert (Hs : (s <? 7)%float = true).
  { revert Hh. unfold Hier.heuristic_score, str_in, len.
    cbv beta iota zeta. intros [= <- _].
    destruct (_ || _); destruct (contains "Takeaway" t); destruct (300 <? py_len t)%Z;
      vm_compute; reflexivity. }
  assert (Hscore : Hier.score_with_llm cfg (get_or (Hier.payload env) "draft" (JStr ""))
                     (get_or (Hier.payload env) "sources" (JList []))
                     (get_or (Hier.payload env) "research_notes" (JStr "")) replies
                   = Some (s, fb)).
  { unfold Hier.score_with_llm. cbn [Hier.retrying]. unfold Hier.score_once at 1.
    rewrite Hjoin, Hreply, Hparse, Hdraft, Hh. reflexivity. }
  pose proof (hier_verifier_transition cfg env replies now e s fb Hvalid) as Ht.
  cbv zeta in Ht. rewrite Hdraft in Ht.
  specialize (Ht ltac:(simpl; eauto) Hlen).
  rewrite Hdraft in Hscore. specialize (Ht Hscore).
  rewrite Hmin, Hs in Ht. apply Z.ltb_lt in Hlt. rewrite Hlt in Ht. simpl in Ht.
  destruct Ht as (out & Hd & Hr & _). exists out. split; assumption.
Qed.

(** X12. The feedback the hierarchical Verifier returns never has more
    than [MAX_FEEDBACK_CHARS] characters (for a bound that is not
    negative), whether it comes from the model or from the heuristic; the
    P2P Reviewer keeps the feedback of the model within the bound once the
    bound leaves room for the three dots it appends. *)
Theorem feedback_is_bounded :
  (forall cfg draft sources notes replies s fb,
     (0 <= Hier.MAX_FEEDBACK_CHARS cfg)%Z ->
     Hier.score_with_llm cfg draft sources notes replies = Some (s, fb) ->
     (py_len fb <= Hier.MAX_FEEDBACK_CHARS cfg)%Z) /\
  (forall cfg sources reply s fb,
     (3 <= P2P.MAX_FEEDBACK_CHARS cfg)%Z ->
     P2P.llm_score cfg sources reply = Some (s, fb) ->
     (py_len fb <= P2P.MAX_FEEDBACK_CHARS cfg)%Z).
Proof.
  split.
  - intros cfg draft sources notes replies s fb Hmax H.
    apply retrying_some in H. destruct H as (j & H). revert H.
    unfold Hier.score_once. destruct (sources_join_ok sources); [|discriminate].
    destruct (replies j) as [| |parsed]; try discriminate.
    destruct (Hier.parse_reply parsed) as [[raw f]|].
    + intros [= _ <-]. apply hier_slice_to_bound. exact Hmax.
    + unfold Hier.heuristic_score.
      destruct (str_in "Key point" draft); [|discriminate].
      destruct (str_in "•" draft); [|discriminate].
      destruct (str_in "Takeaway" draft); [|discriminate].
      destruct (len draft); [|discriminate].
      destruct (str_in "Sources:" draft); [|discriminate].
      intros [= _ <-]. apply hier_slice_to_bound. exact Hmax.
  - intros cfg sources reply s fb Hmax. unfold P2P.llm_score.
    destruct (sources_join_ok sources); [|discriminate].
    destruct reply as [| |[[]|]]; try discriminate.
    destruct (py_float _); [|discriminate].
    cbv zeta. intros [= _ <-].
    match goal with |- context [(P2P.MAX_FEEDBACK_CHARS cfg <? ?l)%Z] =>
      destruct (Z.ltb_spec (P2P.MAX_FEEDBACK_CHARS cfg) l) as [Hlong|Hshort]
    end.
    + rewrite py_len_append.
      pose proof (py_len_prefix_chars (Z.to_nat (Z.max 0 (P2P.MAX_FEEDBACK_CHARS cfg - 3)))
                    (if (String.length (strip (py_str (dict_get d "feedback" (JStr ""))))
                         =? 0)%nat
                     then "Clarify the main point; add 1–2 concrete, testable tips."
                     else strip (py_str (dict_get d "feedback" (JStr ""))))) as Hp.
      change (py_len "...") with 3%Z. lia.
    + exact Hshort.
Qed.

End MoreScoreFacts.

Lemma heuristic_fallback_always_revises_witness :
  exists out,
    Hier.decide (rt := Ascii7.runtime) hier_cfg sample_hier (fun _ => Hier.Content None)
      "now" count_entropy = Some (Hier.Revise out) /\
    Hier.retries out = 1%Z.
Proof.
  apply (heuristic_fallback_always_revises (rt := Ascii7.runtime) hier_cfg sample_hier
           (fun _ => Hier.Content None) "now" count_entropy None "Answer: x").
  - reflexivity.
  - unfold Hier.valid. simpl. lia.
  - simpl. lia.
  - vm_compute. reflexivity.
  - vm_compute. eauto.
  - vm_compute. reflexivity.
  - reflexivity.
  - reflexivity.
Defined.

(* ===================================================================== *)
(** * Further properties: the two clients                                 *)
(* ===================================================================== *)

Section MoreClientFacts.
Import Py Rand Trace.

Lemma p2p_finalize_fields (rt : Runtime) cfg (env : P2P.A2AEnvelope) reply e out :
  P2P.decide cfg env reply e = Some (P2P.Finalize out) ->
  P2P.conversation_id out = P2P.conversation_id env /\
  P2P.payload out !! "draft" = Some (get_or (P2P.payload env) "draft" (JStr "")) /\
  is_Some (P2P.payload out !! "score").
Proof.
  unfold P2P.decide.
  destruct (len _); [|discriminate]. destruct (len _); [|discriminate].
  destruct (P2P.score_with_llm _ _ _ _ _) as [[score fb]|]; [|discriminate].
  destruct (_ && _); [discriminate|]. intros [= <-].
  match goal with |- context [P2P.child ?s ?a ?b ?p ?r ?e] =>
    destruct (p2p_child_fields s a b p r e) as (Hc & _ & _ & _ & _ & _ & _ & _ & Hp)
  end.
  rewrite Hp. split; [exact Hc|]. split; [reflexivity|]. eexists. reflexivity.
Qed.

Lemma hier_finalize_fields (rt : Runtime) cfg (env : Hier.A2AEnvelope) replies now e out :
  Hier.decide cfg env replies now e = Some (Hier.Finalize out) ->
  Hier.conversation_id out = Hier.conversation_id env /\
  Hier.payload out !! "draft" = Some (get_or (Hier.payload env) "draft" (JStr "")) /\
  is_Some (Hier.payload out !! "score").
Proof.
  unfold Hier.decide.
  destruct (len _); [|discriminate]. destruct (len _); [|discriminate].
  destruct (Hier.score_with_llm _ _ _ _ _) as [[score fb]|]; [|discriminate].
  destruct (_ && _);
    match goal with |- context [Hier.child ?s ?a ?b ?p ?r ?m ?t ?k ?n ?e] =>
      destruct (Hier.child s a b p r m t k n e) as [[o e']|] eqn:Hchild; [|discriminate]
    end; [discriminate|]. intros [= <-].
  destruct (hier_child_fields _ _ _ _ _ _ _ _ _ _ _ _ Hchild)
    as (Hc & _ & _ & _ & _ & _ & _ & _ & _ & Hp & _).
  rewrite Hp. split; [exact Hc|]. split; [reflexivity|]. eexists. reflexivity.
Qed.

Lemma is_str_refl s : is_str s (JStr s) = true.
Proof. unfold is_str. destruct (string_dec s s); [reflexivity|contradiction]. Qed.

(** X13. The final result of either Verifier is accepted by the client of
    its variant as the answer to the conversation it belongs to, and to no
    other: the P2P client that waits for that conversation takes the
    payload of the result, with its draft and score; the callback of the
    aggregating client enqueues the result, and the collection loop can
    display it. *)
Theorem final_result_reaches_its_client (rt : Runtime) :
  (forall cfg (env : P2P.A2AEnvelope) reply e out MAX rest,
     (0 < MAX)%Z ->
     P2P.decide cfg env reply e = Some (P2P.Finalize out) ->
     SendTask.wait_for_final MAX (P2P.conversation_id env) 0
       (SendTask.Msg (Some (P2P.document out)) :: rest) = SendTask.Matched (P2P.payload out) /\
     is_Some (P2P.payload out !! "draft") /\ is_Some (P2P.payload out !! "score") /\
     forall cid, cid <> P2P.conversation_id env ->
       skipped cid (SendTask.Msg (Some (P2P.document out))) = true) /\
  (forall cfg (env : Hier.A2AEnvelope) replies now e out,
     Hier.decide cfg env replies now e = Some (Hier.Finalize out) ->
     exists data,
       Hier.model_dump_json out = JDict data /\
       (forall cid, Client.matches cid (Some (JDict data)) = true <->
                    cid = Hier.conversation_id env) /\
       (forall st, Client.done_queue
                     (Client._done_cb (Hier.conversation_id env) st (Some (JDict data)))
                   = Client.done_queue st ++ [data]) /\
       Client.displays data = true).
Proof.
  split.
  - intros cfg env reply e out MAX rest Hmax Hd.
    destruct (p2p_finalize_fields rt cfg env reply e out Hd) as (Hc & Hdraft & Hscore).
    assert (Hcid : forall cid,
               is_str cid (dict_get (list_to_map
                 [ ("envelope_version", JStr (P2P.envelope_version out));
                   ("message_id", JStr (P2P.message_id out));
                   ("conversation_id", JStr (P2P.conversation_id out));
                   ("traceparent", JStr (P2P.traceparent out));
                   ("sender", JStr (P2P.sender out));
                   ("target", JStr (P2P.target out));
                   ("ttl_ms", JInt (P2P.ttl_ms out));
                   ("retries", JInt (P2P.retries out));
                   ("max_retries", JInt (P2P.max_retries out));
                   ("payload", JDict (P2P.payload out)) ]) "conversation_id" JNull)
               = is_str cid (JStr (P2P.conversation_id out))) by reflexivity.
    split; [|split; [rewrite Hdraft; eauto|split; [exact Hscore|]]].
    + unfold P2P.document. cbn [SendTask.wait_for_final].
      destruct (Z.ltb_spec 0 MAX); [|lia].
      rewrite Hcid, Hc, is_str_refl. reflexivity.
    + intros cid Hne. unfold skipped, P2P.document. rewrite Hcid, Hc.
      unfold is_str. destruct (string_dec cid (P2P.conversation_id env)); [contradiction|reflexivity].
  - intros cfg env replies now e out Hd.
    destruct (hier_finalize_fields rt cfg env replies now e out Hd) as (Hc & _).
    unfold Hier.model_dump_json. eexists. split; [reflexivity|].
    split; [|split].
    + intros cid. rewrite matches_exact.
      change (Some (JStr (Hier.conversation_id out)) = Some (JStr cid) <->
              cid = Hier.conversation_id env).
      rewrite Hc. split; [intros [= ->]; reflexivity|intros ->; reflexivity].
    + intros st. rewrite done_cb_enqueues; [reflexivity|].
      apply matches_exact. rewrite <- Hc. reflexivity.
    + reflexivity.
Qed.

Lemma wait_for_final_skip MAX cid pre rest :
  forall k,
    Forall (fun a => skipped cid a = true) pre ->
    (k + Z.of_nat (length pre) <= MAX)%Z ->
    SendTask.wait_for_final MAX cid k (pre ++ rest)
    = SendTask.wait_for_final MAX cid (k + Z.of_nat (length pre)) rest.
Proof.
  induction pre as [|a pre IH]; intros k Hall Hlen.
  - simpl. f_equal. lia.
  - inversion Hall as [|? ? Ha Hpre]; subst. cbn [app SendTask.wait_for_final].
    cbn [length] in Hlen.
    destruct (Z.ltb_spec k MAX); [|lia].
    destruct a as [[[]|]|]; try discriminate Ha.
    + unfold skipped in Ha. apply negb_true_iff in Ha. rewrite Ha.
      rewrite IH by (auto; lia). f_equal. cbn [length]. lia.
    + rewrite IH by (auto; lia). f_equal. cbn [length]. lia.
Qed.

(** X14. The P2P client passes over messages that are not JSON or belong
    to another conversation, but counts them: behind fewer than
    [MAX_WAIT_MESSAGES] such messages its own answer is still taken, and
    behind [MAX_WAIT_MESSAGES] of them the client gives up, whatever
    arrives next. *)
Theorem foreign_messages_use_up_the_wait (MAX : Z) (cid : string)
    (pre rest : list SendTask.arrival) :
  Forall (fun a => skipped cid a = true) pre ->
  (Z.of_nat (length pre) <= MAX)%Z ->
  (Z.of_nat (length pre) = MAX ->
   SendTask.wait_for_final MAX cid 0 (pre ++ rest) = SendTask.NotMatched MAX) /\
  ((Z.of_nat (length pre) < MAX)%Z ->
   forall data p,
     data !! "conversation_id" = Some (JStr cid) -> SendTask.payload_of data = Some p ->
     SendTask.wait_for_final MAX cid 0 (pre ++ SendTask.Msg (Some (JDict data)) :: rest)
     = SendTask.Matched p).
Proof.
  intros Hall Hlen. split.
  - intros Heq. rewrite wait_for_final_skip by (auto; lia).
    rewrite Z.add_0_l, Heq.
    destruct rest; cbn [SendTask.wait_for_final]; rewrite Z.ltb_irrefl; reflexivity.
  - intros Hlt data p Hcid Hp. rewrite wait_for_final_skip by (auto; lia).
    rewrite Z.add_0_l. cbn [SendTask.wait_for_final].
    destruct (Z.ltb_spec (Z.of_nat (length pre)) MAX); [|lia].
    assert (Hk : dict_get data "conversation_id" JNull = JStr cid)
      by (unfold dict_get; rewrite Hcid; reflexivity).
    rewrite Hk, is_str_refl, Hp. reflexivity.
Qed.

Lemma foreign_messages_use_up_the_wait_witness :
  SendTask.wait_for_final 2 "c-1" 0
    ([SendTask.Msg None; SendTask.Msg (Some (JDict (final_result "c-2" 9)))]
       ++ [SendTask.Msg (Some (JDict (final_result "c-1" 9)))])
  = SendTask.NotMatched 2.
Proof.
  apply (foreign_messages_use_up_the_wait 2 "c-1"
           [SendTask.Msg None; SendTask.Msg (Some (JDict (final_result "c-2" 9)))]
           [SendTask.Msg (Some (JDict (final_result "c-1" 9)))]).
  - repeat constructor.
  - simpl. lia.
  - reflexivity.
Defined.

Lemma done_cb_balance cid st msg :
  balance (Client._done_cb cid st msg)
  = (balance st + (if Client.matches cid msg then 1 else 0))%Z /\
  Client.received (Client._done_cb cid st msg) = Client.received st.
Proof.
  unfold Client._done_cb, Client.matches, balance.
  destruct msg as [[]|]; simpl; try (split; lia).
  destruct (is_str _ _); simpl; [|split; lia].
  rewrite length_app. simpl. split; lia.
Qed.

Lemma iterate_balance cfg expected st t1 t2 :
  match Client.iterate cfg expected st t1 t2 with
  | inl st' => balance st' = balance st /\
               Client.received st <= Client.received st' <= Client.received st + 1
  | inr (_, st') => balance st' = balance st /\
                    Client.received st <= Client.received st' <= Client.received st + 1
  end%Z.
Proof.
  unfold Client.iterate, balance.
  destruct (Client.overall_elapsed _ _ _); [simpl; lia|].
  destruct (Client.done_queue st) as [|item rest] eqn:Hq.
  - destruct (Client.idle_elapsed _ _ _); simpl; rewrite ?Hq; simpl; lia.
  - destruct (Client.displays item); [destruct (Client.expected_reached _ _)|];
      simpl; lia.
Qed.

(** X15. The aggregating client invents no result and loses none: at any
    point of a run, the results taken plus the results still queued are
    those it started with plus the deliveries whose conversation id
    matched (a message delivered twice counts twice); so it never reports
    more results than matching messages were delivered to it. *)
Theorem client_counts_only_matching_deliveries (cfg : Client.Config) (expected : option Z)
    (cid : string) (evs : list Client.event) (st : Client.state) :
  let o := Client.run cfg expected cid st evs in
  (Client.received st <= Client.collected o <= balance st + deliveries cid evs)%Z /\
  (forall st', o = Client.Running st' -> balance st' = (balance st + deliveries cid evs)%Z).
Proof.
  revert st. induction evs as [|ev evs IH]; intros st; cbn [Client.run deliveries].
  - unfold balance. simpl. split; [lia|]. intros st' [= <-]. lia.
  - destruct ev as [msg|t1 t2].
    + destruct (done_cb_balance cid st msg) as (Hb & Hr).
      destruct (IH (Client._done_cb cid st msg)) as (Hrange & Hrun).
      cbv zeta. rewrite Hb, Hr in *. split; [lia|].
      intros st' Hst. rewrite (Hrun st' Hst). lia.
    + pose proof (iterate_balance cfg expected st t1 t2) as Hi.
      assert (Hnn : (0 <= deliveries cid evs)%Z).
      { clear. induction evs as [|[m|] evs IH]; simpl; try lia.
        destruct (Client.matches cid m); lia. }
      destruct (Client.iterate cfg expected st t1 t2) as [st1|[why st1]].
      * destruct Hi as (Hb & Hr). destruct (IH st1) as (Hrange & Hrun).
        cbv zeta. rewrite Hb in *. split; [lia|exact Hrun].
      * destruct Hi as (Hb & Hr). cbv zeta. simpl. split; [|discriminate].
        unfold balance in *. lia.
Qed.

(** X16. With an expected count [n >= 1] the aggregating client, started
    from zero, never collects more than [n] results: it goes on only
    while it has fewer, and stops for the expected count with exactly
    [n]. *)
Theorem client_never_exceeds_expected (cfg : Client.Config) (n : Z) (cid : string)
    (evs : list Client.event) (t0 : float) :
  (1 <= n)%Z ->
  match Client.run cfg (Some n) cid (Client.initial t0) evs with
  | Client.Running st' => (Client.received st' < n)%Z
  | Client.Stopped Client.ExpectedReached st' => Client.received st' = n
  | Client.Stopped _ st' => (Client.received st' <= n)%Z
  end.
Proof.
  intros Hn.
  assert (Hgen : forall st, (Client.received st < n)%Z ->
            match Client.run cfg (Some n) cid st evs with
            | Client.Running st' => (Client.received st' < n)%Z
            | Client.Stopped Client.ExpectedReached st' => Client.received st' = n
            | Client.Stopped _ st' => (Client.received st' <= n)%Z
            end).
  { induction evs as [|ev evs IH]; intros st Hst; cbn [Client.run]; [exact Hst|].
    destruct ev as [msg|t1 t2].
    - apply IH. destruct (done_cb_balance cid st msg) as (_ & ->). exact Hst.
    - unfold Client.iterate.
      destruct (Client.overall_elapsed _ _ _); [lia|].
      destruct (Client.done_queue st) as [|item rest].
      + destruct (Client.idle_elapsed _ _ _); [lia|]. apply IH. exact Hst.
      + destruct (Client.displays item); [|simpl; lia].
        unfold Client.expected_reached, Client.collect. cbn [Client.received].
        destruct (Z.eqb_spec n 0); [lia|]. cbn [negb andb].
        destruct (Z.leb_spec n (Client.received st + 1)).
        * simpl. lia.
        * apply IH. simpl. lia. }
  apply Hgen. simpl. lia.
Qed.

Lemma client_never_exceeds_expected_witness :
  (1 <= 1)%Z /\
  match Client.run (client_cfg 5 60) (Some 1%Z) "c-1" (Client.initial 0)
          [Client.Deliver (Some (JDict (final_result "c-1" 9)));
           Client.Deliver (Some (JDict (final_result "c-1" 9)));
           Client.Pass 1 1; Client.Pass 2 2] with
  | Client.Running st' => (Client.received st' < 1)%Z
  | Client.Stopped Client.ExpectedReached st' => Client.received st' = 1%Z
  | Client.Stopped _ st' => (Client.received st' <= 1)%Z
  end.
Proof.
  split; [lia|].
  apply (client_never_exceeds_expected (client_cfg 5 60) 1 "c-1"
           [Client.Deliver (Some (JDict (final_result "c-1" 9)));
            Client.Deliver (Some (JDict (final_result "c-1" 9)));
            Client.Pass 1 1; Client.Pass 2 2] 0%float).
  lia.
Defined.

End MoreClientFacts.

(* ===================================================================== *)
(** * Further properties: delegates, stub draft, connection and seed      *)
(* ===================================================================== *)

Section DelegateFacts.
Import Py Rand Trace Planner.
Context {rt : Runtime}.
Variable splitlines : string -> list string.
Variable strip_chars : string -> string -> string.

Lemma delegate_slice_length {A} (n : Z) (l : list A) :
  (0 <= n)%Z -> (Z.of_nat (length (Delegate.slice_to n l)) <= n)%Z.
Proof.
  intros Hn. unfold Delegate.slice_to. destruct (Z.leb_spec 0 n); [|lia].
  rewrite length_firstn. lia.
Qed.

Lemma fan_out_length (env : Hier.A2AEnvelope) sender target mk_payload items :
  forall clock e,
    (length (fan_out env sender target mk_payload items clock e) <= length items)%nat.
Proof.
  induction items as [|t rest IH]; intros clock e; cbn [fan_out length]; [lia|].
  destruct (mk_payload t); [|cbn [length]; lia].
  destruct (Hier.child _ _ _ _ _ _ _ _ _ _) as [[out e']|]; cbn [length]; [|lia].
  specialize (IH (fun i => clock (S i)) e'). lia.
Qed.

(** X17. The delegates of the two Planners return at most [max_topics]
    topics and [max_sections] sections (for a bound that is not
    negative), so the chief editor publishes at most [max_topics] requests
    and the section editor at most [max_sections]; with the bound 0
    nothing is published. *)
Theorem planners_publish_at_most_max :
  (forall replies max l,
     Delegate.list_topics splitlines strip_chars replies max = Some l ->
     (0 <= max)%Z -> (Z.of_nat (length l) <= max)%Z) /\
  (forall replies max l,
     Delegate.break_into_sections splitlines strip_chars replies max = Some l ->
     (0 <= max)%Z -> (Z.of_nat (length l) <= max)%Z) /\
  (forall env replies clock e m,
     py_int (dict_get (Hier.payload env) "max_topics" (JInt 5)) = Some m -> (0 <= m)%Z ->
     (Z.of_nat (length (Chief._handle env
        (fun _ max => Delegate.list_topics splitlines strip_chars replies max) clock e)) <= m)%Z) /\
  (forall env replies clock e m,
     py_int (dict_get (Hier.payload env) "max_sections" (JInt 6)) = Some m -> (0 <= m)%Z ->
     (Z.of_nat (length (SectionEditor._handle env
        (fun _ max => Delegate.break_into_sections splitlines strip_chars replies max) clock e))
      <= m)%Z).
Proof.
  assert (Htopics : forall replies max l,
             Delegate.list_topics splitlines strip_chars replies max = Some l ->
             (0 <= max)%Z -> (Z.of_nat (length l) <= max)%Z).
  { intros replies max l. unfold Delegate.list_topics.
    destruct (Delegate._complete replies); [|discriminate].
    intros [= <-] Hmax. apply delegate_slice_length. exact Hmax. }
  assert (Hsections : forall replies max l,
             Delegate.break_into_sections splitlines strip_chars replies max = Some l ->
             (0 <= max)%Z -> (Z.of_nat (length l) <= max)%Z).
  { intros replies max l. unfold Delegate.break_into_sections.
    destruct (Delegate._complete replies); [|discriminate].
    intros [= <-] Hmax. apply delegate_slice_length. exact Hmax. }
  split; [exact Htopics|]. split; [exact Hsections|]. split.
  - intros env replies clock e m Hm Hpos.
    unfold Chief._handle, publish_all, Chief.children. rewrite length_map, Hm.
    destruct (py_int (dict_get (Hier.payload env) "max_sections" (JInt 6))); [|simpl; lia].
    destruct (Delegate.list_topics _ _ _ _) as [l|] eqn:Hl; [|simpl; lia].
    pose proof (Htopics replies m l Hl Hpos).
    match goal with |- context [fan_out ?a ?b ?c ?d ?i ?k ?e] =>
      pose proof (fan_out_length a b c d i k e)
    end. lia.
  - intros env replies clock e m Hm Hpos.
    unfold SectionEditor._handle, publish_all, SectionEditor.children. rewrite length_map, Hm.
    destruct (py_int (dict_get (Hier.payload env) "max_retries" (JInt 2))); [|simpl; lia].
    destruct (Delegate.break_into_sections _ _ _ _) as [l|] eqn:Hl; [|simpl; lia].
    pose proof (Hsections replies m l Hl Hpos).
    match goal with |- context [fan_out ?a ?b ?c ?d ?i ?k ?e] =>
      pose proof (fan_out_length a b c d i k e)
    end. lia.
Qed.

End DelegateFacts.

Section StubFacts.
Import Py Rand Trace.
Context {rt : Runtime}.
Variable splitlines : string -> list string.

Lemma bullets_spec (ns : list string) :
  forall l, (length l <= 5)%nat ->
    exists more, Stub.bullets l ns = l ++ more /\
                 Forall (fun x => startswith "-" x = true) more /\
                 (length l + length more <= 6)%nat.
Proof.
  induction ns as [|ln rest IH]; intros l Hl; cbn [Stub.bullets].
  - exists []. rewrite app_nil_r. repeat split; [constructor|simpl; lia].
  - destruct (startswith "-" (strip ln)) eqn:Hdash.
    + destruct (Nat.leb_spec 6 (length (l ++ [strip ln]))) as [Hfull|Hroom].
      * exists [strip ln]. rewrite length_app in Hfull. simpl in *.
        repeat split; [repeat constructor; exact Hdash|lia].
      * rewrite length_app in Hroom. simpl in Hroom.
        destruct (IH (l ++ [strip ln])) as (more & Hb & Hall & Hlen);
          [rewrite length_app; simpl; lia|].
        exists (strip ln :: more). rewrite Hb, <- app_assoc. simpl.
        rewrite length_app in Hlen. simpl in Hlen.
        repeat split; [constructor; assumption|lia].
    + destruct (Nat.leb_spec 6 (length l)) as [Hfull|_]; [lia|].
      apply IH. exact Hl.
Qed.

Lemma newlines_append a b : newlines (a +:+ b) = (newlines a + newlines b)%nat.
Proof. induction a as [|c a IH]; simpl; [reflexivity|]. rewrite IH. lia. Qed.

Lemma newlines_concat (l : list string) :
  newlines (String.concat (String "010" EmptyString) l)
  = (length l - 1 + list_sum (map newlines l))%nat.
Proof.
  induction l as [|x l IH]; [reflexivity|].
  destruct l as [|y l].
  - simpl. lia.
  - change (String.concat (String "010" EmptyString) (x :: y :: l))
      with (x +:+ String "010" EmptyString
              +:+ String.concat (String "010" EmptyString) (y :: l)).
    rewrite !newlines_append, IH.
    change (newlines (String "010" EmptyString)) with 1%nat.
    change (list_sum (map newlines (x :: y :: l)))
      with (newlines x + list_sum (map newlines (y :: l)))%nat.
    cbn [length]. lia.
Qed.

Lemma single_lines_sum (l : list string) :
  Forall (fun entry => newlines entry = 0%nat) l -> list_sum (map newlines l) = 0%nat.
Proof.
  induction 1 as [|x l Hx _ IH]; [reflexivity|].
  change (newlines x + list_sum (map newlines l) = 0)%nat. rewrite Hx, IH. reflexivity.
Qed.

(** X18. The list of entries that the stub draft joins with line breaks
    opens with "Answer: " and the stripped task; when there are notes, the
    heading "Key points:" follows with at most four lines of the notes,
    each starting with a dash; at most two more entries close it (the
    revision note and the sources), so the list has between one and eight
    entries. The text returned has one line break for each entry after the
    first, besides the line breaks inside the entries: it has at most
    eight lines when no entry has a line break of its own, and more when
    the task, the feedback, a note or a source brings some. *)
Theorem stub_draft_has_at_most_four_bullets (task notes : string)
    (sources : option (list string)) (feedback : string) :
  let lines := Stub.draft_lines splitlines task notes sources feedback in
  let text := Stub.draft_stub splitlines task notes sources feedback in
  (exists more closing,
     lines = ("Answer: " +:+ strip task)
               :: (if (String.length notes =? 0)%nat then [] else "Key points:" :: more)
               ++ closing /\
     (length more <= 4)%nat /\
     Forall (fun x => startswith "-" x = true) more /\
     (length closing <= 2)%nat) /\
  (1 <= length lines <= 8)%nat /\
  newlines text = (length lines - 1 + list_sum (map newlines lines))%nat /\
  (Forall (fun entry => newlines entry = 0%nat) lines -> (newlines text <= 7)%nat).
Proof.
  intros lines text.
  destruct (bullets_spec (splitlines notes) (["Answer: " +:+ strip task] ++ ["Key points:"]))
    as (more & Hb & Hall & Hlen); [simpl; lia|].
  simpl in Hlen.
  set (fbk := if (String.length feedback =? 0)%nat then []
              else ["Revision applied: " +:+ strip feedback]).
  set (src := match sources with
              | Some srcs =>
                  match firstn 3 (List.filter (fun s => negb (String.length s =? 0)%nat) srcs) with
                  | [] => []
                  | c :: cs => ["Sources: " +:+ String.concat ", " (c :: cs)]
                  end
              | None => []
              end).
  assert (Hfbk : (length fbk <= 1)%nat)
    by (unfold fbk; destruct (String.length feedback =? 0)%nat; simpl; lia).
  assert (Hsrc : (length src <= 1)%nat)
    by (unfold src; destruct sources as [srcs|]; [destruct (firstn 3 _)|]; simpl; lia).
  assert (Hshape :
    lines
    = ("Answer: " +:+ strip task)
        :: (if (String.length notes =? 0)%nat then []
            else "Key points:" :: (if (String.length notes =? 0)%nat then [] else more))
        ++ fbk ++ src).
  { unfold lines, Stub.draft_lines, fbk, src. cbv zeta.
    destruct (String.length notes =? 0)%nat; [|rewrite Hb];
      destruct (String.length feedback =? 0)%nat;
      (destruct sources as [srcs|]; [destruct (firstn 3 _) as [|c cs]|]);
      cbn [app]; rewrite <- ?app_assoc, ?app_nil_r; reflexivity. }
  assert (Hcount : (1 <= length lines <= 8)%nat).
  { rewrite Hshape. cbn [length]. rewrite !length_app.
    destruct (String.length notes =? 0)%nat; cbn [length]; lia. }
  assert (Htext : newlines text = (length lines - 1 + list_sum (map newlines lines))%nat)
    by apply newlines_concat.
  split; [|split; [exact Hcount|split; [exact Htext|]]].
  - exists (if (String.length notes =? 0)%nat then [] else more), (fbk ++ src).
    split; [exact Hshape|].
    split; [destruct (String.length notes =? 0)%nat; simpl; lia|].
    split; [destruct (String.length notes =? 0)%nat; [constructor|exact Hall]|].
    rewrite length_app; lia.
  - intros Hsingle. rewrite Htext.
    rewrite (single_lines_sum lines Hsingle). lia.
Qed.

(** A task of two lines gives a draft of two lines from a single entry. *)
Example stub_draft_of_two_line_task :
  Stub.draft_lines (rt := Ascii7.runtime) (fun s => [s])
    (String "a" (String "010" (String "b" EmptyString))) "" None ""
  = [String.append "Answer: " (String "a" (String "010" (String "b" EmptyString)))] /\
  newlines (Stub.draft_stub (rt := Ascii7.runtime) (fun s => [s])
              (String "a" (String "010" (String "b" EmptyString))) "" None "") = 1%nat.
Proof. split; reflexivity. Qed.

Lemma startswith_self p s : startswith p (p +:+ s) = true.
Proof.
  induction p as [|c p IH]; simpl; [reflexivity|].
  destruct (ascii_dec c c); [exact IH|contradiction].
Qed.

Lemma startswith_app_l p a b : startswith p a = true -> startswith p (a +:+ b) = true.
Proof.
  revert a. induction p as [|c p IH]; intros a; simpl; [reflexivity|].
  destruct a as [|d a]; [discriminate|]. simpl.
  destruct (ascii_dec c d); [apply IH|discriminate].
Qed.

Lemma contains_startswith p s : startswith p s = true -> contains p s = true.
Proof. intros H. destruct s; simpl; rewrite H; reflexivity. Qed.

Lemma contains_app_r p a b : contains p b = true -> contains p (a +:+ b) = true.
Proof.
  intros H. induction a as [|c a IH]; simpl; [exact H|].
  rewrite IH. apply orb_true_r.
Qed.

Lemma contains_app_l p a b : contains p a = true -> contains p (a +:+ b) = true.
Proof.
  induction a as [|c a IH]; intros H.
  - simpl in H. rewrite orb_false_r in H.
    apply contains_startswith. apply (startswith_app_l p "" b H).
  - cbn [contains] in H. apply orb_true_iff in H. destruct H as [H|H].
    + apply contains_startswith. apply startswith_app_l. exact H.
    + simpl. rewrite (IH H). apply orb_true_r.
Qed.

Lemma contains_concat p sep x l :
  In x l -> contains p x = true -> contains p (String.concat sep l) = true.
Proof.
  intros Hin Hx. induction l as [|y l IH]; [destruct Hin|].
  destruct l as [|z l].
  - destruct Hin as [->|[]]. exact Hx.
  - change (String.concat sep (y :: z :: l)) with (y +:+ sep +:+ String.concat sep (z :: l)).
    destruct Hin as [->|Hin].
    + apply contains_app_l. exact Hx.
    + apply contains_app_r, contains_app_r. apply IH. exact Hin.
Qed.

(** X19. A stub draft written for a revision (the feedback is not empty)
    that names at least one source carries the markers "Revision
    applied:" and "Sources:", so the heuristic of the Reviewer answers it
    with "Looks good." and a score of at least 5.9, whatever the feedback
    asked for. *)
Theorem revised_stub_draft_looks_good (task notes feedback : string) (srcs : list string) :
  feedback <> "" ->
  (exists x, In x (firstn 3 (List.filter (fun s => negb (String.length s =? 0)%nat) srcs))) ->
  let d := Stub.draft_stub splitlines task notes (Some srcs) feedback in
  contains "Revision applied:" d = true /\ contains "Sources:" d = true /\
  exists score, P2P.heuristic_score (JStr d) = Some (score, "Looks good.") /\
                (5.9 <=? score)%float = true.
Proof.
  intros Hfb (x & Hx) d.
  assert (Hrev : contains "Revision applied:" d = true).
  { unfold d, Stub.draft_stub.
    apply (contains_concat _ _ ("Revision applied: " +:+ strip feedback)).
    - unfold Stub.draft_lines. destruct feedback as [|c f]; [contradiction|].
      cbn [String.length Nat.eqb].
      destruct (firstn 3 _); [|apply in_or_app; left]; apply in_or_app; right; left; reflexivity.
    - apply contains_startswith.
      apply (startswith_self "Revision applied:" (" " +:+ strip feedback)). }
  assert (Hsrc : contains "Sources:" d = true).
  { unfold d, Stub.draft_stub.
    destruct (firstn 3 (List.filter (fun s => negb (String.length s =? 0)%nat) srcs))
      as [|c cs] eqn:Hcap; [destruct Hx|].
    apply (contains_concat _ _ ("Sources: " +:+ String.concat ", " (c :: cs))).
    - unfold Stub.draft_lines. rewrite Hcap. apply in_or_app. right. left. reflexivity.
    - apply contains_startswith.
      apply (startswith_self "Sources:" (" " +:+ String.concat ", " (c :: cs))). }
  split; [exact Hrev|]. split; [exact Hsrc|].
  unfold P2P.heuristic_score, str_in, len. rewrite Hrev, Hsrc.
  cbv beta iota zeta. eexists. split; [reflexivity|].
  cbn [existsb].
  destruct (contains "Key points:" d); destruct (contains "concise" (lower d) || _);
    destruct (300 <? py_len d)%Z; vm_compute; reflexivity.
Qed.

End StubFacts.

Lemma revised_stub_draft_looks_good_witness :
  exists score,
    P2P.heuristic_score (rt := Ascii7.runtime)
      (Py.JStr (Stub.draft_stub (rt := Ascii7.runtime) (fun s => [s]) "why" "- a" (Some ["s1"])
                  "add dates")) = Some (score, "Looks good.") /\
    (5.9 <=? score)%float = true.
Proof.
  destruct (revised_stub_draft_looks_good (rt := Ascii7.runtime) (fun s => [s]) "why" "- a"
              "add dates" ["s1"]) as (_ & _ & H).
  - discriminate.
  - exists "s1". left. reflexivity.
  - exact H.
Defined.

Section ConnectionFacts.
Import Py Rand Trace.
Context {rt : Runtime}.

(** X20. A service connects with TLS only if the variable NATS_TLS, read
    with the default text [true], is one of the six words for true after
    stripping and lowering: any other value that is set, an empty one
    included, turns TLS off, and so does a context that cannot be
    built. *)
Theorem tls_needs_a_true_word {ctx : Type} (NATS_TLS CAFILE : option string)
    (create : option string -> option ctx) (c : ctx) :
  Env._build_tls_context (Env.nats_tls_enabled NATS_TLS) CAFILE create = Some c ->
  In (lower (strip (default "true" NATS_TLS))) Env.TRUE_WORDS /\
  exists cafile, create cafile = Some c /\ (cafile = None \/ cafile = CAFILE).
Proof.
  unfold Env._build_tls_context, Env.nats_tls_enabled, Env._parse_bool.
  destruct (existsb _ Env.TRUE_WORDS) eqn:Hw; [|discriminate]. cbn [negb].
  intros Hc. split.
  - apply existsb_exists in Hw. destruct Hw as (w & Hin & Heq).
    destruct (string_dec _ w) as [->|]; [exact Hin|discriminate].
  - destruct CAFILE as [f|]; [destruct (String.length f =? 0)%nat|]; eauto.
Qed.

End ConnectionFacts.

Lemma tls_needs_a_true_word_witness :
  In (Py.lower (Runtime := Ascii7.runtime) (Py.strip (Runtime := Ascii7.runtime) " Yes "))
     (Env.TRUE_WORDS) /\
  exists cafile, (fun _ : option string => Some tt) cafile = Some tt /\
                 (cafile = None \/ cafile = None).
Proof.
  apply (tls_needs_a_true_word (rt := Ascii7.runtime) (ctx := unit)
           (Some " Yes ") None (fun _ => Some tt) tt).
  reflexivity.
Defined.

Section SeedFacts.
Import Py Rand Trace.

(** X21. The aggregating client never connects with TLS once a CA file is
    configured: the branch that would load the file fails before it does
    and the function returns no context, for every way of building one;
    the services, given the same settings, build the context from that
    file. *)
Theorem client_ca_file_turns_tls_off {ctx : Type} (enabled : bool) (cafile : string)
    (create : option string -> option ctx) :
  cafile <> "" ->
  Seed._build_tls_context enabled (Some cafile) create = None /\
  Env._build_tls_context true (Some cafile) create = create (Some cafile).
Proof.
  intros Hne. unfold Seed._build_tls_context, Env._build_tls_context.
  destruct cafile as [|c f]; [contradiction|]. cbn [String.length Nat.eqb negb].
  destruct enabled; split; reflexivity.
Qed.

Lemma client_ca_file_turns_tls_off_witness :
  Seed._build_tls_context true (Some "ca.pem") (fun _ : option string => Some tt) = None /\
  Env._build_tls_context true (Some "ca.pem") (fun _ : option string => Some tt) = Some tt.
Proof.
  apply (client_ca_file_turns_tls_off (ctx := unit) true "ca.pem" (fun _ => Some tt)).
  discriminate.
Defined.

(** X22. The seed of the aggregating client is accepted by the chief
    editor as an envelope whose retry budget is already used up:
    [retries = max_retries = 0], whatever [--max-retries] was given, a
    value that travels in the payload only. The seed carries no trace
    context, so the chief editor draws a new one of the W3C shape; the
    conversation id is the second identifier the client drew. *)
Theorem seed_envelope_has_no_budget (area : string) (max_topics max_sections max_retries : Z)
    (style : string) (sources : list string) (research_notes : string)
    (e : entropy) (now : string) (e' : entropy) :
  let data := fst (Seed.seed area max_topics max_sections max_retries style sources
                     research_notes e) in
  data !! "traceparent" = None /\
  data !! "conversation_id" = Some (JStr (fst (uuid4 (snd (uuid4 e))))) /\
  exists env e'',
    Seed.validate data now e' = Some (Some (env, e'')) /\
    Hier.valid env /\
    Hier.retries env = 0%Z /\ Hier.max_retries env = 0%Z /\
    Hier.payload env !! "max_retries" = Some (JInt max_retries) /\
    Hier.conversation_id env = fst (uuid4 (snd (uuid4 e))) /\
    Hier.sender env = "client@v1" /\
    valid_traceparent (Hier.traceparent env) = true.
Proof.
  unfold Seed.seed, Seed.make_envelope, Seed.new_id.
  destruct (uuid4 e) as [mid e1]. cbn [snd].
  destruct (uuid4 e1) as [cid e2]. cbn [fst].
  split; [reflexivity|]. split; [reflexivity|].
  set (payload := <["area" := JStr area]> _).
  pose proof (new_traceparent_valid e') as Htp.
  assert (Hv : Seed.validate
                 (<["message_id" := JStr mid]> (<["conversation_id" := JStr cid]>
                  (<["sender" := JStr "client@v1"]> (<["target" := JStr "chief@v1"]>
                   (<["payload" := JDict payload]> (<["retries" := JInt 0]>
                    (<["max_retries" := JInt 0]> ∅))))))) now e'
               = Some (Hier.init (Some mid) (Some cid) None "client@v1" "chief@v1" None
                         (Some 0%Z) (Some 0%Z) (Some payload) now e')) by reflexivity.
  cbn [default]. rewrite Hv. unfold Hier.init.
  destruct (new_traceparent e') as [tp e3]. simpl in Htp. simpl.
  eexists _, _. split; [reflexivity|]. simpl.
  repeat split; simpl; try lia; try exact Htp.
Qed.

End SeedFacts.

Section ConversationFacts.
Import Py Rand Trace.
Context {rt : Runtime}.

Lemma wait_for_final_document (out : P2P.A2AEnvelope) MAX rest :
  (0 < MAX)%Z ->
  SendTask.wait_for_final MAX (P2P.conversation_id out) 0
    (SendTask.Msg (Some (P2P.document out)) :: rest) = SendTask.Matched (P2P.payload out).
Proof.
  intros Hmax. unfold P2P.document. cbn [SendTask.wait_for_final].
  destruct (Z.ltb_spec 0 MAX); [|lia].
  change (dict_get (list_to_map _) "conversation_id" JNull)
    with (JStr (P2P.conversation_id out)).
  rewrite is_str_refl. reflexivity.
Qed.

(** X23. A P2P conversation that reaches the Reviewer ends with an answer
    for its client: when the Writer returns a draft for every revision,
    the exchange between Reviewer and Writer publishes a final result
    after at most [max_retries - retries] revision requests, whatever the
    scores are, and the client that waits for this conversation takes the
    payload of that result, which has a draft. *)
Theorem p2p_conversation_ends_with_answer (cfg : P2P.config)
    (replies : nat -> P2P.llm_reply) (drafts : nat -> option string)
    (ev ew : nat -> entropy) (env : P2P.A2AEnvelope) (fuel : nat) (MAX : Z)
    (rest : list SendTask.arrival) :
  (forall k, is_Some (drafts k)) ->
  scorable env ->
  (Z.to_nat (P2P.max_retries env - P2P.retries env) < fuel)%nat ->
  (0 < MAX)%Z ->
  exists hops out,
    Branch.p2p cfg replies drafts ev ew fuel 0 env = Branch.Finalized hops (P2P.document out) /\
    (Z.of_nat hops <= Z.max 0 (P2P.max_retries env - P2P.retries env))%Z /\
    SendTask.wait_for_final MAX (P2P.conversation_id env) 0
      (SendTask.Msg (Some (P2P.document out)) :: rest) = SendTask.Matched (P2P.payload out) /\
    is_Some (P2P.payload out !! "draft").
Proof.
  intros Hdrafts Hscorable Hfuel Hmax.
  destruct (p2p_branch_finalizes cfg replies drafts ev ew Hdrafts
              (Z.to_nat (P2P.max_retries env - P2P.retries env)) env 0 fuel Hscorable)
    as (hops & out & Hrun & Hhops & _ & _ & Hc & _ & Hdraft & _); [lia|exact Hfuel|].
  exists hops, out. split; [exact Hrun|]. split; [lia|].
  split; [rewrite <- Hc; apply wait_for_final_document; exact Hmax|exact Hdraft].
Qed.

End ConversationFacts.

Lemma p2p_conversation_ends_with_answer_witness :
  exists hops out,
    Branch.p2p (rt := Ascii7.runtime) p2p_cfg (scores_p2p [3%float; 4%float])
      (fun _ => Some "Answer: y") (fun _ => count_entropy) (fun _ => count_entropy)
      3 0 sample_p2p = Branch.Finalized hops (P2P.document out) /\
    (Z.of_nat hops <= Z.max 0 (P2P.max_retries sample_p2p - P2P.retries sample_p2p))%Z /\
    SendTask.wait_for_final 200 (P2P.conversation_id sample_p2p) 0
      (SendTask.Msg (Some (P2P.document out)) :: []) = SendTask.Matched (P2P.payload out) /\
    is_Some (P2P.payload out !! "draft").
Proof.
  apply (p2p_conversation_ends_with_answer (rt := Ascii7.runtime) p2p_cfg
           (scores_p2p [3%float; 4%float]) (fun _ => Some "Answer: y")
           (fun _ => count_entropy) (fun _ => count_entropy) sample_p2p 3 200 []).
  - intros k. eauto.
  - split; [exists "Answer: x"; vm_compute; reflexivity|vm_compute; eauto].
  - vm_compute. lia.
  - lia.
Defined.
